(** * Treasury movement simulator: the transfer engine, the history filter
      and the currency totals of [src/components/TreasurySimulator.tsx]

    The component keeps four pieces of state (accounts, transactions, the
    transfer form and the filters) and derives the filtered history and the
    per-currency totals from them.  The development below embeds that logic:

    - a JavaScript [number] is an IEEE 754 binary64 value, here the primitive
      [float] of the kernel, so that every sum, product and comparison of the
      component is the one the program performs;
    - a JavaScript string is a [string]; a character outside ASCII is the
      bytes of its UTF-8 encoding;
    - the clock ([Date.now()], [new Date().toISOString()]) is an explicit
      input of the transfer handler, and the host's date parser
      ([new Date(s)]) is a parameter of the history filter. *)

From Stdlib Require Import ZArith List Bool String Ascii Floats Lia.
From Stdlib Require Import DecimalString DecimalZ Sorted.
Import ListNotations.

Local Open Scope string_scope.

#[local] Set Warnings "-inexact-float".

(** ** The parts of the JavaScript language the component relies on *)

Module JS.

(** [!s] is false exactly for the non-empty strings. *)
Definition truthy (s : string) : bool :=
  match s with
  | EmptyString => false
  | String _ _ => true
  end.

(** [!x] for a number: zero (of either sign) and NaN are falsy. *)
Definition falsy_number (x : float) : bool :=
  (PrimFloat.is_nan x || (x =? 0)%float)%bool.

(** [s.includes(sub)]: [sub] occurs in [s] as a contiguous run. *)
Fixpoint includes (s sub : string) : bool :=
  if String.prefix sub s then true
  else match s with
       | EmptyString => false
       | String _ s' => includes s' sub
       end.

(** *** [parseFloat]

    ECMAScript's [parseFloat] drops leading white space, takes the longest
    prefix that is a [StrDecimalLiteral] (an optional sign followed by
    [Infinity] or by a decimal literal with an optional fraction and an
    optional exponent) and returns the Number nearest to its mathematical
    value, ties to even; without such a prefix the result is NaN.
    The white space it drops is the [WhiteSpace] and [LineTerminator] of
    ECMAScript: TAB, LF, VT, FF, CR and SP, and outside ASCII U+00A0,
    U+1680, U+2000 to U+200A, U+2028, U+2029, U+202F, U+205F, U+3000 and
    U+FEFF, here by the bytes of their UTF-8 encoding. *)

Definition is_white (c : ascii) : bool :=
  match nat_of_ascii c with
  | 9 | 10 | 11 | 12 | 13 | 32 => true
  | _ => false
  end.

(** U+00A0 *)
Definition is_white2 (c1 c2 : ascii) : bool :=
  ((N_of_ascii c1 =? 194) && (N_of_ascii c2 =? 160))%N.

(** U+1680; U+2000 to U+200A, U+2028, U+2029 and U+202F; U+205F; U+3000;
    U+FEFF *)
Definition is_white3 (c1 c2 c3 : ascii) : bool :=
  let a := N_of_ascii c1 in
  let b := N_of_ascii c2 in
  let c := N_of_ascii c3 in
  (((a =? 225) && (b =? 154) && (c =? 128))
   || ((a =? 226) && (b =? 128)
       && (((128 <=? c) && (c <=? 138))
           || (c =? 168) || (c =? 169) || (c =? 175)))
   || ((a =? 226) && (b =? 129) && (c =? 159))
   || ((a =? 227) && (b =? 128) && (c =? 128))
   || ((a =? 239) && (b =? 187) && (c =? 191)))%N.

Fixpoint trimStart (s : string) : string :=
  match s with
  | String c1 s1 =>
      if is_white c1 then trimStart s1
      else
        match s1 with
        | String c2 s2 =>
            if is_white2 c1 c2 then trimStart s2
            else
              match s2 with
              | String c3 s3 =>
                  if is_white3 c1 c2 c3 then trimStart s3 else s
              | EmptyString => s
              end
        | EmptyString => s
        end
  | EmptyString => s
  end.

Definition digit_of (c : ascii) : option Z :=
  let n := Z.of_nat (nat_of_ascii c) in
  if ((48 <=? n) && (n <=? 57))%Z then Some (n - 48)%Z else None.

(** The longest run of decimal digits at the head of [s]: the number read
    so far (starting from [acc]), how many digits were read (starting from
    [n]) and what is left of the string. *)
Fixpoint decimalDigits (s : string) (acc n : Z) : Z * Z * string :=
  match s with
  | String c s' =>
      match digit_of c with
      | Some d => decimalDigits s' (10 * acc + d)%Z (n + 1)%Z
      | None => (acc, n, s)
      end
  | EmptyString => (acc, n, s)
  end.

(** [ExponentPart]: [e] or [E], an optional sign and at least one digit;
    anything else is no exponent at all and is left unread. *)
Definition exponentPart (s : string) : Z :=
  match s with
  | String c r =>
      if (Ascii.eqb c "e" || Ascii.eqb c "E")%bool then
        let '(neg, r') :=
          match r with
          | String "-" r' => (true, r')
          | String "+" r' => (false, r')
          | _ => (false, r)
          end in
        let '(e, n, _) := decimalDigits r' 0 0 in
        if (n =? 0)%Z then 0%Z else if neg then (- e)%Z else e
      else 0%Z
  | EmptyString => 0%Z
  end.

(** [StrUnsignedDecimalLiteral] other than [Infinity], as the pair of an
    integer [m] and a power of ten [e] standing for [m * 10^e]. *)
Definition strUnsignedDecimal (s : string) : option (Z * Z) :=
  let '(ip, ni, r1) := decimalDigits s 0 0 in
  let '(m, nf, r2) :=
    match r1 with
    | String "." r => decimalDigits r ip 0
    | _ => (ip, 0%Z, r1)
    end in
  if (ni + nf =? 0)%Z then None
  else Some (m, (exponentPart r2 - nf)%Z).

(** The Number value of [m * 10^e] for [m > 0]: the nearest binary64
    value, ties to even.  A negative power of ten is divided out with 64
    bits to spare and a sticky bit for the remainder, which rounds as the
    exact quotient does. *)
Definition round_decimal (m e : Z) : spec_float :=
  if (0 <=? e)%Z then binary_normalize prec emax (m * 10 ^ e) 0 false
  else
    let d := (10 ^ (- e))%Z in
    let k := Z.max 0 (Z.log2 d + 64 - Z.log2 m) in
    let '(q, r) := Z.div_eucl (m * 2 ^ k) d in
    binary_normalize prec emax
      (2 * q + (if (r =? 0)%Z then 0 else 1)) (- k - 1) false.

Definition number_of_decimal (neg : bool) (m e : Z) : float :=
  if (m =? 0)%Z then (if neg then neg_zero else zero)
  else
    let x := SF2Prim (round_decimal m e) in
    if neg then (- x)%float else x.

Definition parseFloat (s : string) : float :=
  let t := trimStart s in
  let '(neg, u) :=
    match t with
    | String "-" r => (true, r)
    | String "+" r => (false, r)
    | _ => (false, t)
    end in
  if String.prefix "Infinity" u then
    (if neg then neg_infinity else infinity)
  else
    match strUnsignedDecimal u with
    | Some (m, e) => number_of_decimal neg m e
    | None => nan
    end.

(** [n.toString()] for an integral Number, as [Date.now()] returns:
    the decimal digits, after a minus sign below zero. *)
Definition toString (n : Z) : string :=
  NilZero.string_of_int (Z.to_int n).

End JS.

(** ** Data model *)

(** [type Currency = 'KES' | 'USD' | 'NGN'], with the string each value is. *)
Inductive Currency := KES | USD | NGN.

Definition Currency_name (c : Currency) : string :=
  match c with
  | KES => "KES"
  | USD => "USD"
  | NGN => "NGN"
  end.

Definition Currency_eqb (c d : Currency) : bool :=
  match c, d with
  | KES, KES | USD, USD | NGN, NGN => true
  | _, _ => false
  end.

Module Account.
Record t := mk {
  id : string;
  name : string;
  currency : Currency;
  balance : float
}.
End Account.

Inductive Status := Completed | Scheduled.

Definition Status_name (s : Status) : string :=
  match s with
  | Completed => "Completed"
  | Scheduled => "Scheduled"
  end.

Module Transaction.
Record t := mk {
  id : string;
  timestamp : string;
  fromAccount : string;
  toAccount : string;
  fromCurrency : Currency;
  toCurrency : Currency;
  amount : float;
  convertedAmount : float;
  fxRate : float;
  note : string;
  scheduledDate : option string;
  status : Status
}.
End Transaction.

Module TransferForm.
Record t := mk {
  fromAccount : string;
  toAccount : string;
  amount : string;
  note : string;
  scheduledDate : string
}.

Definition empty : t := mk "" "" "" "" "".

Inductive field := fromAccount_ | toAccount_ | amount_ | note_ | scheduledDate_.

(** [{ ...prev, [field]: value }] *)
Definition set (f : field) (value : string) (prev : t) : t :=
  match f with
  | fromAccount_ => mk value (toAccount prev) (amount prev) (note prev) (scheduledDate prev)
  | toAccount_ => mk (fromAccount prev) value (amount prev) (note prev) (scheduledDate prev)
  | amount_ => mk (fromAccount prev) (toAccount prev) value (note prev) (scheduledDate prev)
  | note_ => mk (fromAccount prev) (toAccount prev) (amount prev) value (scheduledDate prev)
  | scheduledDate_ => mk (fromAccount prev) (toAccount prev) (amount prev) (note prev) value
  end.
End TransferForm.

Module Filters.
Record t := mk {
  account : string;
  currency : string;
  dateFrom : string;
  dateTo : string
}.

Definition empty : t := mk "" "" "" "".

Inductive field := account_ | currency_ | dateFrom_ | dateTo_.

Definition get (f : field) (fl : t) : string :=
  match f with
  | account_ => account fl
  | currency_ => currency fl
  | dateFrom_ => dateFrom fl
  | dateTo_ => dateTo fl
  end.

(** [{ ...prev, [field]: value }] *)
Definition set (f : field) (value : string) (prev : t) : t :=
  match f with
  | account_ => mk value (currency prev) (dateFrom prev) (dateTo prev)
  | currency_ => mk (account prev) value (dateFrom prev) (dateTo prev)
  | dateFrom_ => mk (account prev) (currency prev) value (dateTo prev)
  | dateTo_ => mk (account prev) (currency prev) (dateFrom prev) value
  end.
End Filters.

(** The [useState] cells of the component. *)
Module State.
Record t := mk {
  accounts : list Account.t;
  transactions : list Transaction.t;
  transferForm : TransferForm.t;
  filters : Filters.t;
  showFilters : bool;
  error : string;
  success : string
}.

Definition setAccounts (v : list Account.t) (s : t) : t :=
  mk v (transactions s) (transferForm s) (filters s) (showFilters s) (error s) (success s).
Definition setTransactions (v : list Transaction.t) (s : t) : t :=
  mk (accounts s) v (transferForm s) (filters s) (showFilters s) (error s) (success s).
Definition setTransferForm (v : TransferForm.t) (s : t) : t :=
  mk (accounts s) (transactions s) v (filters s) (showFilters s) (error s) (success s).
Definition setFilters (v : Filters.t) (s : t) : t :=
  mk (accounts s) (transactions s) (transferForm s) v (showFilters s) (error s) (success s).
Definition setShowFilters (v : bool) (s : t) : t :=
  mk (accounts s) (transactions s) (transferForm s) (filters s) v (error s) (success s).
Definition setError (v : string) (s : t) : t :=
  mk (accounts s) (transactions s) (transferForm s) (filters s) (showFilters s) v (success s).
Definition setSuccess (v : string) (s : t) : t :=
  mk (accounts s) (transactions s) (transferForm s) (filters s) (showFilters s) (error s) v.
End State.

(** What a call of [handleTransfer] reads from the clock: [Date.now()], a
    whole number of milliseconds, and [new Date().toISOString()]. *)
Module Clock.
Record t := mk {
  now : Z;
  isoString : string
}.
End Clock.

(** ** The component *)

(** [FX_RATES]: the object literal, as its list of keys and values. *)
Definition FX_RATES : list (string * float) :=
  [ ("KES-USD", 0.0067%float);
    ("USD-KES", 149.25%float);
    ("KES-NGN", 0.27%float);
    ("NGN-KES", 3.70%float);
    ("USD-NGN", 1580.00%float);
    ("NGN-USD", 0.00063%float) ].

(** [FX_RATES[rateKey]]; [None] is [undefined]. *)
Fixpoint lookup (table : list (string * float)) (key : string) : option float :=
  match table with
  | [] => None
  | (k, v) :: rest => if String.eqb k key then Some v else lookup rest key
  end.

Definition initialAccounts : list Account.t :=
  [ Account.mk "mpesa_kes_1" "Mpesa_KES_1" KES 2500000%float;
    Account.mk "mpesa_kes_2" "Mpesa_KES_2" KES 1800000%float;
    Account.mk "bank_kes_1" "Bank_KES_1" KES 5200000%float;
    Account.mk "bank_usd_1" "Bank_USD_1" USD 45000%float;
    Account.mk "bank_usd_2" "Bank_USD_2" USD 78000%float;
    Account.mk "bank_usd_3" "Bank_USD_3" USD 32000%float;
    Account.mk "flutterwave_ngn_1" "Flutterwave_NGN_1" NGN 15000000%float;
    Account.mk "flutterwave_ngn_2" "Flutterwave_NGN_2" NGN 8500000%float;
    Account.mk "paystack_ngn_1" "Paystack_NGN_1" NGN 12000000%float;
    Account.mk "wise_usd_1" "Wise_USD_1" USD 95000%float ].

(** The state the component is mounted with. *)
Definition initialState : State.t :=
  State.mk initialAccounts [] TransferForm.empty Filters.empty false "" "".

(** [calculateFXConversion]; [None] is [null]. *)
Definition calculateFXConversion
    (amount : float) (fromCurrency toCurrency : Currency) : option float :=
  if Currency_eqb fromCurrency toCurrency then Some amount
  else
    let rateKey := Currency_name fromCurrency ++ "-" ++ Currency_name toCurrency in
    match lookup FX_RATES rateKey with
    | None => None
    | Some rate =>
        if JS.falsy_number rate then None else Some (amount * rate)%float
    end.

(** The messages [handleTransfer] passes to [setError], by the validation
    failure each one reports. *)
Inductive ValidationError :=
  | MissingField | SameAccount | InvalidAmount
  | UnknownAccount | InsufficientBalance | UnsupportedCurrencyPair.

Definition message (e : ValidationError) : string :=
  match e with
  | MissingField => "Please fill in all required fields"
  | SameAccount => "Source and destination accounts must be different"
  | InvalidAmount => "Please enter a valid amount"
  | UnknownAccount => "Invalid account selection"
  | InsufficientBalance => "Insufficient balance in source account"
  | UnsupportedCurrencyPair => "Currency conversion not supported for this pair"
  end.

(** [status.toLowerCase()] *)
Definition Status_lower (s : Status) : string :=
  match s with
  | Completed => "completed"
  | Scheduled => "scheduled"
  end.

(** The callback of [accounts.map] in [handleTransfer]. *)
Definition updateAccount
    (transferForm : TransferForm.t) (amount convertedAmount : float)
    (acc : Account.t) : Account.t :=
  if String.eqb (Account.id acc) (TransferForm.fromAccount transferForm) then
    Account.mk (Account.id acc) (Account.name acc) (Account.currency acc)
      (Account.balance acc - amount)%float
  else if String.eqb (Account.id acc) (TransferForm.toAccount transferForm) then
    Account.mk (Account.id acc) (Account.name acc) (Account.currency acc)
      (Account.balance acc + convertedAmount)%float
  else acc.

(** The record [newTransaction] of [handleTransfer], as a function of what
    it is built from. *)
Definition newTransaction
    (clock : Clock.t) (transferForm : TransferForm.t)
    (fromAccount toAccount : Account.t)
    (amount convertedAmount fxRate : float) : Transaction.t :=
  Transaction.mk
    (JS.toString (Clock.now clock))
    (Clock.isoString clock)
    (Account.name fromAccount)
    (Account.name toAccount)
    (Account.currency fromAccount)
    (Account.currency toAccount)
    amount
    convertedAmount
    fxRate
    (TransferForm.note transferForm)
    (if JS.truthy (TransferForm.scheduledDate transferForm)
     then Some (TransferForm.scheduledDate transferForm) else None)
    (if JS.truthy (TransferForm.scheduledDate transferForm)
     then Scheduled else Completed).

(** [handleTransfer].  The handler reads the state of the render it was
    created in and queues one update per cell; the result is the state of
    the next render.  Each [return] of the source is a branch that ends
    here. *)
Definition handleTransfer (clock : Clock.t) (st : State.t) : State.t :=
  let transferForm := State.transferForm st in
  let accounts := State.accounts st in
  let transactions := State.transactions st in
  let st := State.setError "" st in
  let st := State.setSuccess "" st in
  if (negb (JS.truthy (TransferForm.fromAccount transferForm))
      || negb (JS.truthy (TransferForm.toAccount transferForm))
      || negb (JS.truthy (TransferForm.amount transferForm)))%bool
  then State.setError (message MissingField) st
  else if String.eqb (TransferForm.fromAccount transferForm)
                     (TransferForm.toAccount transferForm)
  then State.setError (message SameAccount) st
  else
    let amount := JS.parseFloat (TransferForm.amount transferForm) in
    if (PrimFloat.is_nan amount || (amount <=? 0)%float)%bool
    then State.setError (message InvalidAmount) st
    else
      let fromAccount :=
        find (fun acc => String.eqb (Account.id acc)
                           (TransferForm.fromAccount transferForm)) accounts in
      let toAccount :=
        find (fun acc => String.eqb (Account.id acc)
                           (TransferForm.toAccount transferForm)) accounts in
      match fromAccount, toAccount with
      | Some fromAccount, Some toAccount =>
          if (Account.balance fromAccount <? amount)%float
          then State.setError (message InsufficientBalance) st
          else
            (* [convertedAmount] and [fxRate], or [None] where the source
               returns from inside the conversion *)
            let conversion :=
              if negb (Currency_eqb (Account.currency fromAccount)
                                    (Account.currency toAccount))
              then
                match calculateFXConversion amount
                        (Account.currency fromAccount)
                        (Account.currency toAccount) with
                | None => None
                | Some converted =>
                    if JS.falsy_number converted then None
                    else Some (converted, (converted / amount)%float)
                end
              else Some (amount, 1%float) in
            match conversion with
            | None => State.setError (message UnsupportedCurrencyPair) st
            | Some (convertedAmount, fxRate) =>
                let updatedAccounts :=
                  map (updateAccount transferForm amount convertedAmount)
                      accounts in
                let st := State.setAccounts updatedAccounts st in
                let newTransaction :=
                  newTransaction clock transferForm fromAccount toAccount
                    amount convertedAmount fxRate in
                let st :=
                  State.setTransactions (newTransaction :: transactions) st in
                let st := State.setTransferForm TransferForm.empty st in
                State.setSuccess
                  ("Transfer "
                   ++ Status_lower (Transaction.status newTransaction)
                   ++ " successfully!") st
            end
      | _, _ => State.setError (message UnknownAccount) st
      end.

(** [handleFormChange] and [handleFilterChange]. *)
Definition handleFormChange
    (field : TransferForm.field) (value : string) (st : State.t) : State.t :=
  State.setTransferForm (TransferForm.set field value (State.transferForm st)) st.

Definition handleFilterChange
    (field : Filters.field) (value : string) (st : State.t) : State.t :=
  State.setFilters (Filters.set field value (State.filters st)) st.

(** [getTotalByCurrency]: the [totals] object maps a currency to a number
    once an account of that currency has been seen. *)
Definition CurrencyTotals := Currency -> option float.

Definition totals_set (totals : CurrencyTotals) (c : Currency) (v : float)
  : CurrencyTotals :=
  fun d => if Currency_eqb d c then Some v else totals d.

(** [totals[c] || 0] *)
Definition totals_or_zero (totals : CurrencyTotals) (c : Currency) : float :=
  match totals c with
  | Some v => if JS.falsy_number v then 0%float else v
  | None => 0%float
  end.

Definition getTotalByCurrency (accounts : list Account.t) : CurrencyTotals :=
  fold_left
    (fun totals acc =>
       totals_set totals (Account.currency acc)
         (totals_or_zero totals (Account.currency acc) + Account.balance acc)%float)
    accounts (fun _ => None).

(** ** The history filter *)

Section History.

(** The time value of [new Date(s)]: milliseconds since the epoch, NaN for a
    string the host does not read as a date.  Which strings are dates, and
    the time zone of a date-time without offset, are the host's. *)
Variable Date_value : string -> float.

(** The callback of [transactions.filter]. *)
Definition filterCallback (filters : Filters.t) (tx : Transaction.t) : bool :=
  let matches := true in
  let matches :=
    if JS.truthy (Filters.account filters) then
      (matches && (JS.includes (Transaction.fromAccount tx) (Filters.account filters)
                   || JS.includes (Transaction.toAccount tx) (Filters.account filters)))%bool
    else matches in
  let matches :=
    if JS.truthy (Filters.currency filters) then
      (matches && (String.eqb (Currency_name (Transaction.fromCurrency tx)) (Filters.currency filters)
                   || String.eqb (Currency_name (Transaction.toCurrency tx)) (Filters.currency filters)))%bool
    else matches in
  let matches :=
    if JS.truthy (Filters.dateFrom filters) then
      (matches && (Date_value (Filters.dateFrom filters)
                   <=? Date_value (Transaction.timestamp tx))%float)%bool
    else matches in
  let matches :=
    if JS.truthy (Filters.dateTo filters) then
      (matches && (Date_value (Transaction.timestamp tx)
                   <=? Date_value (Filters.dateTo filters ++ "T23:59:59"))%float)%bool
    else matches in
  matches.

Definition filteredTransactions
    (transactions : list Transaction.t) (filters : Filters.t)
  : list Transaction.t :=
  filter (filterCallback filters) transactions.

End History.

(** ** Runs of the component *)

(** What happens to the component between two renders. *)
Inductive Event :=
  | Submit (clock : Clock.t)
  | FormChange (field : TransferForm.field) (value : string)
  | FilterChange (field : Filters.field) (value : string)
  | ToggleFilters.

Definition step (st : State.t) (ev : Event) : State.t :=
  match ev with
  | Submit clock => handleTransfer clock st
  | FormChange field value => handleFormChange field value st
  | FilterChange field value => handleFilterChange field value st
  | ToggleFilters => State.setShowFilters (negb (State.showFilters st)) st
  end.

Definition run (events : list Event) (st : State.t) : State.t :=
  fold_left step events st.

(** The clock readings of the submissions of a run, oldest first. *)
Definition readings (events : list Event) : list Z :=
  flat_map (fun ev => match ev with
                      | Submit clock => [Clock.now clock]
                      | _ => []
                      end) events.

(** Filling in the three required fields, and a whole transfer. *)
Definition fill (fromId toId amount : string) : list Event :=
  [ FormChange TransferForm.fromAccount_ fromId;
    FormChange TransferForm.toAccount_ toId;
    FormChange TransferForm.amount_ amount ].

Definition transfer (clock : Clock.t) (fromId toId amount : string)
  : list Event :=
  fill fromId toId amount ++ [Submit clock].

(** ** The two ways a call of [handleTransfer] ends *)

(** A failed validation: the two messages are cleared and the error set. *)
Definition reject (e : ValidationError) (st : State.t) : State.t :=
  State.setError (message e) (State.setSuccess "" (State.setError "" st)).

(** A transfer carried out. *)
Definition commit
    (clock : Clock.t) (st : State.t) (fromAccount toAccount : Account.t)
    (amount convertedAmount fxRate : float) : State.t :=
  let tx := newTransaction clock (State.transferForm st) fromAccount toAccount
              amount convertedAmount fxRate in
  State.mk
    (map (updateAccount (State.transferForm st) amount convertedAmount)
         (State.accounts st))
    (tx :: State.transactions st)
    TransferForm.empty
    (State.filters st)
    (State.showFilters st)
    ""
    ("Transfer " ++ Status_lower (Transaction.status tx) ++ " successfully!").

(** [accounts.find(acc => acc.id === id)] *)
Definition resolve (accounts : list Account.t) (id : string)
  : option Account.t :=
  find (fun acc => String.eqb (Account.id acc) id) accounts.

Definition balanceOf (accounts : list Account.t) (id : string)
  : option float :=
  option_map Account.balance (resolve accounts id).

(** A submission that is carried out leaves no error message. *)
Definition succeeds (clock : Clock.t) (st : State.t) : bool :=
  String.eqb (State.error (handleTransfer clock st)) "".

(** The clock readings of the submissions of a run that are carried out,
    oldest first. *)
Fixpoint acceptedReadings (events : list Event) (st : State.t) : list Z :=
  match events with
  | [] => []
  | ev :: rest =>
      match ev with
      | Submit clock =>
          if succeeds clock st then [Clock.now clock] else []
      | _ => []
      end ++ acceptedReadings rest (step st ev)
  end.

(** ** The validation sequence, in the words of the specification

    The six checks of section 4.2, each as the specification words it, and
    the first of them that fails. *)

Definition fieldsPresent (form : TransferForm.t) : bool :=
  (JS.truthy (TransferForm.fromAccount form)
   && JS.truthy (TransferForm.toAccount form)
   && JS.truthy (TransferForm.amount form))%bool.

Definition accountsDiffer (form : TransferForm.t) : bool :=
  negb (String.eqb (TransferForm.fromAccount form) (TransferForm.toAccount form)).

Definition amountPositive (form : TransferForm.t) : bool :=
  (0 <? JS.parseFloat (TransferForm.amount form))%float.

Definition accountsResolve (accounts : list Account.t) (form : TransferForm.t)
  : bool :=
  match resolve accounts (TransferForm.fromAccount form),
        resolve accounts (TransferForm.toAccount form) with
  | Some _, Some _ => true
  | _, _ => false
  end.

Definition balanceSuffices (accounts : list Account.t) (form : TransferForm.t)
  : bool :=
  match resolve accounts (TransferForm.fromAccount form) with
  | Some fromAccount =>
      (JS.parseFloat (TransferForm.amount form) <=? Account.balance fromAccount)%float
  | None => false
  end.

(** The rate of the ordered pair, [1] between equal currencies. *)
Definition rateOf (fromCurrency toCurrency : Currency) : option float :=
  if Currency_eqb fromCurrency toCurrency then Some 1%float
  else lookup FX_RATES
         (Currency_name fromCurrency ++ "-" ++ Currency_name toCurrency).

Definition rateExists (accounts : list Account.t) (form : TransferForm.t)
  : bool :=
  match resolve accounts (TransferForm.fromAccount form),
        resolve accounts (TransferForm.toAccount form) with
  | Some fromAccount, Some toAccount =>
      match rateOf (Account.currency fromAccount) (Account.currency toAccount) with
      | Some _ => true
      | None => false
      end
  | _, _ => false
  end.

Definition firstFailure (st : State.t) : option ValidationError :=
  let form := State.transferForm st in
  let accounts := State.accounts st in
  if negb (fieldsPresent form) then Some MissingField
  else if negb (accountsDiffer form) then Some SameAccount
  else if negb (amountPositive form) then Some InvalidAmount
  else if negb (accountsResolve accounts form) then Some UnknownAccount
  else if negb (balanceSuffices accounts form) then Some InsufficientBalance
  else if negb (rateExists accounts form) then Some UnsupportedCurrencyPair
  else None.

(** ** What a transfer that is carried out has passed *)

(** What the code has checked by the time it carries a transfer out. *)
Record Accepted (st : State.t) (fromAccount toAccount : Account.t)
    (amount convertedAmount fxRate : float) : Prop := {
  accepted_fields : fieldsPresent (State.transferForm st) = true;
  accepted_differ : accountsDiffer (State.transferForm st) = true;
  accepted_amount :
    amount = JS.parseFloat (TransferForm.amount (State.transferForm st));
  accepted_positive : (0 <? amount)%float = true;
  accepted_from :
    resolve (State.accounts st) (TransferForm.fromAccount (State.transferForm st))
    = Some fromAccount;
  accepted_to :
    resolve (State.accounts st) (TransferForm.toAccount (State.transferForm st))
    = Some toAccount;
  accepted_balance : (Account.balance fromAccount <? amount)%float = false;
  accepted_conversion :
    if Currency_eqb (Account.currency fromAccount) (Account.currency toAccount)
    then convertedAmount = amount /\ fxRate = 1%float
    else (exists rate,
            rateOf (Account.currency fromAccount) (Account.currency toAccount)
              = Some rate
            /\ convertedAmount = (amount * rate)%float)
         /\ JS.falsy_number convertedAmount = false
         /\ fxRate = (convertedAmount / amount)%float
}.

(** ** The record invariant of the data model, as the code keeps it

    Between equal currencies the rate is [1] and the amount is carried over;
    otherwise the converted amount is the amount times the rate of the table
    and the recorded rate is the quotient of the two. *)
Definition recorded (tx : Transaction.t) : Prop :=
  if Currency_eqb (Transaction.fromCurrency tx) (Transaction.toCurrency tx)
  then Transaction.fxRate tx = 1%float
       /\ Transaction.convertedAmount tx = Transaction.amount tx
  else (exists rate,
          rateOf (Transaction.fromCurrency tx) (Transaction.toCurrency tx)
            = Some rate
          /\ Transaction.convertedAmount tx
             = (Transaction.amount tx * rate)%float)
       /\ Transaction.fxRate tx
          = (Transaction.convertedAmount tx / Transaction.amount tx)%float.

(** The invariant of the data model as the specification states it. *)
Definition invariant_as_stated (tx : Transaction.t) : Prop :=
  Transaction.convertedAmount tx
  = (Transaction.amount tx * Transaction.fxRate tx)%float
  /\ (Transaction.fxRate tx = 1%float
      <-> Transaction.fromCurrency tx = Transaction.toCurrency tx).

(** ** What the filter callback asks of a transaction *)

(** [sub] is a substring of [s]. *)
Definition substring_of (sub s : string) : Prop :=
  exists before after, s = before ++ sub ++ after.

(** [l1] is [l2] with some elements left out, the others in their order. *)
Inductive Subseq {A : Type} : list A -> list A -> Prop :=
  | Subseq_nil : Subseq [] []
  | Subseq_keep x l1 l2 : Subseq l1 l2 -> Subseq (x :: l1) (x :: l2)
  | Subseq_drop x l1 l2 : Subseq l1 l2 -> Subseq l1 (x :: l2).

Section Tests.

Variable Date_value : string -> float.

(** The test of every populated field passes; the two dates are compared
    as the time values the host reads. *)
Definition everyFieldPasses (filters : Filters.t) (tx : Transaction.t) : Prop :=
  (Filters.account filters <> "" ->
     substring_of (Filters.account filters) (Transaction.fromAccount tx)
     \/ substring_of (Filters.account filters) (Transaction.toAccount tx))
  /\ (Filters.currency filters <> "" ->
        Currency_name (Transaction.fromCurrency tx) = Filters.currency filters
        \/ Currency_name (Transaction.toCurrency tx) = Filters.currency filters)
  /\ (Filters.dateFrom filters <> "" ->
        (Date_value (Filters.dateFrom filters)
         <=? Date_value (Transaction.timestamp tx))%float = true)
  /\ (Filters.dateTo filters <> "" ->
        (Date_value (Transaction.timestamp tx)
         <=? Date_value (Filters.dateTo filters ++ "T23:59:59"))%float = true).

End Tests.

(** ** Amounts with a numeric head, in the words of ECMAScript *)







(** A decimal literal ([StrUnsignedDecimalLiteral] other than [Infinity]):
    the digits before the point, the digits after the point where there is
    one, and where there is an exponent its indicator, its sign as written
    and its digits. *)
Module Literal.
Record t := mk {
  integer : string;
  fraction : option string;
  exponent : option (ascii * string * string)
}.





End Literal.

(** ** Concrete inputs for the examples *)

Definition clock0 : Clock.t :=
  Clock.mk 1700000000000 "2023-11-14T22:13:20.000Z".

Definition clock1 : Clock.t :=
  Clock.mk 1700000060000 "2023-11-14T22:14:20.000Z".

(** The seed state with the transfer form filled in. *)
Definition seedWith (form : TransferForm.t) : State.t :=
  State.setTransferForm form initialState.

(** [digit] followed by [e] and the decimal digits of [k]: the amount
    [digit * 10^k] as a user can type it. *)
Definition scientific (digit : string) (k : nat) : string :=
  digit ++ "e" ++ NilZero.string_of_uint (Nat.to_uint k).

(** One round through the three currencies: [10^(4+i)] USD to NGN,
    [10^(7+i)] NGN to KES and [3 * 10^(7+i)] KES back to USD.  The three
    rates multiply to [1580 * 3.70 * 0.0067], about 39, so a round leaves
    more than ten times the dollars it started from. *)
Definition arbitrage (i : nat) : list Event :=
  transfer clock0 "bank_usd_1" "flutterwave_ngn_1" (scientific "1" (4 + i))
  ++ transfer clock0 "flutterwave_ngn_1" "mpesa_kes_1" (scientific "1" (7 + i))
  ++ transfer clock0 "mpesa_kes_1" "bank_usd_1" (scientific "3" (7 + i)).

(** 301 rounds, then [10^305] USD to NGN and [10^308] NGN to KES, which is
    more shillings than the largest binary64 number: the balance of
    [mpesa_kes_1] is then [Infinity]. *)
Definition overflowRun : list Event :=
  flat_map arbitrage (seq 0 301)
  ++ transfer clock0 "bank_usd_1" "flutterwave_ngn_1" "1e305"
  ++ transfer clock0 "flutterwave_ngn_1" "mpesa_kes_1" "1e308".

(** After the overflow, the whole of the infinite balance is sent on. *)
Definition infiniteTransfer : list Event :=
  overflowRun ++ transfer clock0 "mpesa_kes_1" "bank_usd_1" "Infinity".

(** The seed state with a transfer of 8613.98 USD between two dollar
    accounts filled in. *)
Definition roundingTransfer : State.t :=
  seedWith (TransferForm.mk "bank_usd_3" "bank_usd_2" "8613.98" "" "").

(** The seed state with a transfer between two shilling accounts filled in. *)
Definition shillingTransfer : list Event :=
  fill "mpesa_kes_1" "bank_kes_1" "100000".

(** A transfer of more shillings than the source account holds. *)
Definition overdraft : list Event :=
  fill "mpesa_kes_1" "bank_usd_1" "10000000".

(** Example 1 of the specification: 100,000 from [Mpesa_KES_1] to
    [Bank_USD_1], no scheduled date, any note. *)
Definition example1 (note : string) : State.t :=
  seedWith (TransferForm.mk "mpesa_kes_1" "bank_usd_1" "100000" note "").


(** Amounts so small that their converted amount rounds to zero. *)
Definition tinyShillings : State.t :=
  seedWith (TransferForm.mk "mpesa_kes_1" "bank_usd_1" "1e-323" "" "").

Definition tinyNaira : State.t :=
  seedWith (TransferForm.mk "flutterwave_ngn_1" "bank_usd_2" "1e-321" "" "").

(** Two transfers a minute apart. *)
Definition laterTransfer : list Event :=
  transfer clock0 "mpesa_kes_1" "bank_usd_1" "100"
  ++ transfer clock1 "bank_usd_1" "mpesa_kes_1" "1".

(** Two transfers submitted within the same millisecond. *)
Definition sameMillisecond : list Event :=
  transfer clock0 "mpesa_kes_1" "bank_usd_1" "100"
  ++ transfer clock0 "bank_usd_1" "mpesa_kes_1" "1".

(** A host for the examples of the filter: it reads [YYYY-MM-DD] and
    [YYYY-MM-DDTHH:mm:ss] with an optional [.sss] and an optional [Z], and
    keeps its local time at UTC. *)
Fixpoint take_digits (n : nat) (s : string) (acc : Z) : option (Z * string) :=
  match n with
  | O => Some (acc, s)
  | S n' =>
      match s with
      | String c s' =>
          match JS.digit_of c with
          | Some d => take_digits n' s' (10 * acc + d)%Z
          | None => None
          end
      | EmptyString => None
      end
  end.

Definition expect (c : ascii) (s : string) : option string :=
  match s with
  | String c' s' => if Ascii.eqb c c' then Some s' else None
  | EmptyString => None
  end.

Definition obind {A B : Type} (x : option A) (f : A -> option B) : option B :=
  match x with
  | Some a => f a
  | None => None
  end.

Definition days_from_civil (y m d : Z) : Z :=
  let y' := (if m <=? 2 then y - 1 else y)%Z in
  let era := (y' / 400)%Z in
  let yoe := (y' - era * 400)%Z in
  let doy := ((153 * (if m <=? 2 then m + 9 else m - 3) + 2) / 5 + d - 1)%Z in
  let doe := (yoe * 365 + yoe / 4 - yoe / 100 + doy)%Z in
  (era * 146097 + doe - 719468)%Z.

Definition utc_time (s : string) : option Z :=
  obind (take_digits 4 s 0) (fun '(y, s) =>
  obind (expect "-" s) (fun s =>
  obind (take_digits 2 s 0) (fun '(mo, s) =>
  obind (expect "-" s) (fun s =>
  obind (take_digits 2 s 0) (fun '(d, s) =>
  if negb ((1 <=? mo) && (mo <=? 12) && (1 <=? d) && (d <=? 31))%Z then None
  else
    let day := (days_from_civil y mo d * 86400000)%Z in
    match s with
    | EmptyString => Some day
    | _ =>
        obind (expect "T" s) (fun s =>
        obind (take_digits 2 s 0) (fun '(h, s) =>
        obind (expect ":" s) (fun s =>
        obind (take_digits 2 s 0) (fun '(mi, s) =>
        obind (expect ":" s) (fun s =>
        obind (take_digits 2 s 0) (fun '(sec, s) =>
        let '(ms, s) :=
          match obind (expect "." s) (fun s => take_digits 3 s 0) with
          | Some r => r
          | None => (0%Z, s)
          end in
        let s := match expect "Z" s with Some s' => s' | None => s end in
        if negb ((h <=? 23) && (mi <=? 59) && (sec <=? 59))%Z then None
        else
          match s with
          | EmptyString =>
              Some (day + ((h * 60 + mi) * 60 + sec) * 1000 + ms)%Z
          | _ => None
          end))))))
    end))))).

Definition utcDate_value (s : string) : float :=
  match utc_time s with
  | Some t => SF2Prim (binary_normalize prec emax t 0 false)
  | None => nan
  end.

(** ** The host's [Date], with its time zone

    [new Date(s)] reads the date-only form [YYYY-MM-DD] as midnight UTC, a
    date and time that ends in [Z] as UTC, and a date and time without
    offset as local time (ECMAScript, Date Time String Format).  The host
    here keeps its local time [offset] milliseconds ahead of UTC all year;
    the time value is in milliseconds since the epoch, NaN for a string of
    another form. *)
Definition civil_date (s : string) : option (Z * string) :=
  obind (take_digits 4 s 0) (fun '(y, s) =>
  obind (expect "-" s) (fun s =>
  obind (take_digits 2 s 0) (fun '(mo, s) =>
  obind (expect "-" s) (fun s =>
  obind (take_digits 2 s 0) (fun '(d, s) =>
  if ((1 <=? mo) && (mo <=? 12) && (1 <=? d) && (d <=? 31))%Z
  then Some (days_from_civil y mo d, s) else None))))).

(** The time of day, in milliseconds, and whether a [Z] follows it. *)
Definition time_of_day (s : string) : option (Z * bool) :=
  obind (expect "T" s) (fun s =>
  obind (take_digits 2 s 0) (fun '(h, s) =>
  obind (expect ":" s) (fun s =>
  obind (take_digits 2 s 0) (fun '(mi, s) =>
  obind (expect ":" s) (fun s =>
  obind (take_digits 2 s 0) (fun '(sec, s) =>
  let '(ms, s) :=
    match obind (expect "." s) (fun s => take_digits 3 s 0) with
    | Some r => r
    | None => (0%Z, s)
    end in
  let '(utc, s) :=
    match expect "Z" s with
    | Some s' => (true, s')
    | None => (false, s)
    end in
  if ((h <=? 23) && (mi <=? 59) && (sec <=? 59))%Z then
    match s with
    | EmptyString => Some ((((h * 60 + mi) * 60 + sec) * 1000 + ms)%Z, utc)
    | _ => None
    end
  else None)))))).

Definition zoned_time (offset : Z) (s : string) : option Z :=
  obind (civil_date s) (fun '(day, s) =>
  match s with
  | EmptyString => Some (day * 86400000)%Z
  | _ =>
      obind (time_of_day s) (fun '(t, utc) =>
      Some (day * 86400000 + t - (if utc then 0 else offset))%Z)
  end).

Definition hostDate_value (offset : Z) (s : string) : float :=
  match zoned_time offset s with
  | Some t => SF2Prim (binary_normalize prec emax t 0 false)
  | None => nan
  end.

(** Nairobi and Lagos keep UTC+3 and UTC+1 all year. *)
Definition nairobi : Z := 3 * 3600000.

Definition lagos : Z := 1 * 3600000.

(** ** The filter, in the words of the specification

    A date field names a day; the timestamp of a transaction names an
    instant.  The date-from field matches a transaction made on or after
    the start of its day, the date-to field one made on or before 23:59:59
    of its day, the day being the one of the calendar kept [zone]
    milliseconds ahead of UTC. *)

(** The day a date field names, as a number of days since the epoch. *)
Definition day_of (date : string) : option Z :=
  match civil_date date with
  | Some (day, EmptyString) => Some day
  | _ => None
  end.

(** The instant a timestamp written by [toISOString] names. *)
Definition instant_of (timestamp : string) : option Z :=
  zoned_time 0 timestamp.

Definition startOfDay (zone day : Z) : Z := (day * 86400000 - zone)%Z.

Definition endOfDay (zone day : Z) : Z :=
  (startOfDay zone day + ((23 * 60 + 59) * 60 + 59) * 1000)%Z.

Definition matchesFilters (zone : Z) (filters : Filters.t) (tx : Transaction.t)
  : Prop :=
  (Filters.account filters <> "" ->
     substring_of (Filters.account filters) (Transaction.fromAccount tx)
     \/ substring_of (Filters.account filters) (Transaction.toAccount tx))
  /\ (Filters.currency filters <> "" ->
        Currency_name (Transaction.fromCurrency tx) = Filters.currency filters
        \/ Currency_name (Transaction.toCurrency tx) = Filters.currency filters)
  /\ (Filters.dateFrom filters <> "" ->
        exists day t,
          day_of (Filters.dateFrom filters) = Some day
          /\ instant_of (Transaction.timestamp tx) = Some t
          /\ (startOfDay zone day <= t)%Z)
  /\ (Filters.dateTo filters <> "" ->
        exists day t,
          day_of (Filters.dateTo filters) = Some day
          /\ instant_of (Transaction.timestamp tx) = Some t
          /\ (t <= endOfDay zone day)%Z).

(** The filter that asks for the transactions of one day. *)
Definition ofDay (date : string) : Filters.t := Filters.mk "" "" date date.

(** Two records of a log, the newer first. *)
Definition sampleLog : list Transaction.t :=
  [ Transaction.mk "1700000060000" "2023-11-14T22:14:20.000Z"
      "Bank_USD_1" "Wise_USD_1" USD USD 250 250 1 "" None Completed;
    Transaction.mk "1700000000000" "2023-11-14T22:13:20.000Z"
      "Mpesa_KES_1" "Bank_KES_1" KES KES 100000 100000 1 "rent"
      (Some "2023-12-01") Scheduled ].

(** ** What the render derives from the state *)

(** The FX preview under the amount field: the numbers and currencies it
    passes to the formatters, or [None] where nothing is rendered. *)
Module Preview.
Record t := mk {
  amount : float;
  fromCurrency : Currency;
  converted : float;
  toCurrency : Currency;
  rate : float
}.
End Preview.

Definition fxPreview (st : State.t) : option Preview.t :=
  let transferForm := State.transferForm st in
  let accounts := State.accounts st in
  if (JS.truthy (TransferForm.fromAccount transferForm)
      && JS.truthy (TransferForm.toAccount transferForm)
      && JS.truthy (TransferForm.amount transferForm))%bool
  then
    let fromAccount :=
      find (fun acc => String.eqb (Account.id acc)
                         (TransferForm.fromAccount transferForm)) accounts in
    let toAccount :=
      find (fun acc => String.eqb (Account.id acc)
                         (TransferForm.toAccount transferForm)) accounts in
    let amount := JS.parseFloat (TransferForm.amount transferForm) in
    match fromAccount, toAccount with
    | Some fromAccount, Some toAccount =>
        if (negb (PrimFloat.is_nan amount)
            && negb (Currency_eqb (Account.currency fromAccount)
                                  (Account.currency toAccount)))%bool
        then
          match calculateFXConversion amount
                  (Account.currency fromAccount)
                  (Account.currency toAccount) with
          | Some converted =>
              if JS.falsy_number converted then None
              else
                let rate := (converted / amount)%float in
                Some (Preview.mk amount (Account.currency fromAccount)
                        converted (Account.currency toAccount) rate)
          | None => None
          end
        else None
    | _, _ => None
    end
  else None.

(** The text of the submit button. *)
Definition submitLabel (st : State.t) : string :=
  if JS.truthy (TransferForm.scheduledDate (State.transferForm st))
  then "Schedule Transfer" else "Execute Transfer".

(** The [totals] object of [getTotalByCurrency] with its keys in the order
    they were first assigned, which is the order [Object.entries] lists
    them in and the dashboard shows them in. *)
Fixpoint object_get (o : list (Currency * float)) (c : Currency)
  : option float :=
  match o with
  | [] => None
  | (k, v) :: rest => if Currency_eqb k c then Some v else object_get rest c
  end.

(** [o[c] = v]: an existing key keeps its place, a new key goes last. *)
Fixpoint object_set (o : list (Currency * float)) (c : Currency) (v : float)
  : list (Currency * float) :=
  match o with
  | [] => [(c, v)]
  | (k, x) :: rest =>
      if Currency_eqb k c then (k, v) :: rest
      else (k, x) :: object_set rest c v
  end.

(** [Object.entries(getTotalByCurrency())] *)
Definition currencyTotalsEntries (accounts : list Account.t)
  : list (Currency * float) :=
  fold_left
    (fun totals acc =>
       object_set totals (Account.currency acc)
         (match object_get totals (Account.currency acc) with
          | Some v => if JS.falsy_number v then 0%float else v
          | None => 0%float
          end + Account.balance acc)%float)
    accounts [].

(** The currencies of a list of accounts, each at its first occurrence,
    those already [seen] left out. *)
Fixpoint firstOccurrences (seen : list Currency) (accounts : list Account.t)
  : list Currency :=
  match accounts with
  | [] => []
  | acc :: rest =>
      if existsb (fun k => Currency_eqb k (Account.currency acc)) seen
      then firstOccurrences seen rest
      else Account.currency acc
           :: firstOccurrences (seen ++ [Account.currency acc]) rest
  end.

(** ** Parts of a run *)

(** The events that touch the filter bar only. *)
Definition onFilters (ev : Event) : bool :=
  match ev with
  | FilterChange _ _ | ToggleFilters => true
  | Submit _ | FormChange _ _ => false
  end.

(** What of an account a transfer leaves alone. *)
Definition identity (acc : Account.t) : string * string * Currency :=
  (Account.id acc, Account.name acc, Account.currency acc).

(** A record of the log names two different accounts of the seed list with
    their currencies and an amount above zero, and is [Scheduled] exactly
    when it carries a scheduled date, which is then not empty. *)
Definition wellFormed (tx : Transaction.t) : Prop :=
  (exists fromAccount toAccount,
     In fromAccount initialAccounts /\ In toAccount initialAccounts
     /\ Account.id fromAccount <> Account.id toAccount
     /\ Transaction.fromAccount tx = Account.name fromAccount
     /\ Transaction.toAccount tx = Account.name toAccount
     /\ Transaction.fromCurrency tx = Account.currency fromAccount
     /\ Transaction.toCurrency tx = Account.currency toAccount)
  /\ (0 <? Transaction.amount tx)%float = true
  /\ match Transaction.scheduledDate tx with
     | Some date => date <> "" /\ Transaction.status tx = Scheduled
     | None => Transaction.status tx = Completed
     end.

(** What a record says of the money moved: everything but the note, the
    scheduled date and the status. *)
Definition movement (tx : Transaction.t)
  : string * string * string * string * Currency * Currency
    * float * float * float :=
  (Transaction.id tx, Transaction.timestamp tx,
   Transaction.fromAccount tx, Transaction.toAccount tx,
   Transaction.fromCurrency tx, Transaction.toCurrency tx,
   Transaction.amount tx, Transaction.convertedAmount tx,
   Transaction.fxRate tx).

(** The ledger side of the state: what a submission reads and writes. *)
Definition ledger (st : State.t)
  : list Account.t * list Transaction.t * TransferForm.t * string * string :=
  (State.accounts st, State.transactions st, State.transferForm st,
   State.error st, State.success st).

(** The view side of the state: the filter bar. *)
Definition filterBar (st : State.t) : Filters.t * bool :=
  (State.filters st, State.showFilters st).

(** The filter with one field set and the others empty. *)
Definition only (field : Filters.field) (value : string) : Filters.t :=
  Filters.set field value Filters.empty.

(** The seed state with the whole balance of [Bank_USD_3] on its way to
    [Wise_USD_1]. *)
Definition wholeBalance : State.t :=
  seedWith (TransferForm.mk "bank_usd_3" "wise_usd_1" "32000" "" "").

(** Example 1 with a scheduled date. *)
Definition scheduledExample : State.t :=
  seedWith (TransferForm.mk "mpesa_kes_1" "bank_usd_1" "100000" "fees" "2030-01-01").

(** ** Signs of binary64 numbers, on their specification *)



(** Above zero. *)
Definition positive_sf (x : spec_float) : bool :=
  match x with
  | S754_finite s _ _ | S754_infinity s => negb s
  | S754_zero _ | S754_nan => false
  end.

(** ** Amounts that start with a literal *)


(** ** Whole numbers

    A whole number below [2 ^ 53] is a Number; sums and differences of such
    Numbers are formed without rounding. *)

(** The mantissa and the exponent of the Number of [z]. *)
Definition whole_mantissa (z : Z) : positive :=
  Z.to_pos (z * 2 ^ (prec - (Z.log2 z + 1))).

Definition whole_exponent (z : Z) : Z := (Z.log2 z + 1 - prec)%Z.

(** The Number nearest to the whole number [z]; below [2 ^ 53] it is [z]
    itself. *)
Definition wholeNumber (z : Z) : float :=
  SF2Prim (binary_normalize prec emax z 0 false).

(** The sum, over the integers, of the balances [whole] gives the accounts
    of currency [c]. *)
Definition totalWhole (c : Currency) (whole : string -> Z)
    (accounts : list Account.t) : Z :=
  fold_right
    (fun acc s =>
       if Currency_eqb (Account.currency acc) c
       then (whole (Account.id acc) + s)%Z else s)
    0%Z accounts.

(** The balance of every account of currency [c] is the whole number
    [whole] gives for its identifier, none is negative and they add up to
    less than [2 ^ 53]. *)
Definition wholeBalances (c : Currency) (whole : string -> Z)
    (accounts : list Account.t) : Prop :=
  Forall (fun acc =>
            Account.currency acc = c ->
            Account.balance acc = wholeNumber (whole (Account.id acc))
            /\ (0 <= whole (Account.id acc))%Z) accounts
  /\ (totalWhole c whole accounts < 2 ^ 53)%Z.

(** The balances after [amount] has gone from [fromId] to [toId]. *)
Definition moved (fromId toId : string) (amount : Z) (whole : string -> Z)
  : string -> Z :=
  fun id =>
    if String.eqb id fromId then (whole id - amount)%Z
    else if String.eqb id toId then (whole id + amount)%Z
    else whole id.

(** Whether an account of currency [c] has the identifier [id]. *)
Definition holds (c : Currency) (id : string) (accounts : list Account.t)
  : bool :=
  existsb (fun acc => String.eqb (Account.id acc) id
                      && Currency_eqb (Account.currency acc) c)%bool accounts.

(** The balances of the seed state, in whole units. *)
Definition seedWhole (id : string) : Z :=
  match
    find (fun entry => String.eqb (fst entry) id)
      [ ("mpesa_kes_1", 2500000); ("mpesa_kes_2", 1800000);
        ("bank_kes_1", 5200000); ("bank_usd_1", 45000);
        ("bank_usd_2", 78000); ("bank_usd_3", 32000);
        ("flutterwave_ngn_1", 15000000); ("flutterwave_ngn_2", 8500000);
        ("paystack_ngn_1", 12000000); ("wise_usd_1", 95000) ]%Z
  with
  | Some entry => snd entry
  | None => 0%Z
  end.

(** ** Tactics *)

(** Splits a conjunction into its conjuncts, and nothing else. *)
Ltac conjuncts := repeat match goal with |- _ /\ _ => split end.

(** One goal per [return] of [handleTransfer], each with the tests that
    lead to it. *)
Ltac transfer_cases :=
  unfold handleTransfer; cbv zeta;
  repeat match goal with
    | |- context [if ?b then _ else _] => destruct b eqn:?
    | |- context [match find ?f ?l with _ => _ end] =>
        destruct (find f l) eqn:?
    | |- context [match calculateFXConversion ?a ?c ?d with _ => _ end] =>
        destruct (calculateFXConversion a c d) eqn:?
    end.

(** * Proofs *)

(** ** Facts about binary64 arithmetic *)

Lemma Prim2SF_zero : Prim2SF 0%float = S754_zero false.
Proof. reflexivity. Qed.


Lemma zero_ltb (x : float) :
  (0 <? x)%float = positive_sf (Prim2SF x).
Proof.
  rewrite ltb_spec, Prim2SF_zero.
  now destruct (Prim2SF x) as [[]|[]| |[] m e].
Qed.

Lemma is_nan_spec (x : float) :
  PrimFloat.is_nan x = match Prim2SF x with S754_nan => true | _ => false end.
Proof.
  unfold PrimFloat.is_nan. rewrite FloatAxioms.eqb_spec.
  destruct (Prim2SF x) as [[]|[]| |[] m e]; cbn; try reflexivity.
  all: unfold SFeqb, SFcompare; rewrite Z.compare_refl, Pos.compare_cont_refl; reflexivity.
Qed.

Lemma leb_zero (x : float) :
  (x <=? 0)%float =
  match Prim2SF x with
  | S754_nan => false
  | S754_zero _ => true
  | S754_finite s _ _ | S754_infinity s => s
  end.
Proof.
  rewrite leb_spec, Prim2SF_zero.
  now destruct (Prim2SF x) as [[]|[]| |[] m e].
Qed.

(** The test [isNaN(amount) || amount <= 0] fails exactly for the numbers
    above zero. *)
Lemma positive_iff (x : float) :
  (PrimFloat.is_nan x || (x <=? 0)%float)%bool = negb (0 <? x)%float.
Proof.
  rewrite is_nan_spec, leb_zero, zero_ltb.
  now destruct (Prim2SF x) as [[]|[]| |[] m e].
Qed.

Lemma positive_is_number (x : float) :
  (0 <? x)%float = true -> PrimFloat.is_nan x = false.
Proof.
  intros H. pose proof (positive_iff x) as E. rewrite H in E.
  now apply orb_false_elim in E as [E _].
Qed.


(** *** Signs of rounded results *)





(** *** Rounding keeps a product of positive numbers a number *)

Lemma shr_1_nonneg (mrs : shr_record) :
  (0 <= shr_m mrs)%Z -> (0 <= shr_m (shr_1 mrs))%Z.
Proof.
  destruct mrs as [m r s]. destruct m as [|[p|p|]|p]; cbn; lia.
Qed.

Lemma iter_shr_1_nonneg (p : positive) :
  forall mrs, (0 <= shr_m mrs)%Z -> (0 <= shr_m (iter_pos shr_1 p mrs))%Z.
Proof.
  induction p as [p IH|p IH|]; intros mrs H; cbn [iter_pos].
  - now apply IH, IH, shr_1_nonneg.
  - now apply IH, IH.
  - now apply shr_1_nonneg.
Qed.

Lemma shr_fexp_nonneg (m e : Z) (l : location) :
  (0 <= m)%Z -> (0 <= shr_m (fst (shr_fexp prec emax m e l)))%Z.
Proof.
  intros H. unfold shr_fexp, shr.
  assert (0 <= shr_m (shr_record_of_loc m l))%Z as H0
    by (destruct l as [|[]]; exact H).
  destruct (fexp prec emax (Zdigits2 m + e) - e)%Z; cbn [fst];
    try exact H0.
  now apply iter_shr_1_nonneg.
Qed.

Lemma round_nearest_even_nonneg (m : Z) (l : location) :
  (0 <= m)%Z -> (0 <= round_nearest_even m l)%Z.
Proof.
  intros H. destruct l as [|[]]; cbn [round_nearest_even]; try lia.
  destruct (Z.even m); lia.
Qed.

Lemma binary_round_aux_positive (m e : Z) (l : location) :
  (0 <= m)%Z ->
  match binary_round_aux prec emax false m e l with
  | S754_zero s | S754_finite s _ _ | S754_infinity s => s = false
  | S754_nan => False
  end.
Proof.
  intros H. unfold binary_round_aux.
  pose proof (shr_fexp_nonneg m e l H) as H1.
  destruct (shr_fexp prec emax m e l) as [mrs' e']. cbn [fst] in H1.
  pose proof (shr_fexp_nonneg
                (round_nearest_even (shr_m mrs') (loc_of_shr_record mrs'))
                e' loc_Exact
                (round_nearest_even_nonneg _ _ H1)) as H2.
  destruct (shr_fexp prec emax _ e' loc_Exact) as [mrs'' e'']. cbn [fst] in H2.
  destruct (shr_m mrs'') as [|p|p]; [reflexivity | | lia].
  now destruct (e'' <=? emax - prec)%Z.
Qed.

(** *** Magnitudes of canonical mantissas *)

Lemma digits2_pos_bounds (m : positive) :
  (2 ^ (Z.pos (digits2_pos m) - 1) <= Z.pos m < 2 ^ Z.pos (digits2_pos m))%Z.
Proof.
  induction m as [m IH|m IH|]; cbn [digits2_pos].
  - rewrite Pos2Z.inj_succ, Z.pow_succ_r by lia.
    replace (Z.succ (Z.pos (digits2_pos m)) - 1)%Z
      with (Z.succ (Z.pos (digits2_pos m) - 1)) by lia.
    rewrite Z.pow_succ_r by lia. lia.
  - rewrite Pos2Z.inj_succ, Z.pow_succ_r by lia.
    replace (Z.succ (Z.pos (digits2_pos m)) - 1)%Z
      with (Z.succ (Z.pos (digits2_pos m) - 1)) by lia.
    rewrite Z.pow_succ_r by lia. lia.
  - cbn. lia.
Qed.

Lemma iter_xO (d m : positive) :
  Z.pos (Pos.iter xO m d) = (Z.pos m * 2 ^ Z.pos d)%Z.
Proof.
  induction d as [|d IH] using Pos.peano_ind.
  - cbn. lia.
  - rewrite Pos.iter_succ, Pos2Z.inj_succ, Z.pow_succ_r by lia.
    rewrite Pos2Z.inj_xO, IH. lia.
Qed.

Lemma shl_align_value (mx : positive) (ex ez : Z) :
  (ez <= ex)%Z ->
  Z.pos (fst (shl_align mx ex ez)) = (Z.pos mx * 2 ^ (ex - ez))%Z.
Proof.
  intros Hle. unfold shl_align.
  destruct (ez - ex)%Z as [|d|d] eqn:Hd.
  - replace (ex - ez)%Z with 0%Z by lia. cbn [fst]. lia.
  - lia.
  - cbn [fst]. rewrite iter_xO. f_equal. f_equal. lia.
Qed.




(** *** Order *)

Lemma SFcompare_antisym (x y : spec_float) :
  SFcompare y x = option_map CompOpp (SFcompare x y).
Proof.
  destruct x as [[]|[]| |[] mx ex], y as [[]|[]| |[] my ey];
    try reflexivity; cbn [SFcompare option_map]; f_equal;
    change (Pos.compare_cont Eq my mx) with (Pos.compare my mx);
    change (Pos.compare_cont Eq mx my) with (Pos.compare mx my);
    rewrite (Z.compare_antisym ex ey), (Pos.compare_antisym mx my);
    destruct (ex ?= ey)%Z; cbn [CompOpp]; try reflexivity;
    now destruct (mx ?= my)%positive.
Qed.

Lemma SFcompare_total (x y : spec_float) :
  x <> S754_nan -> y <> S754_nan -> SFcompare x y <> None.
Proof.
  destruct x as [[]|[]| |[] mx ex], y as [[]|[]| |[] my ey];
    cbn; congruence.
Qed.

(** *** The same facts on [float] *)




Lemma leb_not_ltb (x y : float) :
  (x <=? y)%float = true -> (y <? x)%float = false.
Proof.
  rewrite leb_spec, ltb_spec. unfold SFleb, SFltb.
  rewrite (SFcompare_antisym (Prim2SF x) (Prim2SF y)).
  now destruct (SFcompare (Prim2SF x) (Prim2SF y)) as [[]|].
Qed.

(** Between two numbers, [x <= y] fails exactly when [y < x]. *)
Lemma leb_false_ltb (x y : float) :
  PrimFloat.is_nan x = false -> PrimFloat.is_nan y = false ->
  (y <? x)%float = negb (x <=? y)%float.
Proof.
  rewrite !is_nan_spec, leb_spec, ltb_spec. unfold SFleb, SFltb.
  intros Hx Hy.
  rewrite (SFcompare_antisym (Prim2SF x) (Prim2SF y)).
  pose proof (SFcompare_total (Prim2SF x) (Prim2SF y)) as Ht.
  destruct (SFcompare (Prim2SF x) (Prim2SF y)) as [[]|]; try reflexivity.
  exfalso. apply Ht; [now destruct (Prim2SF x) | now destruct (Prim2SF y) | reflexivity].
Qed.

(** *** Sums, products and differences that are numbers *)











(** ** The two ways [handleTransfer] ends *)

Lemma calculateFXConversion_rate (amount converted : float) (c d : Currency) :
  Currency_eqb c d = false ->
  calculateFXConversion amount c d = Some converted ->
  exists rate, rateOf c d = Some rate /\ converted = (amount * rate)%float.
Proof.
  unfold calculateFXConversion, rateOf. intros ->.
  destruct (lookup FX_RATES _) as [rate|]; [|discriminate].
  destruct (JS.falsy_number rate); [discriminate|].
  intros [= <-]. now exists rate.
Qed.

Lemma handleTransfer_cases (clock : Clock.t) (st : State.t) :
  (exists e, handleTransfer clock st = reject e st)
  \/ (exists fromAccount toAccount amount convertedAmount fxRate,
        Accepted st fromAccount toAccount amount convertedAmount fxRate
        /\ handleTransfer clock st
           = commit clock st fromAccount toAccount amount convertedAmount fxRate).
Proof.
  transfer_cases;
    try (left; eexists; reflexivity).
  all: right; do 5 eexists; split; [|reflexivity].
  all: match goal with
       | H : (PrimFloat.is_nan _ || _)%bool = false |- _ =>
           rewrite positive_iff in H; apply negb_false_iff in H
       end.
  all: repeat match goal with
         | H : (_ || _)%bool = false |- _ => apply orb_false_elim in H as [? ?]
         | H : negb _ = false |- _ => apply negb_false_iff in H
         | H : negb _ = true |- _ => apply negb_true_iff in H
         end.
  all: constructor; try assumption; try reflexivity.
  all: try (unfold fieldsPresent; repeat (apply andb_true_intro; split);
            assumption).
  all: try (unfold accountsDiffer; apply negb_true_iff; assumption).
  all: match goal with
       | H : Currency_eqb _ _ = _ |- _ => rewrite H
       end.
  - split; [|split; [assumption | reflexivity]].
    eapply calculateFXConversion_rate; eassumption.
  - split; reflexivity.
Qed.

Lemma succeeds_reject clock st e :
  handleTransfer clock st = reject e st -> succeeds clock st = false.
Proof.
  unfold succeeds. intros ->. now destruct e.
Qed.

Lemma succeeds_commit clock st f t a cv fx :
  handleTransfer clock st = commit clock st f t a cv fx ->
  succeeds clock st = true.
Proof.
  unfold succeeds. now intros ->.
Qed.

Lemma message_inj (e1 e2 : ValidationError) :
  message e1 = message e2 -> e1 = e2.
Proof. destruct e1, e2; cbn; intros H; congruence || discriminate H. Qed.


Lemma rate_truthy (c d : Currency) (rate : float) :
  rateOf c d = Some rate -> JS.falsy_number rate = false.
Proof.
  destruct c, d; cbn; intros [= <-]; reflexivity.
Qed.

Lemma rateOf_total (c d : Currency) : rateOf c d <> None.
Proof. destruct c, d; cbn; congruence. Qed.

Lemma updateAccount_id form amount conv acc :
  Account.id (updateAccount form amount conv acc) = Account.id acc.
Proof.
  unfold updateAccount.
  destruct (Account.id acc =? TransferForm.fromAccount form); [reflexivity|].
  now destruct (Account.id acc =? TransferForm.toAccount form).
Qed.

Lemma resolve_map_update form amount conv (accounts : list Account.t) id :
  resolve (map (updateAccount form amount conv) accounts) id
  = option_map (updateAccount form amount conv) (resolve accounts id).
Proof.
  unfold resolve. induction accounts as [|acc accounts IH]; [reflexivity|].
  cbn [map find]. rewrite updateAccount_id.
  now destruct (Account.id acc =? id).
Qed.

Lemma resolve_id (accounts : list Account.t) id acc :
  resolve accounts id = Some acc -> Account.id acc = id.
Proof.
  unfold resolve. intros H. apply find_some in H as [_ H].
  now apply String.eqb_eq.
Qed.

(** What a transfer that is carried out leaves in the accounts. *)
Lemma Accepted_balances st fromAccount toAccount amount conv fx :
  Accepted st fromAccount toAccount amount conv fx ->
  let form := State.transferForm st in
  let accounts' := map (updateAccount form amount conv) (State.accounts st) in
  balanceOf accounts' (TransferForm.fromAccount form)
  = Some (Account.balance fromAccount - amount)%float
  /\ balanceOf accounts' (TransferForm.toAccount form)
     = Some (Account.balance toAccount + conv)%float
  /\ forall id,
       id <> TransferForm.fromAccount form ->
       id <> TransferForm.toAccount form ->
       resolve accounts' id = resolve (State.accounts st) id.
Proof.
  intros [_ Hdiff _ _ Hfrom Hto _ _] form accounts'. subst form accounts'.
  pose proof (resolve_id _ _ _ Hfrom) as Hfid.
  pose proof (resolve_id _ _ _ Hto) as Htid.
  unfold accountsDiffer in Hdiff. apply negb_true_iff in Hdiff.
  conjuncts.
  - unfold balanceOf. rewrite resolve_map_update, Hfrom. cbn [option_map].
    unfold updateAccount. now rewrite Hfid, String.eqb_refl.
  - unfold balanceOf. rewrite resolve_map_update, Hto. cbn [option_map].
    unfold updateAccount.
    now rewrite Htid, String.eqb_sym, Hdiff, String.eqb_refl.
  - intros id Hf Ht. rewrite resolve_map_update.
    destruct (resolve (State.accounts st) id) as [acc|] eqn:Hacc;
      [|reflexivity].
    apply resolve_id in Hacc. cbn [option_map]. f_equal.
    unfold updateAccount. rewrite Hacc.
    apply String.eqb_neq in Hf, Ht. now rewrite Hf, Ht.
Qed.

(** ** The validation sequence of the specification and the code *)

Lemma firstFailure_None (st : State.t) :
  firstFailure st = None ->
  fieldsPresent (State.transferForm st) = true
  /\ accountsDiffer (State.transferForm st) = true
  /\ amountPositive (State.transferForm st) = true
  /\ accountsResolve (State.accounts st) (State.transferForm st) = true
  /\ balanceSuffices (State.accounts st) (State.transferForm st) = true
  /\ rateExists (State.accounts st) (State.transferForm st) = true.
Proof.
  unfold firstFailure.
  destruct (fieldsPresent _); [|discriminate].
  destruct (accountsDiffer _); [|discriminate].
  destruct (amountPositive _); [|discriminate].
  destruct (accountsResolve _ _); [|discriminate].
  destruct (balanceSuffices _ _); [|discriminate].
  destruct (rateExists _ _); [|discriminate].
  now repeat split.
Qed.

(** A submission that fails leaves accounts, log, form and filters as they
    were and reports one of the six validation errors. *)
Theorem failed_transfer_changes_nothing (clock : Clock.t) (st : State.t) :
  succeeds clock st = false ->
  let st' := handleTransfer clock st in
  State.accounts st' = State.accounts st
  /\ State.transactions st' = State.transactions st
  /\ State.transferForm st' = State.transferForm st
  /\ State.filters st' = State.filters st
  /\ State.success st' = ""
  /\ exists e, State.error st' = message e.
Proof.
  intros Hfail st'. subst st'.
  destruct (handleTransfer_cases clock st)
    as [[e He]|(f & t & a & cv & fx & _ & He)].
  - rewrite He. conjuncts; try reflexivity. now exists e.
  - rewrite (succeeds_commit _ _ _ _ _ _ _ He) in Hfail. discriminate.
Qed.

Lemma failed_transfer_changes_nothing_witness :
  let st := seedWith (TransferForm.mk "mpesa_kes_1" "bank_usd_1" "10000000" "" "") in
  let st' := handleTransfer clock0 st in
  succeeds clock0 st = false
  /\ State.accounts st' = State.accounts st
  /\ State.transactions st' = State.transactions st
  /\ State.transferForm st' = State.transferForm st
  /\ State.filters st' = State.filters st
  /\ State.success st' = ""
  /\ exists e, State.error st' = message e.
Proof.
  intros st st'.
  assert (succeeds clock0 st = false) as H by (vm_compute; reflexivity).
  split; [exact H|].
  exact (failed_transfer_changes_nothing clock0 st H).
Defined.

(** When one of the six checks of the specification fails and the source
    balance is a number, [handleTransfer] reports the first check that
    fails and changes nothing else. *)
Theorem first_failure_reported
    (clock : Clock.t) (st : State.t) (e : ValidationError) :
  firstFailure st = Some e ->
  (forall fromAccount,
     resolve (State.accounts st)
       (TransferForm.fromAccount (State.transferForm st)) = Some fromAccount ->
     PrimFloat.is_nan (Account.balance fromAccount) = false) ->
  handleTransfer clock st = reject e st.
Proof.
  intros Hf Hnan. unfold firstFailure in Hf.
  unfold handleTransfer, reject. cbv zeta.
  unfold fieldsPresent, accountsDiffer, amountPositive, accountsResolve,
    balanceSuffices, rateExists, resolve in *.
  destruct (JS.truthy (TransferForm.fromAccount (State.transferForm st)));
    destruct (JS.truthy (TransferForm.toAccount (State.transferForm st)));
    destruct (JS.truthy (TransferForm.amount (State.transferForm st)));
    cbn [andb negb orb] in *; try (injection Hf as <-; reflexivity).
  destruct (TransferForm.fromAccount (State.transferForm st)
            =? TransferForm.toAccount (State.transferForm st));
    cbn [negb] in *; try (injection Hf as <-; reflexivity).
  rewrite positive_iff.
  destruct (0 <? JS.parseFloat (TransferForm.amount (State.transferForm st)))%float
    eqn:Hpos; cbn [negb] in *; try (injection Hf as <-; reflexivity).
  destruct (find _ (State.accounts st)) as [fromAccount|];
    [|injection Hf as <-; reflexivity].
  destruct (find _ (State.accounts st)) as [toAccount|];
    [|injection Hf as <-; reflexivity].
  cbn [negb] in Hf.
  rewrite (leb_false_ltb _ _ (positive_is_number _ Hpos)
             (Hnan fromAccount eq_refl)).
  destruct (JS.parseFloat (TransferForm.amount (State.transferForm st))
            <=? Account.balance fromAccount)%float;
    cbn [negb] in *; [|injection Hf as <-; reflexivity].
  pose proof (rateOf_total (Account.currency fromAccount)
                (Account.currency toAccount)) as Hrate.
  destruct (rateOf _ _); [discriminate Hf | congruence].
Qed.

Lemma first_failure_reported_witness :
  let st := seedWith (TransferForm.mk "mpesa_kes_1" "bank_usd_1" "10000000" "" "") in
  (firstFailure st = Some InsufficientBalance
   /\ forall fromAccount,
        resolve (State.accounts st)
          (TransferForm.fromAccount (State.transferForm st)) = Some fromAccount ->
        PrimFloat.is_nan (Account.balance fromAccount) = false)
  /\ handleTransfer clock0 st = reject InsufficientBalance st.
Proof.
  intros st.
  assert (firstFailure st = Some InsufficientBalance) as H1
    by (vm_compute; reflexivity).
  assert (forall fromAccount,
            resolve (State.accounts st)
              (TransferForm.fromAccount (State.transferForm st)) = Some fromAccount ->
            PrimFloat.is_nan (Account.balance fromAccount) = false) as H2.
  { intros fromAccount H. vm_compute in H.
    apply (f_equal (fun o => match o with
                             | Some acc => PrimFloat.is_nan (Account.balance acc)
                             | None => false
                             end)) in H.
    symmetry. exact H. }
  split; [split; assumption|].
  exact (first_failure_reported clock0 st InsufficientBalance H1 H2).
Defined.

(** ** Amounts whose converted amount rounds to zero *)

(** C1, at an input where the code departs from it.  A transfer of
    [1e-323] shillings from [Mpesa_KES_1] to [Bank_USD_1] passes the six
    checks: the fields are present, the accounts differ, the amount is above
    zero, both accounts exist, the balance suffices and the rate KES-USD
    exists.  Its converted amount [1e-323 * 0.0067] rounds to zero, which
    the test [!converted] takes for a missing rate: the source is not
    debited, no record is put in the log and the form is not emptied. *)
Theorem tiny_shillings_not_transferred (clock : Clock.t) :
  let st' := handleTransfer clock tinyShillings in
  firstFailure tinyShillings = None
  /\ (0 <? JS.parseFloat "1e-323")%float = true
  /\ rateOf KES USD = Some 0.0067%float
  /\ (JS.parseFloat "1e-323" * 0.0067)%float = 0%float
  /\ State.accounts st' = State.accounts tinyShillings
  /\ State.transactions st' = []
  /\ State.transferForm st' = State.transferForm tinyShillings
  /\ State.error st' = message UnsupportedCurrencyPair.
Proof.
  intros st'. subst st'. conjuncts; vm_compute; reflexivity.
Qed.

(** C2, at an input where the code departs from it.  For [1e-321] naira
    from [Flutterwave_NGN_1] to [Bank_USD_2] none of the six checks fails,
    the rate NGN-USD being in the table, and yet [handleTransfer] fails,
    with the message of an unsupported currency pair: the converted amount
    rounds to zero and [!converted] takes it for a missing rate. *)
Theorem tiny_naira_fails_with_no_failing_check (clock : Clock.t) :
  let st' := handleTransfer clock tinyNaira in
  firstFailure tinyNaira = None
  /\ rateOf NGN USD = Some 0.00063%float
  /\ State.error st' = message UnsupportedCurrencyPair
  /\ State.success st' = ""
  /\ State.accounts st' = State.accounts tinyNaira
  /\ State.transactions st' = State.transactions tinyNaira.
Proof.
  intros st'. subst st'. conjuncts; vm_compute; reflexivity.
Qed.

(** ** [parseFloat] on a decimal literal with a tail *)










(** *** Leading white space and the sign *)





(** ** The amount check *)




(** ** Example 1 of the specification *)

(** C7.  A transfer of 100,000 from [Mpesa_KES_1] (KES, 2,500,000) to
    [Bank_USD_1] (USD, 45,000) without scheduled date succeeds: the source
    is left with 2,400,000, the rate KES-USD is 0.0067, the destination is
    left with [45000 + 100000 * 0.0067], which is 45,670, and the one record
    of the log has status [Completed]. *)
Theorem example_1_completed (clock : Clock.t) (note : string) :
  let st := example1 note in
  let st' := handleTransfer clock st in
  balanceOf (State.accounts st) "mpesa_kes_1" = Some 2500000%float
  /\ balanceOf (State.accounts st) "bank_usd_1" = Some 45000%float
  /\ State.error st' = ""
  /\ balanceOf (State.accounts st') "mpesa_kes_1" = Some 2400000%float
  /\ rateOf KES USD = Some 0.0067%float
  /\ balanceOf (State.accounts st') "bank_usd_1"
     = Some (45000 + 100000 * 0.0067)%float
  /\ (45000 + 100000 * 0.0067)%float = 45670%float
  /\ exists tx,
       State.transactions st' = [tx]
       /\ Transaction.status tx = Completed
       /\ Transaction.amount tx = 100000%float
       /\ Transaction.convertedAmount tx = 670%float
       /\ Transaction.fxRate tx = 0.0067%float
       /\ Transaction.fromCurrency tx = KES
       /\ Transaction.toCurrency tx = USD.
Proof.
  intros st st'. subst st st'.
  conjuncts; try (vm_compute; reflexivity).
  eexists. conjuncts; vm_compute; reflexivity.
Qed.

(** ** Runs: what a step can change *)

(** Induction over the states a run reaches. *)
Lemma run_invariant (P : State.t -> Prop) :
  (forall st ev, P st -> P (step st ev)) ->
  forall events st, P st -> P (run events st).
Proof.
  intros Hstep events. induction events as [|ev events IH]; intros st Hst.
  - exact Hst.
  - cbn. apply IH, Hstep, Hst.
Qed.

(** A step either leaves accounts and log alone or carries a transfer out. *)
Lemma step_cases (st : State.t) (ev : Event) :
  (State.accounts (step st ev) = State.accounts st
   /\ State.transactions (step st ev) = State.transactions st)
  \/ (exists clock fromAccount toAccount amount convertedAmount fxRate,
        ev = Submit clock
        /\ Accepted st fromAccount toAccount amount convertedAmount fxRate
        /\ step st ev
           = commit clock st fromAccount toAccount amount convertedAmount fxRate).
Proof.
  destruct ev as [clock|field value|field value|]; try (left; split; reflexivity).
  destruct (handleTransfer_cases clock st)
    as [[e He]|(fromAccount & toAccount & amount & conv & fx & Hacc & Heq)].
  - left. cbn [step]. rewrite He. split; reflexivity.
  - right. now exists clock, fromAccount, toAccount, amount, conv, fx.
Qed.

Lemma updateAccount_currency form amount conv acc :
  Account.currency (updateAccount form amount conv acc) = Account.currency acc.
Proof.
  unfold updateAccount.
  destruct (Account.id acc =? TransferForm.fromAccount form); [reflexivity|].
  now destruct (Account.id acc =? TransferForm.toAccount form).
Qed.

(** The identifiers of the accounts are those of the seed list, in its
    order, in every state a run reaches. *)
Lemma step_ids (st : State.t) (ev : Event) :
  map Account.id (State.accounts (step st ev))
  = map Account.id (State.accounts st).
Proof.
  destruct (step_cases st ev) as [[-> _]|(c & f & t & a & cv & fx & _ & _ & ->)].
  - reflexivity.
  - cbn [commit State.accounts]. rewrite map_map.
    apply map_ext. intros acc. apply updateAccount_id.
Qed.

Lemma run_ids (events : list Event) :
  map Account.id (State.accounts (run events initialState))
  = map Account.id initialAccounts.
Proof.
  apply (run_invariant
           (fun st => map Account.id (State.accounts st)
                      = map Account.id initialAccounts)).
  - intros st ev H. now rewrite step_ids.
  - reflexivity.
Qed.

Lemma initial_ids_NoDup : NoDup (map Account.id initialAccounts).
Proof.
  cbn. repeat constructor; cbn; intuition discriminate.
Qed.

(** With identifiers that are unique, [find] returns the one account that
    carries the identifier. *)
Lemma resolve_unique (accounts : list Account.t) (id : string) (a b : Account.t) :
  NoDup (map Account.id accounts) ->
  resolve accounts id = Some a -> In b accounts -> Account.id b = id -> b = a.
Proof.
  unfold resolve. induction accounts as [|x l IH]; cbn; intros Hnd Hf Hin Hid.
  - contradiction.
  - inversion Hnd as [|? ? Hx Hl]; subst.
    destruct (String.eqb_spec (Account.id x) (Account.id b)) as [E|E].
    + injection Hf as <-. destruct Hin as [-> | Hin]; [reflexivity|].
      exfalso. apply Hx. rewrite E. now apply in_map.
    + destruct Hin as [-> | Hin]; [congruence|]. now apply IH.
Qed.

(** ** Balances *)








(** What the run into the overflow ends in: the balance the infinite
    amount was taken from, and the record of that transfer. *)
Lemma infiniteTransfer_outcome :
  (balanceOf (State.accounts (run infiniteTransfer initialState)) "mpesa_kes_1",
   hd_error (State.transactions (run infiniteTransfer initialState)))
  = (Some nan,
     Some (Transaction.mk "1700000000000" "2023-11-14T22:13:20.000Z"
             "Mpesa_KES_1" "Bank_USD_1" KES USD
             infinity infinity nan "" None Completed)).
Proof. vm_compute. reflexivity. Qed.

Lemma pair_eq {A B : Type} (a c : A) (b d : B) :
  (a, b) = (c, d) -> a = c /\ b = d.
Proof.
  intros H. split; [exact (f_equal fst H) | exact (f_equal snd H)].
Qed.



(** ** The records of the log *)

Lemma step_recorded (st : State.t) (ev : Event) :
  Forall recorded (State.transactions st) ->
  Forall recorded (State.transactions (step st ev)).
Proof.
  intros Hall.
  destruct (step_cases st ev)
    as [[_ ->]|(c & f & t & a & cv & fx & _ & Hacc & ->)]; [exact Hall|].
  cbn [commit State.transactions]. constructor; [|exact Hall].
  unfold recorded, newTransaction; cbn.
  pose proof (accepted_conversion _ _ _ _ _ _ Hacc) as Hconv.
  destruct (Currency_eqb (Account.currency f) (Account.currency t)).
  - destruct Hconv as [-> ->]. now split.
  - destruct Hconv as (Hrate & _ & ->). now split.
Qed.

(** Every record a run from the seed state puts in the log is
    as the code builds it: between equal currencies its rate is exactly [1]
    and its converted amount is its amount; between different currencies
    its converted amount is its amount times the rate of the table and its
    rate is the quotient of converted amount and amount. *)
Theorem transactions_recorded (events : list Event) :
  Forall recorded (State.transactions (run events initialState)).
Proof.
  apply (run_invariant (fun st => Forall recorded (State.transactions st))).
  - intros st ev. apply step_recorded.
  - constructor.
Qed.

Lemma nan_rate_breaks_invariant (log : list Transaction.t) (tx : Transaction.t) :
  hd_error log = Some tx ->
  PrimFloat.is_nan (Transaction.convertedAmount tx) = false ->
  PrimFloat.is_nan (Transaction.amount tx * Transaction.fxRate tx)%float = true ->
  ~ Forall invariant_as_stated log.
Proof.
  intros Hhd Hconv Hprod H.
  destruct log as [|tx' log]; [discriminate Hhd|].
  apply Forall_inv in H. destruct H as [H _].
  cbn [hd_error] in Hhd.
  assert (tx' = tx) as ->
    by exact (f_equal (fun o => match o with Some t => t | None => tx' end) Hhd).
  rewrite H, Hprod in Hconv. discriminate Hconv.
Qed.

(** C4 as stated fails once a balance is infinite: the record of the transfer
    of [Infinity] shillings has the converted amount [Infinity] and the rate
    [Infinity / Infinity], which is NaN, so that amount times rate is NaN
    and not the converted amount. *)
Lemma infinite_amount_breaks_invariant :
  ~ Forall invariant_as_stated
      (State.transactions (run infiniteTransfer initialState)).
Proof.
  exact (nan_rate_breaks_invariant _ _
           (proj2 (pair_eq _ _ _ _ infiniteTransfer_outcome)) eq_refl eq_refl).
Qed.

(** ** Identifiers *)

Lemma toString_inj (a b : Z) : JS.toString a = JS.toString b -> a = b.
Proof.
  unfold JS.toString. intros H.
  assert (forall n, NilZero.int_of_string (NilZero.string_of_int (Z.to_int n))
                    = Some (Z.to_int n)) as Hisi.
  { intros n. apply NilZero.isi; intros E;
      pose proof (f_equal Z.of_int E) as E';
      rewrite DecimalZ.of_to in E'; subst n; cbv in E; discriminate E. }
  apply DecimalZ.to_int_inj.
  apply (f_equal NilZero.int_of_string) in H.
  rewrite !Hisi in H. congruence.
Qed.

(** The identifiers of the log are the readings of the accepted
    submissions, the latest first. *)
Lemma run_ids_of_log (events : list Event) (st : State.t) :
  map Transaction.id (State.transactions (run events st))
  = (map JS.toString (rev (acceptedReadings events st))
     ++ map Transaction.id (State.transactions st))%list.
Proof.
  revert st. induction events as [|ev events IH]; intros st; [reflexivity|].
  cbn [run fold_left acceptedReadings]. fold (run events (step st ev)).
  rewrite IH, rev_app_distr, map_app, <- app_assoc. f_equal.
  destruct ev as [clock|field value|field value|]; try reflexivity.
  cbn [step].
  destruct (handleTransfer_cases clock st)
    as [[e He]|(f & t & a & cv & fx & _ & He)].
  - rewrite (succeeds_reject _ _ _ He), He. reflexivity.
  - rewrite (succeeds_commit _ _ _ _ _ _ _ He), He. reflexivity.
Qed.

Lemma StronglySorted_app (R : Z -> Z -> Prop) (l1 l2 : list Z) :
  StronglySorted R l1 -> StronglySorted R l2 ->
  (forall x y, In x l1 -> In y l2 -> R x y) ->
  StronglySorted R (l1 ++ l2).
Proof.
  induction 1 as [|a l Hl IH Ha]; intros H2 Hcross; [exact H2|].
  cbn. constructor.
  - apply IH; [exact H2|]. intros x y Hx. apply Hcross. now right.
  - apply Forall_app. split; [exact Ha|].
    apply Forall_forall. intros y Hy. apply Hcross; [now left | exact Hy].
Qed.

Lemma StronglySorted_rev (l : list Z) :
  StronglySorted Z.lt l -> StronglySorted Z.gt (rev l).
Proof.
  induction 1 as [|a l Hl IH Ha]; cbn; [constructor|].
  apply StronglySorted_app; [exact IH | repeat constructor |].
  intros x y Hx [<-|[]]. apply in_rev in Hx.
  rewrite Forall_forall in Ha. specialize (Ha x Hx). lia.
Qed.

Lemma StronglySorted_gt_NoDup (l : list Z) :
  StronglySorted Z.gt l -> NoDup l.
Proof.
  induction 1 as [|a l Hl IH Ha]; constructor; [|exact IH].
  intros Hin. rewrite Forall_forall in Ha. specialize (Ha a Hin). lia.
Qed.

Lemma NoDup_map_toString (l : list Z) :
  NoDup l -> NoDup (map JS.toString l).
Proof.
  induction 1 as [|a l Ha Hl IH]; cbn; constructor; [|exact IH].
  intros Hin. apply in_map_iff in Hin as (b & Hb & Hin).
  apply toString_inj in Hb. now subst b.
Qed.

(** C8, amended.  When the clock readings of the transfers that are carried
    out increase strictly from one to the next, the identifiers of the log
    are pairwise distinct, and they are the decimal forms of numbers that
    decrease strictly down the log, whose head is the latest record. *)
Theorem ids_unique_and_monotonic (events : list Event) :
  StronglySorted Z.lt (acceptedReadings events initialState) ->
  let log := State.transactions (run events initialState) in
  NoDup (map Transaction.id log)
  /\ exists readings,
       map Transaction.id log = map JS.toString readings
       /\ StronglySorted Z.gt readings.
Proof.
  intros Hsorted log; subst log.
  rewrite run_ids_of_log. cbn [initialState State.transactions map].
  rewrite List.app_nil_r.
  apply StronglySorted_rev in Hsorted.
  split.
  - apply NoDup_map_toString, StronglySorted_gt_NoDup, Hsorted.
  - now exists (rev (acceptedReadings events initialState)).
Qed.

Lemma ids_unique_and_monotonic_witness :
  StronglySorted Z.lt (acceptedReadings laterTransfer initialState)
  /\ NoDup (map Transaction.id
              (State.transactions (run laterTransfer initialState)))
  /\ exists readings,
       map Transaction.id (State.transactions (run laterTransfer initialState))
       = map JS.toString readings
       /\ StronglySorted Z.gt readings.
Proof.
  assert (StronglySorted Z.lt (acceptedReadings laterTransfer initialState))
    as Hsorted by (vm_compute; repeat constructor).
  split; [exact Hsorted|].
  exact (ids_unique_and_monotonic laterTransfer Hsorted).
Defined.

(** C8 as stated fails when the clock does not move: two transfers
    carried out within one millisecond have the same identifier. *)
Lemma same_millisecond_same_id :
  ~ NoDup (map Transaction.id
             (State.transactions (run sameMillisecond initialState))).
Proof.
  vm_compute. intros H. inversion H as [|x l Hx Hl]; subst.
  apply Hx. now left.
Qed.

(** ** Currency totals *)

Lemma Currency_eqb_eq (c d : Currency) : Currency_eqb c d = true <-> c = d.
Proof. destruct c, d; cbn; split; congruence. Qed.

(** The loop of [getTotalByCurrency], from any [totals] object. *)
Lemma totals_fold_other (f : Account.t -> Account.t) (c : Currency)
    (accounts : list Account.t) :
  (forall acc, In acc accounts ->
     Account.currency (f acc) = Account.currency acc
     /\ (Account.currency acc = c -> f acc = acc)) ->
  forall totals1 totals2 : CurrencyTotals,
    totals1 c = totals2 c ->
    fold_left
      (fun totals acc =>
         totals_set totals (Account.currency acc)
           (totals_or_zero totals (Account.currency acc) + Account.balance acc)%float)
      (map f accounts) totals1 c
    = fold_left
        (fun totals acc =>
           totals_set totals (Account.currency acc)
             (totals_or_zero totals (Account.currency acc) + Account.balance acc)%float)
        accounts totals2 c.
Proof.
  induction accounts as [|acc accounts IH]; intros Hf totals1 totals2 Ht.
  - exact Ht.
  - cbn [map fold_left]. apply IH.
    + intros a Ha. apply Hf. now right.
    + destruct (Hf acc (or_introl eq_refl)) as [Hcur Hsame].
      rewrite Hcur. unfold totals_set, totals_or_zero.
      destruct (Currency_eqb c (Account.currency acc)) eqn:E.
      * assert (Account.currency acc = c) as Hc
          by (destruct c, (Account.currency acc); congruence || discriminate).
        rewrite (Hsame Hc), Hc, Ht. reflexivity.
      * exact Ht.
Qed.

(** A currency is a key of the totals exactly when an account has it. *)
Lemma totals_fold_none (c : Currency) (accounts : list Account.t) :
  forall totals : CurrencyTotals,
    fold_left
      (fun totals acc =>
         totals_set totals (Account.currency acc)
           (totals_or_zero totals (Account.currency acc) + Account.balance acc)%float)
      accounts totals c = None
    <-> totals c = None
        /\ Forall (fun acc => Account.currency acc <> c) accounts.
Proof.
  induction accounts as [|acc accounts IH]; intros totals; cbn [fold_left].
  - split; [intros H; split; [exact H | constructor] | now intros [H _]].
  - rewrite IH. unfold totals_set at 1.
    destruct (Currency_eqb c (Account.currency acc)) eqn:E.
    + apply Currency_eqb_eq in E. split.
      * now intros [H _].
      * intros [_ H]. apply Forall_inv in H. congruence.
    + split.
      * intros [H1 H2]. split; [exact H1|]. constructor; [|exact H2].
        intros H. subst c.
        assert (Currency_eqb (Account.currency acc) (Account.currency acc) = true)
          by now apply Currency_eqb_eq.
        congruence.
      * intros [H1 H2]. split; [exact H1|]. now apply Forall_inv_tail in H2.
Qed.

(** *** Shifting a mantissa to the right *)

Lemma iter_pos_nat {A : Type} (f : A -> A) (p : positive) :
  forall x, iter_pos f p x = Nat.iter (Pos.to_nat p) f x.
Proof.
  induction p as [p IH|p IH|]; intros x; cbn [iter_pos].
  - rewrite !IH, Pos2Nat.inj_xI.
    replace (S (2 * Pos.to_nat p)) with (Pos.to_nat p + (Pos.to_nat p + 1))%nat
      by lia.
    rewrite !Nat.iter_add. reflexivity.
  - rewrite !IH, Pos2Nat.inj_xO.
    replace (2 * Pos.to_nat p)%nat with (Pos.to_nat p + Pos.to_nat p)%nat
      by lia.
    now rewrite Nat.iter_add.
  - reflexivity.
Qed.

Lemma shr_1_spec (m : Z) (r s : bool) :
  (0 <= m)%Z ->
  shr_1 (Build_shr_record m r s)
  = Build_shr_record (m / 2) (Z.odd m) (r || s).
Proof.
  intros Hm. destruct m as [|[p|p|]|p]; try lia; cbn [shr_1].
  - reflexivity.
  - f_equal. rewrite Pos2Z.inj_xI.
    rewrite Z.mul_comm, Z.div_add_l by lia. reflexivity.
  - f_equal. rewrite Pos2Z.inj_xO.
    rewrite Z.mul_comm, Z.div_mul by lia. reflexivity.
  - reflexivity.
Qed.

(** Shifting out [n] bits that are all zero loses nothing. *)
Lemma iter_shr_1_exact (n : nat) :
  forall m, (0 <= m)%Z ->
  Nat.iter n shr_1 (Build_shr_record (m * 2 ^ Z.of_nat n) false false)
  = Build_shr_record m false false.
Proof.
  induction n as [|n IH]; intros m Hm.
  - cbn. now rewrite Z.mul_1_r.
  - rewrite Nat.iter_succ_r.
    rewrite shr_1_spec by (apply Z.mul_nonneg_nonneg; lia).
    rewrite Nat2Z.inj_succ, Z.pow_succ_r by lia.
    replace (m * (2 * 2 ^ Z.of_nat n))%Z with ((m * 2 ^ Z.of_nat n) * 2)%Z
      by lia.
    rewrite Z.div_mul by lia.
    rewrite Z.odd_mul, andb_false_r. cbn [orb].
    now apply IH.
Qed.

(** *** The Number of a whole number *)

Lemma digits2_pos_unique (m : positive) (d : Z) :
  (2 ^ (d - 1) <= Z.pos m < 2 ^ d)%Z -> Z.pos (digits2_pos m) = d.
Proof.
  intros [Hlo Hhi]. pose proof (digits2_pos_bounds m) as [Blo Bhi].
  assert (0 < d)%Z as Hd.
  { destruct (Z_lt_le_dec 0 d) as [H|H]; [exact H|].
    assert (2 ^ d <= 2 ^ 0)%Z by (apply Z.pow_le_mono_r; lia).
    change (2 ^ 0)%Z with 1%Z in *. lia. }
  destruct (Z.lt_trichotomy (Z.pos (digits2_pos m)) d) as [H|[H|H]];
    [|exact H|].
  - assert (2 ^ Z.pos (digits2_pos m) <= 2 ^ (d - 1))%Z
      by (apply Z.pow_le_mono_r; lia). lia.
  - assert (2 ^ d <= 2 ^ (Z.pos (digits2_pos m) - 1))%Z
      by (apply Z.pow_le_mono_r; lia). lia.
Qed.

(** A mantissa of 53 bits at an exponent in range is not shifted, and not
    rounded. *)
Lemma shr_fexp_canonical (m : positive) (e : Z) :
  Z.pos (digits2_pos m) = prec -> (-1074 <= e)%Z ->
  shr_fexp prec emax (Z.pos m) e loc_Exact
  = (Build_shr_record (Z.pos m) false false, e).
Proof.
  intros Hd He. unfold shr_fexp, shr, fexp.
  cbn [Zdigits2 shr_record_of_loc]. rewrite Hd.
  replace (Z.max (prec + e - prec) (SpecFloat.emin prec emax) - e)%Z
    with 0%Z; [reflexivity|].
  change (SpecFloat.emin prec emax) with (-1074)%Z. lia.
Qed.

Lemma binary_round_aux_canonical (m : positive) (e : Z) :
  Z.pos (digits2_pos m) = prec -> (-1074 <= e <= 971)%Z ->
  binary_round_aux prec emax false (Z.pos m) e loc_Exact
  = S754_finite false m e.
Proof.
  intros Hd He. unfold binary_round_aux.
  rewrite (shr_fexp_canonical m e Hd) by lia.
  cbn [shr_m loc_of_shr_record round_nearest_even].
  rewrite (shr_fexp_canonical m e Hd) by lia. cbn [shr_m].
  replace (e <=? emax - prec)%Z with true; [reflexivity|].
  symmetry. apply Z.leb_le. change (emax - prec)%Z with 971%Z. lia.
Qed.

Lemma shl_align_snd (mx : positive) (ex ez : Z) :
  (ez <= ex)%Z -> snd (shl_align mx ex ez) = ez.
Proof.
  intros Hle. unfold shl_align.
  destruct (ez - ex)%Z as [|d|d] eqn:Hd; cbn [snd]; lia.
Qed.

Lemma whole_mantissa_digits (z : Z) :
  (0 < z < 2 ^ prec)%Z ->
  Z.pos (whole_mantissa z) = (z * 2 ^ (prec - (Z.log2 z + 1)))%Z
  /\ Z.pos (digits2_pos (whole_mantissa z)) = prec
  /\ (- 52 <= whole_exponent z <= 0)%Z.
Proof.
  intros [Hpos Hlt]. unfold whole_mantissa, whole_exponent.
  pose proof (Z.log2_spec z Hpos) as [Hlo Hhi].
  pose proof (Z.log2_nonneg z) as Hnn.
  assert (Z.log2 z < prec)%Z as Hlog
    by (apply Z.log2_lt_pow2; [lia | exact Hlt]).
  set (k := (prec - (Z.log2 z + 1))%Z) in *.
  assert (0 <= k)%Z as Hk by (subst k; lia).
  assert (0 < 2 ^ k)%Z as Hpk by (apply Z.pow_pos_nonneg; lia).
  assert (Z.pos (Z.to_pos (z * 2 ^ k)) = z * 2 ^ k)%Z as Hm
    by (apply Z2Pos.id; nia).
  split; [exact Hm|]. split.
  - apply digits2_pos_unique. rewrite Hm.
    replace (prec - 1)%Z with (Z.log2 z + k)%Z by (subst k; lia).
    replace (2 ^ prec)%Z with (2 ^ (Z.succ (Z.log2 z) + k))%Z
      by (f_equal; subst k; lia).
    rewrite !Z.pow_add_r by lia. nia.
  - change prec with 53%Z in *. lia.
Qed.

(** [m * 2 ^ e] for a whole number [z = m * 2 ^ e] below [2 ^ 53] is
    normalised to the mantissa of 53 bits of [z], whatever [e] is. *)
Lemma binary_normalize_whole (z m e : Z) :
  (0 < z < 2 ^ prec)%Z -> (e <= 0)%Z -> m = (z * 2 ^ (- e))%Z ->
  binary_normalize prec emax m e false
  = S754_finite false (whole_mantissa z) (whole_exponent z).
Proof.
  intros Hz He Hm.
  destruct (whole_mantissa_digits z Hz) as (Hwm & Hwd & Hwe).
  pose proof (Z.log2_spec z ltac:(lia)) as [Hlo Hhi].
  pose proof (Z.log2_nonneg z) as Hnn.
  assert (0 < 2 ^ (- e))%Z as Hpe by (apply Z.pow_pos_nonneg; lia).
  destruct m as [|p|p]; try nia.
  unfold binary_normalize, binary_round.
  (* the digits of [p] *)
  assert (Z.pos (digits2_pos p) = Z.log2 z + 1 - e)%Z as Hdp.
  { apply digits2_pos_unique. rewrite Hm.
    replace (Z.log2 z + 1 - e - 1)%Z with (Z.log2 z + - e)%Z by lia.
    replace (Z.log2 z + 1 - e)%Z with (Z.succ (Z.log2 z) + - e)%Z by lia.
    rewrite !Z.pow_add_r by lia. nia. }
  assert (fexp prec emax (Z.pos (digits2_pos p) + e) = whole_exponent z)
    as Hfexp.
  { unfold fexp, whole_exponent. rewrite Hdp.
    change (SpecFloat.emin prec emax) with (-1074)%Z.
    change prec with 53%Z in *. lia. }
  rewrite Hfexp.
  destruct (Z_lt_le_dec (whole_exponent z) e) as [Hlt|Hge].
  - (* the mantissa is shifted to the left *)
    pose proof (shl_align_value p e (whole_exponent z) ltac:(lia)) as Hv.
    pose proof (shl_align_snd p e (whole_exponent z) ltac:(lia)) as Hs.
    destruct (shl_align p e (whole_exponent z)) as [mz ez].
    cbn [fst snd] in Hv, Hs. subst ez.
    assert (mz = whole_mantissa z) as ->.
    { apply Pos2Z.inj. rewrite Hv, Hwm, Hm.
      unfold whole_exponent in *.
      replace (prec - (Z.log2 z + 1))%Z
        with (- e + (e - (Z.log2 z + 1 - prec)))%Z by lia.
      rewrite Z.pow_add_r by lia. lia. }
    apply binary_round_aux_canonical; [exact Hwd | lia].
  - (* the mantissa is shifted to the right, by bits that are zero *)
    assert (shl_align p e (whole_exponent z) = (p, e)) as ->.
    { unfold shl_align.
      destruct (whole_exponent z - e)%Z as [|d|d] eqn:Hd; try reflexivity.
      lia. }
    unfold binary_round_aux.
    assert (shr_fexp prec emax (Z.pos p) e loc_Exact
            = (Build_shr_record (Z.pos (whole_mantissa z)) false false,
               whole_exponent z)) as Hshr.
    { unfold shr_fexp. cbn [Zdigits2 shr_record_of_loc]. rewrite Hfexp.
      unfold shr.
      destruct (whole_exponent z - e)%Z as [|n|n] eqn:Hn; try lia.
      - assert (e = whole_exponent z) as -> by lia.
        f_equal. f_equal. rewrite Hm, Hwm. unfold whole_exponent.
        f_equal. f_equal. lia.
      - rewrite iter_pos_nat. f_equal; [|lia].
        rewrite <- (iter_shr_1_exact (Pos.to_nat n)
                      (Z.pos (whole_mantissa z)) ltac:(lia)).
        f_equal. f_equal. rewrite positive_nat_Z, Hm, Hwm, <- Hn.
        rewrite <- Z.mul_assoc, <- Z.pow_add_r
          by (unfold whole_exponent in *; change prec with 53%Z in *; lia).
        f_equal. f_equal. unfold whole_exponent. lia. }
    rewrite Hshr. cbn [shr_m loc_of_shr_record round_nearest_even].
    rewrite (shr_fexp_canonical _ _ Hwd) by lia. cbn [shr_m].
    replace (whole_exponent z <=? emax - prec)%Z with true; [reflexivity|].
    symmetry. apply Z.leb_le. change (emax - prec)%Z with 971%Z. lia.
Qed.

Lemma Prim2SF_whole (z : Z) :
  (0 <= z < 2 ^ prec)%Z ->
  Prim2SF (wholeNumber z)
  = if (z =? 0)%Z then S754_zero false
    else S754_finite false (whole_mantissa z) (whole_exponent z).
Proof.
  intros Hz. unfold wholeNumber.
  destruct (Z.eqb_spec z 0) as [->|Hne]; [reflexivity|].
  rewrite (binary_normalize_whole z z 0 ltac:(lia) ltac:(lia)
             ltac:(change (2 ^ (- 0))%Z with 1%Z; lia)).
  apply Prim2SF_SF2Prim.
  destruct (whole_mantissa_digits z ltac:(lia)) as (_ & Hd & He).
  unfold valid_binary, bounded, canonical_mantissa, fexp.
  rewrite Hd. apply andb_true_intro. split.
  - apply Z.eqb_eq. change (SpecFloat.emin prec emax) with (-1074)%Z. lia.
  - apply Z.leb_le. change (emax - prec)%Z with 971%Z. lia.
Qed.

Lemma whole_mantissa_value (z : Z) :
  (0 < z < 2 ^ prec)%Z ->
  Z.pos (whole_mantissa z) = (z * 2 ^ (- whole_exponent z))%Z.
Proof.
  intros Hz. destruct (whole_mantissa_digits z Hz) as (Hm & _ & _).
  rewrite Hm. unfold whole_exponent. f_equal. f_equal. lia.
Qed.

(** Whole numbers are added and subtracted without rounding as long as the
    result stays below [2 ^ 53]. *)
Lemma whole_add (x y : Z) :
  (0 <= x)%Z -> (0 <= y)%Z -> (x + y < 2 ^ prec)%Z ->
  (wholeNumber x + wholeNumber y)%float = wholeNumber (x + y).
Proof.
  intros Hx Hy Hxy. apply Prim2SF_inj.
  rewrite add_spec, !Prim2SF_whole by lia. unfold SF64add.
  destruct (Z.eqb_spec x 0) as [->|Hx0]; destruct (Z.eqb_spec y 0) as [->|Hy0];
    cbn [Z.add]; rewrite ?Z.add_0_r.
  - reflexivity.
  - now destruct (Z.eqb_spec y 0).
  - now destruct (Z.eqb_spec x 0).
  - destruct (Z.eqb_spec (x + y) 0); [lia|].
    cbn [SFadd cond_Zopp].
    destruct (whole_mantissa_digits x ltac:(lia)) as (_ & _ & Hex).
    destruct (whole_mantissa_digits y ltac:(lia)) as (_ & _ & Hey).
    set (ez := Z.min (whole_exponent x) (whole_exponent y)).
    apply binary_normalize_whole; [lia | lia |].
    rewrite !shl_align_value by lia.
    rewrite !whole_mantissa_value by lia.
    rewrite Z.mul_add_distr_r, <- !Z.mul_assoc, <- !Z.pow_add_r by lia.
    f_equal; f_equal; f_equal; lia.
Qed.

Lemma whole_sub (x y : Z) :
  (0 <= y <= x)%Z -> (x < 2 ^ prec)%Z ->
  (wholeNumber x - wholeNumber y)%float = wholeNumber (x - y).
Proof.
  intros Hy Hx. apply Prim2SF_inj.
  rewrite sub_spec, !Prim2SF_whole by lia. unfold SF64sub.
  destruct (Z.eqb_spec y 0) as [->|Hy0].
  - rewrite Z.sub_0_r. now destruct (Z.eqb_spec x 0).
  - destruct (Z.eqb_spec x 0); [lia|].
    cbn [SFsub cond_Zopp].
    destruct (whole_mantissa_digits x ltac:(lia)) as (_ & _ & Hex).
    destruct (whole_mantissa_digits y ltac:(lia)) as (_ & _ & Hey).
    set (ez := Z.min (whole_exponent x) (whole_exponent y)).
    assert (Z.pos (fst (shl_align (whole_mantissa x) (whole_exponent x) ez))
            - Z.pos (fst (shl_align (whole_mantissa y) (whole_exponent y) ez))
            = (x - y) * 2 ^ (- ez))%Z as Hm.
    { rewrite !shl_align_value by lia.
      rewrite !whole_mantissa_value by lia.
      rewrite Z.mul_sub_distr_r, <- !Z.mul_assoc, <- !Z.pow_add_r by lia.
      f_equal; f_equal; f_equal; lia. }
    rewrite Hm.
    destruct (Z.eqb_spec (x - y) 0) as [E|E].
    + rewrite E. reflexivity.
    + apply binary_normalize_whole; [lia | lia | reflexivity].
Qed.

(** The order of whole numbers below [2 ^ 53] is that of their Numbers. *)
Lemma whole_compare (x y : Z) :
  (0 <= x < 2 ^ prec)%Z -> (0 <= y < 2 ^ prec)%Z ->
  SFcompare (Prim2SF (wholeNumber x)) (Prim2SF (wholeNumber y))
  = Some (x ?= y)%Z.
Proof.
  intros Hx Hy. rewrite !Prim2SF_whole by lia.
  destruct (Z.eqb_spec x 0) as [->|Hx0]; destruct (Z.eqb_spec y 0) as [->|Hy0].
  - reflexivity.
  - cbn [SFcompare]. f_equal. symmetry. apply Z.compare_lt_iff. lia.
  - cbn [SFcompare]. f_equal. symmetry. apply Z.compare_gt_iff. lia.
  - cbn [SFcompare]. f_equal.
    pose proof (whole_mantissa_value x ltac:(lia)) as Hmx.
    pose proof (whole_mantissa_value y ltac:(lia)) as Hmy.
    destruct (whole_mantissa_digits x ltac:(lia)) as (_ & _ & Hex).
    destruct (whole_mantissa_digits y ltac:(lia)) as (_ & _ & Hey).
    pose proof (Z.log2_spec x ltac:(lia)) as [Hxlo Hxhi].
    pose proof (Z.log2_spec y ltac:(lia)) as [Hylo Hyhi].
    unfold whole_exponent in *.
    destruct (Z.compare_spec (Z.log2 x + 1 - prec) (Z.log2 y + 1 - prec))
      as [E|E|E].
    + change (Pos.compare_cont Eq (whole_mantissa x) (whole_mantissa y))
        with (Z.pos (whole_mantissa x) ?= Z.pos (whole_mantissa y))%Z.
      rewrite Hmx, Hmy.
      replace (Z.log2 y) with (Z.log2 x) by lia.
      assert (0 < 2 ^ (- (Z.log2 x + 1 - prec)))%Z
        by (apply Z.pow_pos_nonneg; lia).
      destruct (Z.compare_spec x y) as [C|C|C].
      * subst y. apply Z.compare_refl.
      * apply Z.compare_lt_iff. nia.
      * apply Z.compare_gt_iff. nia.
    + symmetry. apply Z.compare_lt_iff.
      assert (2 ^ Z.succ (Z.log2 x) <= 2 ^ Z.log2 y)%Z
        by (apply Z.pow_le_mono_r; lia). lia.
    + symmetry. apply Z.compare_gt_iff.
      assert (2 ^ Z.succ (Z.log2 y) <= 2 ^ Z.log2 x)%Z
        by (apply Z.pow_le_mono_r; lia). lia.
Qed.

Lemma whole_ltb (x y : Z) :
  (0 <= x < 2 ^ prec)%Z -> (0 <= y < 2 ^ prec)%Z ->
  (wholeNumber x <? wholeNumber y)%float = (x <? y)%Z.
Proof.
  intros Hx Hy. rewrite ltb_spec. unfold SFltb.
  rewrite whole_compare by assumption. unfold Z.ltb.
  now destruct (x ?= y)%Z.
Qed.

Lemma whole_leb (x y : Z) :
  (0 <= x < 2 ^ prec)%Z -> (0 <= y < 2 ^ prec)%Z ->
  (wholeNumber x <=? wholeNumber y)%float = (x <=? y)%Z.
Proof.
  intros Hx Hy. rewrite leb_spec. unfold SFleb.
  rewrite whole_compare by assumption. unfold Z.leb.
  now destruct (x ?= y)%Z.
Qed.

Lemma whole_falsy (z : Z) :
  (0 <= z < 2 ^ prec)%Z ->
  JS.falsy_number (wholeNumber z) = (z =? 0)%Z.
Proof.
  intros Hz. unfold JS.falsy_number.
  rewrite is_nan_spec, FloatAxioms.eqb_spec, Prim2SF_whole, Prim2SF_zero by exact Hz.
  now destruct (z =? 0)%Z.
Qed.

(** ** Totals of whole numbers *)

Lemma Currency_eqb_refl (c : Currency) : Currency_eqb c c = true.
Proof. now destruct c. Qed.

Lemma Currency_eqb_sym (c d : Currency) : Currency_eqb c d = Currency_eqb d c.
Proof. now destruct c, d. Qed.

Lemma wholeNumber_0 : wholeNumber 0 = 0%float.
Proof. reflexivity. Qed.

Lemma totalWhole_nonneg (c : Currency) (whole : string -> Z)
    (accounts : list Account.t) :
  Forall (fun acc =>
            Account.currency acc = c ->
            Account.balance acc = wholeNumber (whole (Account.id acc))
            /\ (0 <= whole (Account.id acc))%Z) accounts ->
  (0 <= totalWhole c whole accounts)%Z.
Proof.
  induction 1 as [|acc accounts Hacc Hall IH]; cbn [totalWhole fold_right];
    [lia|].
  fold (totalWhole c whole accounts).
  destruct (Currency_eqb (Account.currency acc) c) eqn:E; [|exact IH].
  apply Currency_eqb_eq in E. destruct (Hacc E). lia.
Qed.

(** The loop of [getTotalByCurrency] adds whole numbers without rounding. *)
Lemma fold_whole_some (c : Currency) (whole : string -> Z)
    (accounts : list Account.t) :
  forall (totals : CurrencyTotals) (s0 : Z),
    totals c = Some (wholeNumber s0) -> (0 <= s0)%Z ->
    Forall (fun acc =>
              Account.currency acc = c ->
              Account.balance acc = wholeNumber (whole (Account.id acc))
              /\ (0 <= whole (Account.id acc))%Z) accounts ->
    (s0 + totalWhole c whole accounts < 2 ^ 53)%Z ->
    fold_left
      (fun totals acc =>
         totals_set totals (Account.currency acc)
           (totals_or_zero totals (Account.currency acc) + Account.balance acc)%float)
      accounts totals c
    = Some (wholeNumber (s0 + totalWhole c whole accounts)).
Proof.
  induction accounts as [|acc accounts IH]; intros totals s0 Ht Hs0 Hall Hlt.
  - cbn. now rewrite Z.add_0_r.
  - cbn [fold_left totalWhole fold_right] in *.
    fold (totalWhole c whole accounts) in *.
    pose proof (Forall_inv Hall) as Hacc.
    pose proof (Forall_inv_tail Hall) as Hrest.
    pose proof (totalWhole_nonneg c whole accounts Hrest) as Hnn.
    destruct (Currency_eqb (Account.currency acc) c) eqn:E.
    + apply Currency_eqb_eq in E. destruct (Hacc E) as [Hb Hw].
      rewrite (IH _ (s0 + whole (Account.id acc))%Z); try assumption;
        try lia.
      * f_equal. f_equal. lia.
      * unfold totals_set, totals_or_zero.
        rewrite E, Currency_eqb_refl, Ht, Hb.
        rewrite whole_falsy by (change prec with 53%Z; lia).
        destruct (Z.eqb_spec s0 0) as [->|Hne].
        -- rewrite <- wholeNumber_0.
           now rewrite whole_add by (change prec with 53%Z; lia).
        -- now rewrite whole_add by (change prec with 53%Z; lia).
    + apply IH; try assumption.
      unfold totals_set. rewrite Currency_eqb_sym, E. exact Ht.
Qed.

Lemma fold_whole_none (c : Currency) (whole : string -> Z)
    (accounts : list Account.t) :
  forall totals : CurrencyTotals,
    totals c = None ->
    Exists (fun acc => Account.currency acc = c) accounts ->
    Forall (fun acc =>
              Account.currency acc = c ->
              Account.balance acc = wholeNumber (whole (Account.id acc))
              /\ (0 <= whole (Account.id acc))%Z) accounts ->
    (totalWhole c whole accounts < 2 ^ 53)%Z ->
    fold_left
      (fun totals acc =>
         totals_set totals (Account.currency acc)
           (totals_or_zero totals (Account.currency acc) + Account.balance acc)%float)
      accounts totals c
    = Some (wholeNumber (totalWhole c whole accounts)).
Proof.
  induction accounts as [|acc accounts IH]; intros totals Ht Hex Hall Hlt.
  - inversion Hex.
  - cbn [fold_left totalWhole fold_right] in *.
    fold (totalWhole c whole accounts) in *.
    pose proof (Forall_inv Hall) as Hacc.
    pose proof (Forall_inv_tail Hall) as Hrest.
    pose proof (totalWhole_nonneg c whole accounts Hrest) as Hnn.
    destruct (Currency_eqb (Account.currency acc) c) eqn:E.
    + apply Currency_eqb_eq in E. destruct (Hacc E) as [Hb Hw].
      apply (fold_whole_some c whole accounts _ (whole (Account.id acc)));
        try assumption.
      unfold totals_set, totals_or_zero.
      rewrite E, Currency_eqb_refl, Ht, Hb, <- wholeNumber_0.
      now rewrite whole_add by (change prec with 53%Z; lia).
    + apply IH; try assumption.
      * unfold totals_set. rewrite Currency_eqb_sym, E. exact Ht.
      * inversion Hex as [? ? Hc|? ? Hr]; subst; [|exact Hr].
        rewrite Currency_eqb_refl in E. discriminate.
Qed.

(** *** The whole numbers after a transfer *)

Lemma totalWhole_map (c : Currency) (whole : string -> Z)
    (f : Account.t -> Account.t) (accounts : list Account.t) :
  (forall acc, Account.id (f acc) = Account.id acc
               /\ Account.currency (f acc) = Account.currency acc) ->
  totalWhole c whole (map f accounts) = totalWhole c whole accounts.
Proof.
  intros Hf. induction accounts as [|acc accounts IH]; [reflexivity|].
  cbn [map totalWhole fold_right].
  fold (totalWhole c whole (map f accounts)).
  fold (totalWhole c whole accounts).
  destruct (Hf acc) as [-> ->]. now rewrite IH.
Qed.

Lemma holds_absent (c : Currency) (id : string) (accounts : list Account.t) :
  ~ In id (map Account.id accounts) -> holds c id accounts = false.
Proof.
  induction accounts as [|acc accounts IH]; [reflexivity|].
  cbn [map In holds existsb]. intros H.
  destruct (String.eqb_spec (Account.id acc) id) as [E|E]; [tauto|].
  cbn [andb orb]. apply IH. tauto.
Qed.

Lemma holds_resolved (c : Currency) (id : string) (accounts : list Account.t)
    (acc : Account.t) :
  resolve accounts id = Some acc -> Account.currency acc = c ->
  holds c id accounts = true.
Proof.
  unfold resolve, holds. intros H Hc. apply find_some in H as [Hin Hid].
  apply existsb_exists. exists acc. split; [exact Hin|].
  now rewrite Hid, Hc, Currency_eqb_refl.
Qed.

Lemma totalWhole_moved (c : Currency) (whole : string -> Z)
    (fromId toId : string) (amount : Z) (accounts : list Account.t) :
  fromId <> toId -> NoDup (map Account.id accounts) ->
  totalWhole c (moved fromId toId amount whole) accounts
  = (totalWhole c whole accounts
     - (if holds c fromId accounts then amount else 0)
     + (if holds c toId accounts then amount else 0))%Z.
Proof.
  intros Hne. induction accounts as [|acc accounts IH]; intros Hnd.
  - reflexivity.
  - cbn [map] in Hnd. inversion Hnd as [|? ? Hnotin Hnd']; subst.
    cbn [totalWhole fold_right holds existsb].
    fold (totalWhole c whole accounts).
    fold (totalWhole c (moved fromId toId amount whole) accounts).
    fold (holds c fromId accounts). fold (holds c toId accounts).
    rewrite (IH Hnd').
    destruct (Currency_eqb (Account.currency acc) c) eqn:E.
    + unfold moved at 1.
      destruct (String.eqb_spec (Account.id acc) fromId) as [Ef|Ef].
      * subst fromId.
        destruct (String.eqb_spec (Account.id acc) toId) as [Et|Et];
          [congruence|].
        rewrite (holds_absent c _ accounts Hnotin). cbn [andb orb]. lia.
      * destruct (String.eqb_spec (Account.id acc) toId) as [Et|Et].
        -- subst toId. rewrite (holds_absent c _ accounts Hnotin).
           cbn [andb orb]. lia.
        -- cbn [andb orb]. lia.
    + rewrite !andb_false_r. cbn [orb]. reflexivity.
Qed.

Lemma whole_member (c : Currency) (whole : string -> Z)
    (accounts : list Account.t) (acc : Account.t) :
  Forall (fun acc =>
            Account.currency acc = c ->
            Account.balance acc = wholeNumber (whole (Account.id acc))
            /\ (0 <= whole (Account.id acc))%Z) accounts ->
  In acc accounts -> Account.currency acc = c ->
  (0 <= whole (Account.id acc) <= totalWhole c whole accounts)%Z.
Proof.
  induction 1 as [|x accounts Hx Hall IH]; intros Hin Hc; [contradiction|].
  cbn [totalWhole fold_right]. fold (totalWhole c whole accounts).
  pose proof (totalWhole_nonneg c whole accounts Hall) as Hnn.
  destruct Hin as [->|Hin].
  - rewrite Hc, Currency_eqb_refl. destruct (Hx Hc). lia.
  - specialize (IH Hin Hc).
    destruct (Currency_eqb (Account.currency x) c) eqn:E; [|lia].
    apply Currency_eqb_eq in E. destruct (Hx E). lia.
Qed.

Lemma whole_two_members (c : Currency) (whole : string -> Z)
    (accounts : list Account.t) (a b : Account.t) :
  Forall (fun acc =>
            Account.currency acc = c ->
            Account.balance acc = wholeNumber (whole (Account.id acc))
            /\ (0 <= whole (Account.id acc))%Z) accounts ->
  In a accounts -> In b accounts -> Account.id a <> Account.id b ->
  Account.currency a = c -> Account.currency b = c ->
  (whole (Account.id a) + whole (Account.id b)
   <= totalWhole c whole accounts)%Z.
Proof.
  induction 1 as [|x accounts Hx Hall IH]; intros Ha Hb Hne Hca Hcb;
    [contradiction|].
  cbn [totalWhole fold_right]. fold (totalWhole c whole accounts).
  pose proof (totalWhole_nonneg c whole accounts Hall) as Hnn.
  destruct Ha as [->|Ha], Hb as [->|Hb].
  - congruence.
  - rewrite Hca, Currency_eqb_refl.
    pose proof (whole_member c whole accounts b Hall Hb Hcb). lia.
  - rewrite Hcb, Currency_eqb_refl.
    pose proof (whole_member c whole accounts a Hall Ha Hca). lia.
  - specialize (IH Ha Hb Hne Hca Hcb).
    destruct (Currency_eqb (Account.currency x) c) eqn:E; [|lia].
    apply Currency_eqb_eq in E. destruct (Hx E). lia.
Qed.

Lemma resolve_In (accounts : list Account.t) (id : string) (acc : Account.t) :
  resolve accounts id = Some acc -> In acc accounts.
Proof. unfold resolve. intros H. now apply find_some in H. Qed.

(** C10, amended.  A transfer between two accounts of one currency that is
    carried out, in a state a run from the seed state reaches, leaves the
    total of every other currency as it was and the totals with the keys
    they had.  Where the balances of the transfer's currency and the amount
    are whole numbers that add up to less than 2^53, the total of that
    currency is the sum of those whole numbers before and after, the
    source account holds the amount less and the destination account the
    amount more. *)
Theorem same_currency_transfer_keeps_totals
    (events : list Event) (clock : Clock.t)
    (fromAccount toAccount : Account.t) :
  let st := run events initialState in
  let form := State.transferForm st in
  resolve (State.accounts st) (TransferForm.fromAccount form) = Some fromAccount ->
  resolve (State.accounts st) (TransferForm.toAccount form) = Some toAccount ->
  Account.currency fromAccount = Account.currency toAccount ->
  succeeds clock st = true ->
  let c := Account.currency fromAccount in
  let st' := handleTransfer clock st in
  let before := getTotalByCurrency (State.accounts st) in
  let after := getTotalByCurrency (State.accounts st') in
  (forall d, d <> c -> after d = before d)
  /\ (forall d, after d = None <-> before d = None)
  /\ (forall (whole : string -> Z) (amount : Z),
        wholeBalances c whole (State.accounts st) ->
        (0 <= amount < 2 ^ 53)%Z ->
        JS.parseFloat (TransferForm.amount form) = wholeNumber amount ->
        after c = before c
        /\ before c = Some (wholeNumber (totalWhole c whole (State.accounts st)))
        /\ balanceOf (State.accounts st') (TransferForm.fromAccount form)
           = Some (wholeNumber (whole (TransferForm.fromAccount form) - amount))
        /\ balanceOf (State.accounts st') (TransferForm.toAccount form)
           = Some (wholeNumber (whole (TransferForm.toAccount form) + amount))
        /\ (amount <= whole (TransferForm.fromAccount form))%Z).
Proof.
  intros st form Hfrom Hto Hcur Hok c st' before after.
  subst before after st'. unfold getTotalByCurrency.
  destruct (handleTransfer_cases clock st)
    as [[e He]|(f & t & a & cv & fx & Hacc & He)].
  { rewrite (succeeds_reject _ _ _ He) in Hok. discriminate. }
  rewrite He. cbn [commit State.accounts].
  assert (NoDup (map Account.id (State.accounts st))) as Hnd
    by (subst st; rewrite run_ids; apply initial_ids_NoDup).
  split; [|split].
  - intros d Hd. apply totals_fold_other; [|reflexivity].
    intros acc Hin. split; [apply updateAccount_currency|].
    intros Hacc_c. unfold updateAccount.
    destruct (String.eqb_spec (Account.id acc)
                (TransferForm.fromAccount (State.transferForm st))) as [E|E].
    + rewrite (resolve_unique _ _ _ _ Hnd Hfrom Hin E) in Hacc_c.
      subst c. congruence.
    + destruct (String.eqb_spec (Account.id acc)
                  (TransferForm.toAccount (State.transferForm st))) as [E'|E'];
        [|reflexivity].
      rewrite (resolve_unique _ _ _ _ Hnd Hto Hin E') in Hacc_c.
      subst c. congruence.
  - intros d. rewrite !totals_fold_none.
    rewrite Forall_map.
    split; intros [H1 H2]; (split; [exact H1|]);
      eapply Forall_impl; try exact H2; cbn; intros acc;
      now rewrite updateAccount_currency.
  - intros whole amount [Hall Hlt] Hamount Hparse.
    pose proof (Accepted_balances _ _ _ _ _ _ Hacc) as (Hb1 & Hb2 & _).
    destruct Hacc as [_ Hdiff Ha _ Hf Ht Hbal Hconv].
    fold form in Ha, Hf, Ht, Hdiff, Hb1, Hb2.
    rewrite Hfrom in Hf. injection Hf as <-.
    rewrite Hto in Ht. injection Ht as <-.
    rewrite Hcur, Currency_eqb_refl in Hconv. destruct Hconv as [-> _].
    rewrite Hparse in Ha. subst a.
    pose proof (resolve_id _ _ _ Hfrom) as Hfid.
    pose proof (resolve_id _ _ _ Hto) as Htid.
    pose proof (resolve_In _ _ _ Hfrom) as Hfin.
    pose proof (resolve_In _ _ _ Hto) as Htin.
    unfold accountsDiffer in Hdiff. apply negb_true_iff in Hdiff.
    apply String.eqb_neq in Hdiff.
    assert (Account.currency toAccount = c) as Hct by (subst c; congruence).
    pose proof (proj1 (Forall_forall _ _) Hall) as Hmem.
    destruct (Hmem _ Hfin eq_refl) as [Hbf Hwf].
    destruct (Hmem _ Htin Hct) as [Hbt Hwt].
    rewrite Hfid in Hbf, Hwf. rewrite Htid in Hbt, Hwt.
    pose proof (whole_two_members c whole _ fromAccount toAccount Hall Hfin Htin
                  ltac:(congruence) eq_refl Hct) as Htwo.
    rewrite Hfid, Htid in Htwo.
    change (2 ^ 53)%Z with (2 ^ prec)%Z in *.
    rewrite Hbf, whole_ltb in Hbal by lia.
    apply Z.ltb_ge in Hbal.
    assert (Forall (fun acc =>
              Account.currency acc = c ->
              Account.balance acc
              = wholeNumber (moved (TransferForm.fromAccount form)
                               (TransferForm.toAccount form) amount whole
                               (Account.id acc))
              /\ (0 <= moved (TransferForm.fromAccount form)
                         (TransferForm.toAccount form) amount whole
                         (Account.id acc))%Z)
             (map (updateAccount form (wholeNumber amount) (wholeNumber amount))
                  (State.accounts st))) as Hall'.
    { apply Forall_map, Forall_forall. intros acc Hin.
      rewrite updateAccount_currency, updateAccount_id. intros Hc.
      destruct (Hmem acc Hin Hc) as [Hb Hw].
      unfold updateAccount, moved. fold form.
      destruct (String.eqb_spec (Account.id acc)
                  (TransferForm.fromAccount form)) as [E|E].
      - cbn [Account.balance]. rewrite Hb, E.
        rewrite whole_sub by lia. split; [reflexivity | lia].
      - destruct (String.eqb_spec (Account.id acc)
                    (TransferForm.toAccount form)) as [E'|E'].
        + cbn [Account.balance]. rewrite Hb, E'.
          rewrite whole_add by lia. split; [reflexivity | lia].
        + split; assumption. }
    assert (totalWhole c
              (moved (TransferForm.fromAccount form)
                 (TransferForm.toAccount form) amount whole)
              (map (updateAccount form (wholeNumber amount) (wholeNumber amount))
                   (State.accounts st))
            = totalWhole c whole (State.accounts st)) as Htotal.
    { rewrite totalWhole_map
        by (intros acc; split;
            [apply updateAccount_id | apply updateAccount_currency]).
      rewrite totalWhole_moved by assumption.
      rewrite (holds_resolved c _ _ _ Hfrom eq_refl).
      rewrite (holds_resolved c _ _ _ Hto Hct). lia. }
    assert (Exists (fun acc => Account.currency acc = c) (State.accounts st))
      as Hex by (apply Exists_exists; now exists fromAccount).
    assert (fold_left
              (fun totals acc =>
                 totals_set totals (Account.currency acc)
                   (totals_or_zero totals (Account.currency acc)
                    + Account.balance acc)%float)
              (State.accounts st) (fun _ => None) c
            = Some (wholeNumber (totalWhole c whole (State.accounts st))))
      as Hbefore by (apply fold_whole_none; trivial).
    fold form. split; [|split; [exact Hbefore|]].
    + rewrite Hbefore, <- Htotal. apply fold_whole_none; trivial.
      * apply Exists_exists.
        exists (updateAccount form (wholeNumber amount) (wholeNumber amount)
                  fromAccount).
        split; [now apply in_map | apply updateAccount_currency].
      * rewrite Htotal. exact Hlt.
    + rewrite Hb1, Hb2, Hbf, Hbt.
      rewrite whole_sub, whole_add by lia. now conjuncts.
Qed.

Lemma same_currency_transfer_keeps_totals_witness :
  let st := run shillingTransfer initialState in
  let st' := handleTransfer clock0 st in
  (succeeds clock0 st = true
   /\ wholeBalances KES seedWhole (State.accounts st)
   /\ JS.parseFloat (TransferForm.amount (State.transferForm st))
      = wholeNumber 100000)
  /\ (forall d, d <> KES ->
        getTotalByCurrency (State.accounts st') d
        = getTotalByCurrency (State.accounts st) d)
  /\ getTotalByCurrency (State.accounts st') KES
     = getTotalByCurrency (State.accounts st) KES
  /\ getTotalByCurrency (State.accounts st) KES = Some 9500000%float
  /\ balanceOf (State.accounts st') "mpesa_kes_1" = Some 2400000%float
  /\ balanceOf (State.accounts st') "bank_kes_1" = Some 5300000%float.
Proof.
  intros st st'.
  assert (wholeBalances KES seedWhole (State.accounts st)) as Hwhole.
  { split; [|reflexivity].
    change (State.accounts st) with initialAccounts. unfold initialAccounts.
    repeat (apply Forall_cons;
            [intros _; vm_compute; split; [reflexivity | discriminate]|]).
    apply Forall_nil. }
  assert (JS.parseFloat (TransferForm.amount (State.transferForm st))
          = wholeNumber 100000) as Hparse by (vm_compute; reflexivity).
  split; [split; [reflexivity | split; assumption]|].
  destruct (same_currency_transfer_keeps_totals shillingTransfer clock0
              (Account.mk "mpesa_kes_1" "Mpesa_KES_1" KES 2500000)
              (Account.mk "bank_kes_1" "Bank_KES_1" KES 5200000)
              eq_refl eq_refl eq_refl eq_refl)
    as (Hother & _ & Hown).
  split; [exact Hother|].
  destruct (Hown seedWhole 100000%Z Hwhole ltac:(lia) Hparse)
    as (H1 & H2 & H3 & H4 & _).
  split; [exact H1|]. split; [exact H2|]. split; [exact H3 | exact H4].
Defined.

(** C10 as stated fails by rounding: moving 8613.98 from [Bank_USD_3] to
    [Bank_USD_2] in the seed state turns the dollar total from 250000 into
    249999.99999999997. *)
Lemma rounding_changes_total :
  succeeds clock0 roundingTransfer = true
  /\ getTotalByCurrency (State.accounts (handleTransfer clock0 roundingTransfer)) USD
     <> getTotalByCurrency (State.accounts roundingTransfer) USD.
Proof.
  split; [reflexivity|].
  intros H.
  apply (f_equal (fun total => match total with
                               | Some x => (x <? 250000)%float
                               | None => false
                               end)) in H.
  vm_compute in H. discriminate H.
Qed.

(** ** The history filter *)

Lemma truthy_iff (s : string) : JS.truthy s = true <-> s <> "".
Proof. destruct s; cbn; split; congruence. Qed.

Lemma prefix_iff (a b : string) :
  String.prefix a b = true <-> exists after, b = a ++ after.
Proof.
  revert b. induction a as [|c a IH]; intros b.
  - split; [intros _; now exists b | intros _; now destruct b].
  - destruct b as [|d b]; cbn [String.prefix].
    + split; [discriminate|]. intros [after H]. discriminate H.
    + destruct (Ascii.ascii_dec c d) as [->|Hne].
      * rewrite IH. split; intros [after H]; exists after; cbn in *; congruence.
      * split; [discriminate|]. intros [after H]. cbn in H. congruence.
Qed.

Lemma includes_iff (s sub : string) :
  JS.includes s sub = true <-> substring_of sub s.
Proof.
  unfold substring_of. induction s as [|c s IH]; cbn [JS.includes].
  - destruct (String.prefix sub "") eqn:E.
    + apply prefix_iff in E as [after E].
      split; [|reflexivity]. intros _. now exists "", after.
    + split; [discriminate|]. intros (before & after & H).
      destruct before; [|discriminate H]. cbn in H.
      assert (String.prefix sub "" = true) by (apply prefix_iff; now exists after).
      congruence.
  - destruct (String.prefix sub (String c s)) eqn:E.
    + apply prefix_iff in E as [after E].
      split; [|reflexivity]. intros _. now exists "", after.
    + rewrite IH. split.
      * intros (before & after & ->). now exists (String c before), after.
      * intros (before & after & H). destruct before as [|d before].
        -- cbn in H.
           assert (String.prefix sub (String c s) = true)
             by (apply prefix_iff; now exists after).
           congruence.
        -- cbn in H. injection H as _ ->. now exists before, after.
Qed.

Lemma filterCallback_iff (Date_value : string -> float)
    (filters : Filters.t) (tx : Transaction.t) :
  filterCallback Date_value filters tx = true
  <-> everyFieldPasses Date_value filters tx.
Proof.
  unfold filterCallback, everyFieldPasses. cbv zeta.
  rewrite <- !truthy_iff, <- !includes_iff, <- !String.eqb_eq.
  destruct (JS.truthy (Filters.account filters));
    destruct (JS.truthy (Filters.currency filters));
    destruct (JS.truthy (Filters.dateFrom filters));
    destruct (JS.truthy (Filters.dateTo filters));
    cbn [andb];
    rewrite ?andb_true_iff, ?orb_true_iff;
    intuition congruence.
Qed.

Lemma Subseq_filter {A : Type} (p : A -> bool) (l : list A) :
  Subseq (filter p l) l.
Proof.
  induction l as [|x l IH]; cbn; [constructor|].
  destruct (p x); now constructor.
Qed.

Lemma Subseq_filter_mono {A : Type} (p q : A -> bool) (l : list A) :
  (forall x, p x = true -> q x = true) ->
  Subseq (filter p l) (filter q l).
Proof.
  intros Hpq. induction l as [|x l IH]; cbn; [constructor|].
  destruct (p x) eqn:Hp.
  - rewrite (Hpq x Hp). now constructor.
  - destruct (q x); [now constructor | exact IH].
Qed.

Lemma Subseq_incl {A : Type} (l1 l2 : list A) :
  Subseq l1 l2 -> incl l1 l2.
Proof.
  induction 1 as [|x l1 l2 H IH|x l1 l2 H IH]; intros y Hy.
  - exact Hy.
  - destruct Hy as [->|Hy]; [now left | right; now apply IH].
  - right. now apply IH.
Qed.

(** Whatever the host reads a date as, a transaction of the log is in the
    filtered list exactly when the test of every populated field passes:
    the account filter is a substring of the name of its source or of its
    destination account, the currency filter is its source or its
    destination currency, the time value of the date-from is at most that
    of its timestamp, which is at most that of the date-to followed by
    [T23:59:59]; an empty field asks nothing.  The filtered list is the log
    with the other transactions left out, in the order of the log. *)
Theorem filtered_iff_every_populated_field_passes
    (Date_value : string -> float)
    (transactions : list Transaction.t) (filters : Filters.t) :
  (forall tx,
     In tx (filteredTransactions Date_value transactions filters)
     <-> In tx transactions /\ everyFieldPasses Date_value filters tx)
  /\ Subseq (filteredTransactions Date_value transactions filters) transactions.
Proof.
  split.
  - intros tx. unfold filteredTransactions.
    now rewrite filter_In, filterCallback_iff.
  - apply Subseq_filter.
Qed.

(** C5, at an input where the code departs from it.  The transfer of
    Example 1, made in Nairobi (UTC+3) at 22:13:20 UTC on 14 November 2023,
    which is 01:13:20 on 15 November there.  Its record is made on 14
    November by the calendar of UTC and on 15 November by the calendar of
    Nairobi, so the filter for that one day, from its start to its 23:59:59,
    matches it.  The code reads the date-from as midnight UTC and the
    date-to at 23:59:59 of Nairobi, three hours earlier than that of UTC:
    it shows the record for neither of the two days, nor for the two
    together with the dates the other way round; a host on UTC shows it
    for 14 November. *)
Theorem day_filter_hides_the_record_in_nairobi :
  let log := State.transactions (handleTransfer clock0 (example1 "")) in
  map Transaction.timestamp log = ["2023-11-14T22:13:20.000Z"]
  /\ map (fun tx => instant_of (Transaction.timestamp tx)) log
     = [Some 1700000000000%Z]
  /\ day_of "2023-11-14" = Some 19675%Z
  /\ (startOfDay 0 19675 <= 1700000000000 <= endOfDay 0 19675)%Z
  /\ (startOfDay nairobi 19676 <= 1700000000000 <= endOfDay nairobi 19676)%Z
  /\ Forall (matchesFilters 0 (ofDay "2023-11-14")) log
  /\ Forall (matchesFilters nairobi (ofDay "2023-11-15")) log
  /\ filteredTransactions (hostDate_value nairobi) log (ofDay "2023-11-14") = []
  /\ filteredTransactions (hostDate_value nairobi) log (ofDay "2023-11-15") = []
  /\ filteredTransactions (hostDate_value nairobi) log
       (Filters.mk "" "" "2023-11-15" "2023-11-14") = []
  /\ filteredTransactions (hostDate_value 0) log (ofDay "2023-11-14") = log.
Proof.
  intros log.
  assert (log = [Transaction.mk "1700000000000" "2023-11-14T22:13:20.000Z"
                   "Mpesa_KES_1" "Bank_USD_1" KES USD 100000 670 0.0067
                   "" None Completed]) as ->
    by (vm_compute; reflexivity).
  assert (forall zone date day tx,
            Transaction.timestamp tx = "2023-11-14T22:13:20.000Z" ->
            day_of date = Some day ->
            (startOfDay zone day <= 1700000000000 <= endOfDay zone day)%Z ->
            Forall (matchesFilters zone (ofDay date)) [tx])
    as Hspec.
  { intros zone date day tx Htx Hday Hin.
    assert (date <> "") as Hne by (intros ->; discriminate Hday).
    constructor; [|constructor].
    unfold matchesFilters, ofDay.
    cbn [Filters.account Filters.currency Filters.dateFrom Filters.dateTo].
    rewrite Htx.
    conjuncts; try (intros H; now contradict H);
      intros _; exists day, 1700000000000%Z;
      (split; [exact Hday | split; [reflexivity | apply Hin]]). }
  assert (forall zone day, (zone = 0 \/ zone = nairobi)%Z ->
            (day = 19675 + zone / nairobi)%Z ->
            (startOfDay zone day <= 1700000000000 <= endOfDay zone day)%Z)
    as Hday
    by (intros zone day [-> | ->] ->; vm_compute; split; discriminate).
  split; [reflexivity|]. split; [reflexivity|]. split; [reflexivity|].
  split; [apply Hday; [now left | reflexivity]|].
  split; [apply Hday; [now right | reflexivity]|].
  split.
  { apply (Hspec 0%Z "2023-11-14" 19675%Z); try reflexivity.
    apply Hday; [now left | reflexivity]. }
  split.
  { apply (Hspec nairobi "2023-11-15" 19676%Z); try reflexivity.
    apply Hday; [now right | reflexivity]. }
  conjuncts; vm_compute; reflexivity.
Qed.

Lemma filterCallback_set (Date_value : string -> float)
    (filters : Filters.t) (field : Filters.field) (value : string)
    (tx : Transaction.t) :
  Filters.get field filters = "" ->
  filterCallback Date_value (Filters.set field value filters) tx = true ->
  filterCallback Date_value filters tx = true.
Proof.
  destruct filters as [account currency dateFrom dateTo].
  destruct field; cbn [Filters.get Filters.account Filters.currency
                        Filters.dateFrom Filters.dateTo];
    intros ->; unfold filterCallback;
    cbn [Filters.set Filters.account Filters.currency Filters.dateFrom
         Filters.dateTo JS.truthy];
    repeat match goal with
      | |- context [JS.truthy ?s] => destruct (JS.truthy s)
      end;
    cbn [andb]; rewrite ?andb_true_iff; tauto.
Qed.

(** C6.  Giving a value to a field of the filter that was empty leaves a
    filtered list that is part of the one before, in the same order:
    filtering with one more field never adds a transaction. *)
Theorem filtering_is_monotonic
    (Date_value : string -> float)
    (transactions : list Transaction.t) (filters : Filters.t)
    (field : Filters.field) (value : string) :
  Filters.get field filters = "" ->
  Subseq
    (filteredTransactions Date_value transactions
       (Filters.set field value filters))
    (filteredTransactions Date_value transactions filters)
  /\ incl
       (filteredTransactions Date_value transactions
          (Filters.set field value filters))
       (filteredTransactions Date_value transactions filters).
Proof.
  intros Hempty.
  assert (Subseq
            (filteredTransactions Date_value transactions
               (Filters.set field value filters))
            (filteredTransactions Date_value transactions filters)) as H.
  { apply Subseq_filter_mono. intros tx.
    now apply filterCallback_set. }
  split; [exact H | now apply Subseq_incl].
Qed.

Lemma filtering_is_monotonic_witness :
  Filters.get Filters.currency_ (Filters.mk "" "" "2023-11-14" "") = ""
  /\ Subseq
       (filteredTransactions utcDate_value sampleLog
          (Filters.set Filters.currency_ "USD" (Filters.mk "" "" "2023-11-14" "")))
       (filteredTransactions utcDate_value sampleLog
          (Filters.mk "" "" "2023-11-14" ""))
  /\ incl
       (filteredTransactions utcDate_value sampleLog
          (Filters.set Filters.currency_ "USD" (Filters.mk "" "" "2023-11-14" "")))
       (filteredTransactions utcDate_value sampleLog
          (Filters.mk "" "" "2023-11-14" "")).
Proof.
  split; [reflexivity|].
  exact (filtering_is_monotonic utcDate_value sampleLog
           (Filters.mk "" "" "2023-11-14" "") Filters.currency_ "USD" eq_refl).
Defined.

(** Example 5 of the specification: with the currency filter [USD] and no
    other field set, the filtered list holds exactly the transactions whose
    source or destination currency is USD. *)
Theorem currency_filter_alone
    (Date_value : string -> float)
    (transactions : list Transaction.t) (tx : Transaction.t) :
  In tx (filteredTransactions Date_value transactions (Filters.mk "" "USD" "" ""))
  <-> In tx transactions
      /\ (Transaction.fromCurrency tx = USD \/ Transaction.toCurrency tx = USD).
Proof.
  unfold filteredTransactions. rewrite filter_In.
  unfold filterCallback.
  cbn [Filters.account Filters.currency Filters.dateFrom Filters.dateTo
       JS.truthy andb].
  rewrite orb_true_iff, !String.eqb_eq.
  assert (forall c, Currency_name c = "USD" <-> c = USD) as Hc
    by (intros c; destruct c; cbn; split; congruence || discriminate).
  now rewrite !Hc.
Qed.

(** * More of the component *)

(** ** What [handleTransfer] reads and writes *)

(** The outcome of a submission depends on the accounts, the log and the
    form, and on nothing else of the state. *)
Lemma handleTransfer_core (clock : Clock.t) (st1 st2 : State.t) :
  State.accounts st1 = State.accounts st2 ->
  State.transactions st1 = State.transactions st2 ->
  State.transferForm st1 = State.transferForm st2 ->
  State.accounts (handleTransfer clock st1)
  = State.accounts (handleTransfer clock st2)
  /\ State.transactions (handleTransfer clock st1)
     = State.transactions (handleTransfer clock st2)
  /\ State.transferForm (handleTransfer clock st1)
     = State.transferForm (handleTransfer clock st2)
  /\ State.error (handleTransfer clock st1)
     = State.error (handleTransfer clock st2)
  /\ State.success (handleTransfer clock st1)
     = State.success (handleTransfer clock st2).
Proof.
  destruct st1 as [a1 t1 f1 fl1 sf1 e1 s1], st2 as [a2 t2 f2 fl2 sf2 e2 s2].
  cbn [State.accounts State.transactions State.transferForm].
  intros <- <- <-.
  unfold handleTransfer.
  cbn [State.transferForm State.accounts State.transactions
       State.setTransferForm State.setError State.setSuccess
       State.setAccounts State.setTransactions State.filters
       State.showFilters State.error State.success].
  repeat match goal with
    | |- context [if ?b then _ else _] => destruct b eqn:?
    | |- context [match find ?f ?l with _ => _ end] =>
        destruct (find f l) eqn:?
    | |- context [match calculateFXConversion ?a ?c ?d with _ => _ end] =>
        destruct (calculateFXConversion a c d) eqn:?
    end;
    conjuncts; reflexivity.
Qed.

Lemma handleTransfer_filters (clock : Clock.t) (st : State.t) :
  State.filters (handleTransfer clock st) = State.filters st
  /\ State.showFilters (handleTransfer clock st) = State.showFilters st.
Proof.
  destruct (handleTransfer_cases clock st)
    as [[e ->]|(f & t & a & cv & fx & _ & ->)]; split; reflexivity.
Qed.

Lemma State_eq (st1 st2 : State.t) :
  State.accounts st1 = State.accounts st2 ->
  State.transactions st1 = State.transactions st2 ->
  State.transferForm st1 = State.transferForm st2 ->
  State.filters st1 = State.filters st2 ->
  State.showFilters st1 = State.showFilters st2 ->
  State.error st1 = State.error st2 ->
  State.success st1 = State.success st2 ->
  st1 = st2.
Proof.
  destruct st1, st2. cbn. now intros -> -> -> -> -> -> ->.
Qed.

(** A submission that fails does so whatever the clock reads. *)
Lemma failure_ignores_clock (clock clock' : Clock.t) (st : State.t) :
  succeeds clock st = false ->
  handleTransfer clock' st = handleTransfer clock st.
Proof.
  unfold succeeds, handleTransfer. cbv zeta.
  repeat match goal with
    | |- context [if ?b then _ else _] => destruct b eqn:?
    | |- context [match find ?f ?l with _ => _ end] =>
        destruct (find f l) eqn:?
    | |- context [match calculateFXConversion ?a ?c ?d with _ => _ end] =>
        destruct (calculateFXConversion a c d) eqn:?
    end;
    try reflexivity; cbn; discriminate.
Qed.

(** After any call of [handleTransfer] exactly one of the two messages is
    set: the error of a failed validation, or one of the two success
    messages. *)
Theorem exactly_one_message (clock : Clock.t) (st : State.t) :
  let st' := handleTransfer clock st in
  ((exists e, State.error st' = message e) /\ State.success st' = "")
  \/ (State.error st' = ""
      /\ (State.success st' = "Transfer completed successfully!"
          \/ State.success st' = "Transfer scheduled successfully!")).
Proof.
  intros st'. subst st'.
  destruct (handleTransfer_cases clock st)
    as [[e ->]|(f & t & a & cv & fx & _ & ->)].
  - left. split; [now exists e | reflexivity].
  - right. split; [reflexivity|].
    unfold commit, newTransaction. cbn [State.success Transaction.status].
    destruct (JS.truthy _); [right | left]; reflexivity.
Qed.

(** A second click right after a transfer that was carried out finds the
    form empty: it reports the missing fields and moves no money. *)
Theorem second_click_moves_nothing (clock clock' : Clock.t) (st : State.t) :
  succeeds clock st = true ->
  let st' := handleTransfer clock st in
  handleTransfer clock' st' = reject MissingField st'
  /\ State.accounts (handleTransfer clock' st') = State.accounts st'
  /\ State.transactions (handleTransfer clock' st') = State.transactions st'.
Proof.
  intros Hok st'. subst st'.
  destruct (handleTransfer_cases clock st)
    as [[e He]|(f & t & a & cv & fx & _ & He)].
  - rewrite (succeeds_reject _ _ _ He) in Hok. discriminate.
  - rewrite He.
    assert (handleTransfer clock' (commit clock st f t a cv fx)
            = reject MissingField (commit clock st f t a cv fx)) as ->
      by reflexivity.
    conjuncts; reflexivity.
Qed.

Lemma second_click_moves_nothing_witness :
  let st' := handleTransfer clock0 (example1 "") in
  succeeds clock0 (example1 "") = true
  /\ handleTransfer clock1 st' = reject MissingField st'
  /\ State.accounts (handleTransfer clock1 st') = State.accounts st'
  /\ State.transactions (handleTransfer clock1 st') = State.transactions st'.
Proof.
  intros st'.
  assert (succeeds clock0 (example1 "") = true) as H by (vm_compute; reflexivity).
  split; [exact H|].
  exact (second_click_moves_nothing clock0 clock1 (example1 "") H).
Defined.

(** Submitting again what has just failed, at any later time, fails in the
    same way and leaves the state it left. *)
Theorem failed_submission_is_idempotent
    (clock clock' : Clock.t) (st : State.t) :
  succeeds clock st = false ->
  handleTransfer clock' (handleTransfer clock st) = handleTransfer clock st.
Proof.
  intros Hfail.
  destruct (handleTransfer_cases clock st)
    as [[e He]|(f & t & a & cv & fx & _ & He)].
  - rewrite <- (failure_ignores_clock clock clock' st Hfail) at 2.
    rewrite He.
    destruct (handleTransfer_core clock' (reject e st) st eq_refl eq_refl eq_refl)
      as (H1 & H2 & H3 & H4 & H5).
    destruct (handleTransfer_filters clock' (reject e st)) as [H6 H7].
    destruct (handleTransfer_filters clock' st) as [H8 H9].
    apply State_eq; try assumption.
    + now rewrite H6, H8.
    + now rewrite H7, H9.
  - rewrite (succeeds_commit _ _ _ _ _ _ _ He) in Hfail. discriminate.
Qed.

Lemma failed_submission_is_idempotent_witness :
  succeeds clock0 (run overdraft initialState) = false
  /\ handleTransfer clock1 (handleTransfer clock0 (run overdraft initialState))
     = handleTransfer clock0 (run overdraft initialState).
Proof.
  assert (succeeds clock0 (run overdraft initialState) = false) as H
    by (vm_compute; reflexivity).
  split; [exact H|].
  exact (failed_submission_is_idempotent clock0 clock1 _ H).
Defined.

(** ** Accounts over a run *)

Lemma updateAccount_identity form amount conv acc :
  identity (updateAccount form amount conv acc) = identity acc.
Proof.
  unfold updateAccount, identity.
  destruct (Account.id acc =? TransferForm.fromAccount form); [reflexivity|].
  now destruct (Account.id acc =? TransferForm.toAccount form).
Qed.

Lemma step_identity (st : State.t) (ev : Event) :
  map identity (State.accounts (step st ev))
  = map identity (State.accounts st).
Proof.
  destruct (step_cases st ev) as [[-> _]|(c & f & t & a & cv & fx & _ & _ & ->)].
  - reflexivity.
  - cbn [commit State.accounts]. rewrite map_map.
    apply map_ext. intros acc. apply updateAccount_identity.
Qed.

Lemma run_identity (events : list Event) (st : State.t) :
  map identity (State.accounts (run events st))
  = map identity (State.accounts st).
Proof.
  apply (run_invariant
           (fun s => map identity (State.accounts s)
                     = map identity (State.accounts st))).
  - intros s ev H. now rewrite step_identity.
  - reflexivity.
Qed.

(** Whatever the user does, the accounts stay the ones the run started
    with: as many, in the same order, each with its identifier, name and
    currency.  Only balances change. *)
Theorem accounts_keep_identity (events : list Event) (st : State.t) :
  map identity (State.accounts (run events st))
  = map identity (State.accounts st)
  /\ List.length (State.accounts (run events st))
     = List.length (State.accounts st).
Proof.
  pose proof (run_identity events st) as H. split; [exact H|].
  apply (f_equal (@List.length _)) in H. now rewrite !length_map in H.
Qed.

(** ** The log over a run *)

(** The log only grows, and only at its front: a run puts one record per
    submission carried out before the records that were there, which it
    keeps as they were. *)
Theorem log_grows_at_the_front (events : list Event) (st : State.t) :
  exists newer,
    State.transactions (run events st)
    = (newer ++ State.transactions st)%list
    /\ map Transaction.id newer
       = map JS.toString (rev (acceptedReadings events st)).
Proof.
  revert st. induction events as [|ev events IH]; intros st.
  - exists []. split; reflexivity.
  - destruct (IH (step st ev)) as (newer & Hlog & Hids).
    cbn [run fold_left acceptedReadings]. fold (run events (step st ev)).
    rewrite Hlog.
    destruct ev as [clock|field value|field value|];
      try (exists newer; split; [reflexivity|];
           rewrite Hids; reflexivity).
    cbn [step] in *.
    destruct (handleTransfer_cases clock st)
      as [[e He]|(f & t & a & cv & fx & _ & He)].
    + rewrite (succeeds_reject _ _ _ He). exists newer.
      rewrite He in *. split; [reflexivity | exact Hids].
    + rewrite (succeeds_commit _ _ _ _ _ _ _ He). rewrite He in *.
      exists (newer ++ [newTransaction clock (State.transferForm st) f t a cv fx])%list.
      split.
      * cbn [commit State.transactions]. now rewrite <- app_assoc.
      * rewrite map_app, Hids. cbn [app rev map].
        rewrite map_app. reflexivity.
Qed.

Lemma identity_in (accounts accounts' : list Account.t) (acc : Account.t) :
  map identity accounts = map identity accounts' ->
  In acc accounts ->
  exists acc', In acc' accounts' /\ identity acc' = identity acc.
Proof.
  intros Hmap Hin. apply (in_map identity) in Hin. rewrite Hmap in Hin.
  apply in_map_iff in Hin as (acc' & Hid & Hin'). now exists acc'.
Qed.

Lemma identity_fields (a b : Account.t) :
  identity a = identity b ->
  Account.id a = Account.id b /\ Account.name a = Account.name b
  /\ Account.currency a = Account.currency b.
Proof.
  unfold identity. intros [= -> -> ->]. now conjuncts.
Qed.

Lemma step_wellFormed (st : State.t) (ev : Event) :
  map identity (State.accounts st) = map identity initialAccounts ->
  Forall wellFormed (State.transactions st) ->
  Forall wellFormed (State.transactions (step st ev)).
Proof.
  intros Hid Hall.
  destruct (step_cases st ev)
    as [[_ ->]|(c & f & t & a & cv & fx & _ & Hacc & ->)]; [exact Hall|].
  cbn [commit State.transactions]. constructor; [|exact Hall].
  destruct Hacc as [_ Hdiff _ Hpos Hfrom Hto _ _].
  unfold resolve in Hfrom, Hto.
  apply find_some in Hfrom as [Hfin Hfid], Hto as [Htin Htid].
  apply String.eqb_eq in Hfid, Htid.
  destruct (identity_in _ _ _ Hid Hfin) as (f0 & Hf0 & Ef).
  destruct (identity_in _ _ _ Hid Htin) as (t0 & Ht0 & Et).
  apply identity_fields in Ef as (Ef1 & Ef2 & Ef3).
  apply identity_fields in Et as (Et1 & Et2 & Et3).
  unfold wellFormed, newTransaction.
  cbn [Transaction.fromAccount Transaction.toAccount Transaction.fromCurrency
       Transaction.toCurrency Transaction.amount Transaction.scheduledDate
       Transaction.status].
  conjuncts.
  - exists f0, t0. conjuncts; try assumption; try (symmetry; assumption).
    rewrite Ef1, Et1, Hfid, Htid. unfold accountsDiffer in Hdiff.
    apply negb_true_iff in Hdiff. now apply String.eqb_neq.
  - exact Hpos.
  - destruct (TransferForm.scheduledDate (State.transferForm st)) eqn:E;
      cbn [JS.truthy]; [reflexivity|]. split; [discriminate | reflexivity].
Qed.

(** Every record a run from the seed state leaves in the log names two
    different seed accounts by their display names, carries their
    currencies and an amount above zero, and is [Scheduled] exactly when it
    has a scheduled date. *)
Theorem log_records_well_formed (events : list Event) :
  Forall wellFormed (State.transactions (run events initialState)).
Proof.
  apply (run_invariant
           (fun st => map identity (State.accounts st)
                      = map identity initialAccounts
                      /\ Forall wellFormed (State.transactions st))).
  - intros st ev [Hid Hall]. split.
    + now rewrite step_identity.
    + now apply step_wellFormed.
  - split; [reflexivity | constructor].
Qed.

(** ** The two halves of the state *)

Lemma ledger_eq (st1 st2 : State.t) :
  ledger st1 = ledger st2 <->
  State.accounts st1 = State.accounts st2
  /\ State.transactions st1 = State.transactions st2
  /\ State.transferForm st1 = State.transferForm st2
  /\ State.error st1 = State.error st2
  /\ State.success st1 = State.success st2.
Proof.
  unfold ledger. split.
  - intros [= -> -> -> -> ->]. now conjuncts.
  - now intros (-> & -> & -> & -> & ->).
Qed.

Lemma step_ledger (st1 st2 : State.t) (ev : Event) :
  ledger st1 = ledger st2 -> ledger (step st1 ev) = ledger (step st2 ev).
Proof.
  intros H. apply ledger_eq in H as (Ha & Ht & Hf & He & Hs).
  apply ledger_eq.
  destruct ev as [clock|field value|field value|]; cbn [step].
  - now apply handleTransfer_core.
  - unfold handleFormChange. cbn. rewrite Hf. now conjuncts.
  - now conjuncts.
  - now conjuncts.
Qed.

Lemma step_ledger_view (st : State.t) (ev : Event) :
  onFilters ev = true -> ledger (step st ev) = ledger st.
Proof.
  destruct ev; try discriminate; reflexivity.
Qed.

Lemma step_filterBar (st1 st2 : State.t) (ev : Event) :
  filterBar st1 = filterBar st2 ->
  filterBar (step st1 ev) = filterBar (step st2 ev).
Proof.
  unfold filterBar. intros [= Hf Hs].
  destruct ev as [clock|field value|field value|]; cbn [step].
  - destruct (handleTransfer_filters clock st1) as [-> ->].
    destruct (handleTransfer_filters clock st2) as [-> ->].
    now rewrite Hf, Hs.
  - cbn. now rewrite Hf, Hs.
  - unfold handleFilterChange. cbn. now rewrite Hf, Hs.
  - cbn. now rewrite Hf, Hs.
Qed.

Lemma step_filterBar_ledger (st : State.t) (ev : Event) :
  onFilters ev = false -> filterBar (step st ev) = filterBar st.
Proof.
  destruct ev as [clock|field value|field value|]; try discriminate; intros _.
  - unfold filterBar. cbn [step].
    now destruct (handleTransfer_filters clock st) as [-> ->].
  - reflexivity.
Qed.

Lemma run_ledger (events : list Event) :
  forall st1 st2, ledger st1 = ledger st2 ->
  ledger (run events st1)
  = ledger (run (filter (fun ev => negb (onFilters ev)) events) st2).
Proof.
  induction events as [|ev events IH]; intros st1 st2 H; [exact H|].
  cbn [run fold_left filter].
  destruct (onFilters ev) eqn:E; cbn [negb].
  - apply IH. now rewrite step_ledger_view.
  - cbn [fold_left]. apply IH. now apply step_ledger.
Qed.

Lemma run_filterBar (events : list Event) :
  forall st1 st2, filterBar st1 = filterBar st2 ->
  filterBar (run events st1) = filterBar (run (filter onFilters events) st2).
Proof.
  induction events as [|ev events IH]; intros st1 st2 H; [exact H|].
  cbn [run fold_left filter].
  destruct (onFilters ev) eqn:E.
  - cbn [fold_left]. apply IH. now apply step_filterBar.
  - apply IH. now rewrite step_filterBar_ledger.
Qed.

(** The filters are advisory.  Accounts, log, form and messages at the end
    of a run are what the run gives with every change of a filter and every
    click on the filter button left out; and the filter bar is what those
    changes and clicks alone give, whatever was submitted or typed into the
    form in between. *)
Theorem filters_are_advisory (events : list Event) (st : State.t) :
  ledger (run events st)
  = ledger (run (filter (fun ev => negb (onFilters ev)) events) st)
  /\ filterBar (run events st)
     = filterBar (run (filter onFilters events) st).
Proof.
  split; [now apply run_ledger | now apply run_filterBar].
Qed.

(** ** What a transfer does to the balances *)

(** A transfer that passes the six checks of the specification, and whose
    converted amount is not zero, is carried out: the source account is
    left with its balance less the amount, the destination account with its
    balance plus the converted amount, every other account is as it was,
    one record with the fields below is put at the head of the log, the
    form is emptied and a success message is the only message. *)
Theorem valid_transfer_carried_out
    (clock : Clock.t) (st : State.t)
    (fromAccount toAccount : Account.t) (rate : float) :
  let form := State.transferForm st in
  let amount := JS.parseFloat (TransferForm.amount form) in
  let same :=
    Currency_eqb (Account.currency fromAccount) (Account.currency toAccount) in
  let convertedAmount := if same then amount else (amount * rate)%float in
  let fxRate := if same then 1%float else (convertedAmount / amount)%float in
  let scheduled := JS.truthy (TransferForm.scheduledDate form) in
  firstFailure st = None ->
  resolve (State.accounts st) (TransferForm.fromAccount form) = Some fromAccount ->
  resolve (State.accounts st) (TransferForm.toAccount form) = Some toAccount ->
  rateOf (Account.currency fromAccount) (Account.currency toAccount) = Some rate ->
  JS.falsy_number convertedAmount = false ->
  let st' := handleTransfer clock st in
  resolve (State.accounts st') (TransferForm.fromAccount form)
  = Some (Account.mk (Account.id fromAccount) (Account.name fromAccount)
            (Account.currency fromAccount)
            (Account.balance fromAccount - amount)%float)
  /\ resolve (State.accounts st') (TransferForm.toAccount form)
     = Some (Account.mk (Account.id toAccount) (Account.name toAccount)
               (Account.currency toAccount)
               (Account.balance toAccount + convertedAmount)%float)
  /\ (forall id,
        id <> TransferForm.fromAccount form ->
        id <> TransferForm.toAccount form ->
        resolve (State.accounts st') id = resolve (State.accounts st) id)
  /\ List.length (State.accounts st') = List.length (State.accounts st)
  /\ State.transactions st'
     = Transaction.mk
         (JS.toString (Clock.now clock)) (Clock.isoString clock)
         (Account.name fromAccount) (Account.name toAccount)
         (Account.currency fromAccount) (Account.currency toAccount)
         amount convertedAmount fxRate
         (TransferForm.note form)
         (if scheduled then Some (TransferForm.scheduledDate form) else None)
         (if scheduled then Scheduled else Completed)
       :: State.transactions st
  /\ State.transferForm st' = TransferForm.empty
  /\ State.error st' = ""
  /\ State.success st'
     = (if scheduled then "Transfer scheduled successfully!"
        else "Transfer completed successfully!").
Proof.
  intros form amount same convertedAmount fxRate scheduled
    Hvalid Hfrom Hto Hrate Htruthy st'.
  assert (st' = commit clock st fromAccount toAccount amount convertedAmount fxRate)
    as Heq.
  { subst st' fxRate convertedAmount same amount form.
    apply firstFailure_None in Hvalid as (H1 & H2 & H3 & _ & H5 & _).
    unfold fieldsPresent in H1. apply andb_prop in H1 as [H1 Hc].
    apply andb_prop in H1 as [Ha Hb].
    unfold accountsDiffer in H2. apply negb_true_iff in H2.
    unfold amountPositive in H3.
    unfold balanceSuffices in H5. rewrite Hfrom in H5.
    apply leb_not_ltb in H5.
    unfold handleTransfer, commit. cbv zeta.
    rewrite Ha, Hb, Hc. cbn [negb orb]. rewrite H2.
    rewrite positive_iff, H3. cbn [negb].
    unfold resolve in Hfrom, Hto. rewrite Hfrom, Hto, H5.
    destruct (Currency_eqb (Account.currency fromAccount)
                (Account.currency toAccount)) eqn:Hsame;
      cbn [negb]; [reflexivity|].
    unfold calculateFXConversion. rewrite Hsame.
    pose proof (rate_truthy _ _ _ Hrate) as Hr.
    unfold rateOf in Hrate. rewrite Hsame in Hrate.
    rewrite Hrate, Hr, Htruthy. reflexivity. }
  rewrite Heq. cbn [commit State.accounts State.transactions
                    State.transferForm State.error State.success].
  apply firstFailure_None in Hvalid as (_ & Hdiff & _).
  unfold accountsDiffer in Hdiff. apply negb_true_iff in Hdiff.
  fold form in Hdiff.
  pose proof (resolve_id _ _ _ Hfrom) as Hfid.
  pose proof (resolve_id _ _ _ Hto) as Htid.
  conjuncts.
  - rewrite resolve_map_update, Hfrom. cbn [option_map].
    unfold updateAccount. fold form. now rewrite Hfid, String.eqb_refl.
  - rewrite resolve_map_update, Hto. cbn [option_map].
    unfold updateAccount. fold form.
    now rewrite Htid, String.eqb_sym, Hdiff, String.eqb_refl.
  - intros id Hf Ht. rewrite resolve_map_update.
    destruct (resolve (State.accounts st) id) as [acc|] eqn:Hacc;
      [|reflexivity].
    apply resolve_id in Hacc. cbn [option_map]. f_equal.
    unfold updateAccount. fold form. rewrite Hacc.
    apply String.eqb_neq in Hf, Ht. now rewrite Hf, Ht.
  - apply length_map.
  - unfold newTransaction. fold form. reflexivity.
  - reflexivity.
  - reflexivity.
  - unfold newTransaction. fold form. cbn [Transaction.status].
    subst scheduled. now destruct (JS.truthy (TransferForm.scheduledDate form)).
Qed.

Lemma valid_transfer_carried_out_witness :
  let st := example1 "fees" in
  let st' := handleTransfer clock0 st in
  (firstFailure st = None
   /\ resolve (State.accounts st) "mpesa_kes_1"
      = Some (Account.mk "mpesa_kes_1" "Mpesa_KES_1" KES 2500000)
   /\ resolve (State.accounts st) "bank_usd_1"
      = Some (Account.mk "bank_usd_1" "Bank_USD_1" USD 45000)
   /\ rateOf KES USD = Some 0.0067%float
   /\ JS.falsy_number (JS.parseFloat "100000" * 0.0067) = false)
  /\ resolve (State.accounts st') "mpesa_kes_1"
     = Some (Account.mk "mpesa_kes_1" "Mpesa_KES_1" KES
               2400000)
  /\ resolve (State.accounts st') "bank_usd_1"
     = Some (Account.mk "bank_usd_1" "Bank_USD_1" USD
               45670)
  /\ (forall id,
        id <> "mpesa_kes_1" -> id <> "bank_usd_1" ->
        resolve (State.accounts st') id = resolve (State.accounts st) id)
  /\ List.length (State.accounts st') = List.length (State.accounts st)
  /\ State.transactions st'
     = Transaction.mk "1700000000000" "2023-11-14T22:13:20.000Z"
         "Mpesa_KES_1" "Bank_USD_1" KES USD
         100000 670 0.0067
         "fees" None Completed
       :: State.transactions st
  /\ State.transferForm st' = TransferForm.empty
  /\ State.error st' = ""
  /\ State.success st' = "Transfer completed successfully!".
Proof.
  intros st st'.
  assert (firstFailure st = None) as H1 by (vm_compute; reflexivity).
  assert (JS.falsy_number (JS.parseFloat "100000" * 0.0067) = false) as H5
    by (vm_compute; reflexivity).
  split; [conjuncts; try reflexivity; assumption|].
  exact (valid_transfer_carried_out clock0 st
           (Account.mk "mpesa_kes_1" "Mpesa_KES_1" KES 2500000)
           (Account.mk "bank_usd_1" "Bank_USD_1" USD 45000)
           0.0067%float H1 eq_refl eq_refl eq_refl H5).
Defined.

(** A transfer that is carried out changes two balances and nothing else of
    the accounts: the source account loses the amount, the destination
    account gains the amount, or between two currencies the amount times the
    rate of the table, and looking up any other identifier gives the account
    it gave before. *)
Theorem transfer_changes_two_balances (clock : Clock.t) (st : State.t) :
  succeeds clock st = true ->
  let form := State.transferForm st in
  let accounts := State.accounts st in
  let accounts' := State.accounts (handleTransfer clock st) in
  let amount := JS.parseFloat (TransferForm.amount form) in
  exists fromAccount toAccount rate,
    resolve accounts (TransferForm.fromAccount form) = Some fromAccount
    /\ resolve accounts (TransferForm.toAccount form) = Some toAccount
    /\ rateOf (Account.currency fromAccount) (Account.currency toAccount)
       = Some rate
    /\ balanceOf accounts' (TransferForm.fromAccount form)
       = Some (Account.balance fromAccount - amount)%float
    /\ balanceOf accounts' (TransferForm.toAccount form)
       = Some (Account.balance toAccount
               + (if Currency_eqb (Account.currency fromAccount)
                       (Account.currency toAccount)
                  then amount else amount * rate))%float
    /\ forall id,
         id <> TransferForm.fromAccount form ->
         id <> TransferForm.toAccount form ->
         resolve accounts' id = resolve accounts id.
Proof.
  intros Hok form accounts accounts' amount.
  subst form accounts accounts' amount.
  destruct (handleTransfer_cases clock st)
    as [[e He]|(f & t & a & cv & fx & Hacc & He)].
  { rewrite (succeeds_reject _ _ _ He) in Hok. discriminate. }
  rewrite He. cbn [commit State.accounts].
  destruct Hacc as [_ Hdiff Hamount _ Hfrom Hto _ Hconv].
  subst a.
  pose proof (resolve_id _ _ _ Hfrom) as Hfid.
  pose proof (resolve_id _ _ _ Hto) as Htid.
  unfold accountsDiffer in Hdiff. apply negb_true_iff in Hdiff.
  assert (exists rate,
             rateOf (Account.currency f) (Account.currency t) = Some rate
             /\ cv = if Currency_eqb (Account.currency f) (Account.currency t)
                     then JS.parseFloat
                            (TransferForm.amount (State.transferForm st))
                     else (JS.parseFloat
                             (TransferForm.amount (State.transferForm st))
                           * rate)%float) as (rate & Hrate & Hcv).
  { unfold rateOf in *.
    destruct (Currency_eqb (Account.currency f) (Account.currency t)).
    - exists 1%float. now destruct Hconv as [-> _].
    - destruct Hconv as [(rate & Hrate & ->) _]. now exists rate. }
  exists f, t, rate. conjuncts; try assumption.
  - unfold balanceOf. rewrite resolve_map_update, Hfrom. cbn [option_map].
    unfold updateAccount. rewrite Hfid, String.eqb_refl. reflexivity.
  - unfold balanceOf. rewrite resolve_map_update, Hto. cbn [option_map].
    unfold updateAccount. rewrite Htid.
    rewrite String.eqb_sym, Hdiff, String.eqb_refl. cbn [Account.balance].
    now rewrite Hcv.
  - intros id Hf Ht. rewrite resolve_map_update.
    destruct (resolve (State.accounts st) id) as [acc|] eqn:Hacc;
      [|reflexivity].
    apply resolve_id in Hacc. cbn [option_map]. f_equal.
    unfold updateAccount. rewrite Hacc.
    apply String.eqb_neq in Hf, Ht. now rewrite Hf, Ht.
Qed.

Lemma transfer_changes_two_balances_witness :
  let st := example1 "" in
  let form := State.transferForm st in
  let accounts := State.accounts st in
  let accounts' := State.accounts (handleTransfer clock0 st) in
  let amount := JS.parseFloat (TransferForm.amount form) in
  succeeds clock0 st = true
  /\ exists fromAccount toAccount rate,
       resolve accounts (TransferForm.fromAccount form) = Some fromAccount
       /\ resolve accounts (TransferForm.toAccount form) = Some toAccount
       /\ rateOf (Account.currency fromAccount) (Account.currency toAccount)
          = Some rate
       /\ balanceOf accounts' (TransferForm.fromAccount form)
          = Some (Account.balance fromAccount - amount)%float
       /\ balanceOf accounts' (TransferForm.toAccount form)
          = Some (Account.balance toAccount
                  + (if Currency_eqb (Account.currency fromAccount)
                          (Account.currency toAccount)
                     then amount else amount * rate))%float
       /\ forall id,
            id <> TransferForm.fromAccount form ->
            id <> TransferForm.toAccount form ->
            resolve accounts' id = resolve accounts id.
Proof.
  intros st form accounts accounts' amount.
  assert (succeeds clock0 st = true) as H by (vm_compute; reflexivity).
  split; [exact H|].
  exact (transfer_changes_two_balances clock0 st H).
Defined.

(** ** The preview under the amount field *)

(** Before a transfer that is carried out, the preview is shown exactly when
    the two currencies differ, and it shows the amount, the converted amount
    and the rate that the transfer then records. *)
Theorem preview_agrees_with_transfer (clock : Clock.t) (st : State.t) :
  succeeds clock st = true ->
  exists tx,
    State.transactions (handleTransfer clock st)
    = tx :: State.transactions st
    /\ match fxPreview st with
       | Some p =>
           Transaction.fromCurrency tx <> Transaction.toCurrency tx
           /\ p = Preview.mk (Transaction.amount tx)
                    (Transaction.fromCurrency tx)
                    (Transaction.convertedAmount tx)
                    (Transaction.toCurrency tx)
                    (Transaction.fxRate tx)
       | None => Transaction.fromCurrency tx = Transaction.toCurrency tx
       end.
Proof.
  intros Hok.
  destruct (handleTransfer_cases clock st)
    as [[e He]|(f & t & a & cv & fx & Hacc & He)].
  { rewrite (succeeds_reject _ _ _ He) in Hok. discriminate. }
  rewrite He. eexists. split; [reflexivity|].
  destruct Hacc as [Hfields _ Hamount Hpos Hfrom Hto _ Hconv].
  unfold fxPreview. unfold fieldsPresent in Hfields. rewrite Hfields.
  unfold resolve in Hfrom, Hto. rewrite Hfrom, Hto.
  rewrite <- Hamount, (positive_is_number _ Hpos).
  unfold newTransaction.
  cbn [negb andb Transaction.fromCurrency Transaction.toCurrency
       Transaction.amount Transaction.convertedAmount Transaction.fxRate].
  destruct (Currency_eqb (Account.currency f) (Account.currency t)) eqn:Hsame;
    cbn [negb].
  - now apply Currency_eqb_eq.
  - destruct Hconv as ((rate & Hrate & Hcv) & Htruthy & Hfx).
    unfold calculateFXConversion. rewrite Hsame.
    pose proof (rate_truthy _ _ _ Hrate) as Hr.
    unfold rateOf in Hrate. rewrite Hsame in Hrate.
    rewrite Hrate, Hr, <- Hcv, Htruthy. split.
    + intros E. apply Currency_eqb_eq in E. congruence.
    + now rewrite Hfx.
Qed.

Lemma preview_agrees_with_transfer_witness :
  succeeds clock0 (example1 "") = true
  /\ exists tx,
       State.transactions (handleTransfer clock0 (example1 ""))
       = tx :: State.transactions (example1 "")
       /\ match fxPreview (example1 "") with
          | Some p =>
              Transaction.fromCurrency tx <> Transaction.toCurrency tx
              /\ p = Preview.mk (Transaction.amount tx)
                       (Transaction.fromCurrency tx)
                       (Transaction.convertedAmount tx)
                       (Transaction.toCurrency tx)
                       (Transaction.fxRate tx)
          | None => Transaction.fromCurrency tx = Transaction.toCurrency tx
          end.
Proof.
  assert (succeeds clock0 (example1 "") = true) as H
    by (vm_compute; reflexivity).
  split; [exact H|].
  exact (preview_agrees_with_transfer clock0 (example1 "") H).
Defined.

(** ** The scheduled date and the note *)

(** The button says what the transfer will be recorded as: a transfer
    submitted under [Schedule Transfer] is carried out at once, recorded as
    [Scheduled] with the date of the form and announced as scheduled; one
    submitted under [Execute Transfer] has no date, is recorded as
    [Completed] and announced as completed. *)
Theorem button_label_announces_status (clock : Clock.t) (st : State.t) :
  succeeds clock st = true ->
  let st' := handleTransfer clock st in
  exists tx,
    State.transactions st' = tx :: State.transactions st
    /\ Transaction.note tx = TransferForm.note (State.transferForm st)
    /\ ((submitLabel st = "Schedule Transfer"
         /\ Transaction.status tx = Scheduled
         /\ Transaction.scheduledDate tx
            = Some (TransferForm.scheduledDate (State.transferForm st))
         /\ State.success st' = "Transfer scheduled successfully!")
        \/ (submitLabel st = "Execute Transfer"
            /\ Transaction.status tx = Completed
            /\ Transaction.scheduledDate tx = None
            /\ TransferForm.scheduledDate (State.transferForm st) = ""
            /\ State.success st' = "Transfer completed successfully!")).
Proof.
  intros Hok st'. subst st'.
  destruct (handleTransfer_cases clock st)
    as [[e He]|(f & t & a & cv & fx & _ & He)].
  { rewrite (succeeds_reject _ _ _ He) in Hok. discriminate. }
  rewrite He. eexists. split; [reflexivity|]. split; [reflexivity|].
  unfold submitLabel, commit, newTransaction.
  cbn [State.success Transaction.status Transaction.scheduledDate].
  destruct (TransferForm.scheduledDate (State.transferForm st));
    cbn [JS.truthy]; [right | left]; conjuncts; reflexivity.
Qed.

Lemma button_label_announces_status_witness :
  let st' := handleTransfer clock0 scheduledExample in
  succeeds clock0 scheduledExample = true
  /\ exists tx,
       State.transactions st' = tx :: State.transactions scheduledExample
       /\ Transaction.note tx
          = TransferForm.note (State.transferForm scheduledExample)
       /\ ((submitLabel scheduledExample = "Schedule Transfer"
            /\ Transaction.status tx = Scheduled
            /\ Transaction.scheduledDate tx
               = Some (TransferForm.scheduledDate
                         (State.transferForm scheduledExample))
            /\ State.success st' = "Transfer scheduled successfully!")
           \/ (submitLabel scheduledExample = "Execute Transfer"
               /\ Transaction.status tx = Completed
               /\ Transaction.scheduledDate tx = None
               /\ TransferForm.scheduledDate
                    (State.transferForm scheduledExample) = ""
               /\ State.success st' = "Transfer completed successfully!")).
Proof.
  intros st'.
  assert (succeeds clock0 scheduledExample = true) as H
    by (vm_compute; reflexivity).
  split; [exact H|].
  exact (button_label_announces_status clock0 scheduledExample H).
Defined.

(** The note and the scheduled date move no money: with any note and any
    date in the form, a submission is accepted or refused as without them,
    with the same error, leaves the same accounts, and records the same
    movement. *)
Theorem note_and_date_move_no_money
    (clock : Clock.t) (st : State.t) (note date : string) :
  let st2 := handleFormChange TransferForm.scheduledDate_ date
               (handleFormChange TransferForm.note_ note st) in
  State.accounts (handleTransfer clock st2)
  = State.accounts (handleTransfer clock st)
  /\ State.error (handleTransfer clock st2)
     = State.error (handleTransfer clock st)
  /\ map movement (State.transactions (handleTransfer clock st2))
     = map movement (State.transactions (handleTransfer clock st)).
Proof.
  intros st2. subst st2.
  destruct st as [a t [ffrom fto famount fnote fdate] fl sf e s].
  unfold handleFormChange, TransferForm.set.
  cbn [State.transferForm State.setTransferForm State.accounts
       State.transactions State.filters State.showFilters State.error
       State.success TransferForm.fromAccount TransferForm.toAccount
       TransferForm.amount TransferForm.note TransferForm.scheduledDate].
  unfold handleTransfer.
  cbn [State.transferForm State.accounts State.transactions
       State.setTransferForm State.setError State.setSuccess
       State.setAccounts State.setTransactions State.filters
       State.showFilters State.error State.success
       TransferForm.fromAccount TransferForm.toAccount
       TransferForm.amount].
  repeat match goal with
    | |- context [if ?b then _ else _] =>
        lazymatch b with
        | JS.truthy _ => fail
        | _ => destruct b eqn:?
        end
    | |- context [match find ?f ?l with _ => _ end] =>
        destruct (find f l) eqn:?
    | |- context [match calculateFXConversion ?a ?c ?d with _ => _ end] =>
        destruct (calculateFXConversion a c d) eqn:?
    end;
    conjuncts; reflexivity.
Qed.

(** ** The error for an unsupported pair *)

(** A product of two numbers above zero that is zero or NaN is [+0]. *)
Lemma falsy_product (x y : float) :
  (0 <? x)%float = true -> (0 <? y)%float = true ->
  JS.falsy_number (x * y) = true -> (x * y)%float = 0%float.
Proof.
  unfold JS.falsy_number.
  rewrite !zero_ltb, is_nan_spec, FloatAxioms.eqb_spec, Prim2SF_zero.
  intros Hx Hy H. apply Prim2SF_inj. rewrite Prim2SF_zero.
  rewrite mul_spec in *. unfold SF64mul in *.
  destruct (Prim2SF x) as [[]|[]| |[] mx ex], (Prim2SF y) as [[]|[]| |[] my ey];
    try discriminate.
  cbn [SFmul xorb] in *.
  pose proof (binary_round_aux_positive (Z.pos (mx * my)) (ex + ey) loc_Exact
                ltac:(lia)) as Hs.
  destruct (binary_round_aux prec emax false (Z.pos (mx * my)) (ex + ey)
              loc_Exact) as [s|s| |s m e];
    try contradiction; subst s; [reflexivity | discriminate H..].
Qed.

Lemma rate_positive (c d : Currency) (rate : float) :
  rateOf c d = Some rate -> (0 <? rate)%float = true.
Proof.
  destruct c, d; cbn; intros [= <-]; reflexivity.
Qed.

(** [calculateFXConversion] never returns [null].  Between equal currencies
    it returns the amount as it is; every ordered pair of two of the three
    currencies has a rate in the table, which is above zero, and the amount
    is multiplied by it. *)
Theorem conversion_is_total (amount : float) (c d : Currency) :
  exists rate,
    rateOf c d = Some rate
    /\ (0 <? rate)%float = true
    /\ calculateFXConversion amount c d
       = Some (if Currency_eqb c d then amount else (amount * rate)%float).
Proof.
  destruct c, d; eexists; (conjuncts; reflexivity).
Qed.

Lemma unsupported_pair_only_if (clock : Clock.t) (st : State.t) :
  State.error (handleTransfer clock st) = message UnsupportedCurrencyPair ->
  let form := State.transferForm st in
  let amount := JS.parseFloat (TransferForm.amount form) in
  fieldsPresent form = true
  /\ accountsDiffer form = true
  /\ exists fromAccount toAccount rate,
       resolve (State.accounts st) (TransferForm.fromAccount form)
       = Some fromAccount
       /\ resolve (State.accounts st) (TransferForm.toAccount form)
          = Some toAccount
       /\ Account.currency fromAccount <> Account.currency toAccount
       /\ rateOf (Account.currency fromAccount) (Account.currency toAccount)
          = Some rate
       /\ (0 <? amount)%float = true
       /\ (Account.balance fromAccount <? amount)%float = false
       /\ (amount * rate)%float = 0%float.
Proof.
  intros Herr form amount. subst form amount. revert Herr.
  unfold resolve, fieldsPresent, accountsDiffer.
  transfer_cases; cbn [State.error State.setError State.setSuccess];
    try (intros Herr; apply (message_inj _ UnsupportedCurrencyPair) in Herr;
         discriminate Herr);
    try (intros Herr; discriminate Herr); intros _.
  all: match goal with
       | H : (PrimFloat.is_nan _ || _)%bool = false |- _ =>
           rewrite positive_iff in H; apply negb_false_iff in H
       end.
  all: match goal with
       | H : negb (Currency_eqb _ _) = true |- _ =>
           apply negb_true_iff in H
       end.
  all: match goal with
       | H : (negb ?a || negb ?b || negb ?c)%bool = false |- _ =>
           destruct a, b, c; try discriminate H
       end.
  all: split; [reflexivity|]; split; [reflexivity|].
  - match goal with
    | Hc : calculateFXConversion _ _ _ = Some _,
      Hs : Currency_eqb _ _ = false |- _ =>
        destruct (calculateFXConversion_rate _ _ _ _ Hs Hc)
          as (rate & Hrate & ->);
        do 3 eexists; conjuncts; try reflexivity; try eassumption;
        [ intros E; apply Currency_eqb_eq in E; congruence
        | apply falsy_product;
          [assumption | eapply rate_positive, Hrate | assumption] ]
    end.
  - exfalso.
    match goal with
    | Hc : calculateFXConversion _ ?c ?d = None,
      Hs : Currency_eqb _ _ = false |- _ =>
        pose proof (rateOf_total c d) as Ht;
        pose proof (rate_truthy c d) as Hr;
        unfold calculateFXConversion in Hc; unfold rateOf in Ht, Hr;
        rewrite Hs in Hc, Ht, Hr;
        destruct (lookup FX_RATES _) as [rate|]; [|congruence];
        rewrite (Hr rate eq_refl) in Hc; discriminate Hc
    end.
Qed.

(** Every ordered pair of the three currencies has a rate, so the error
    for an unsupported pair never reports a missing rate.  It is shown
    exactly when the fields are filled in, the accounts differ and resolve,
    the amount is above zero and within the balance, the two currencies
    differ, and the amount times the rate rounds to zero. *)
Theorem unsupported_pair_is_a_zero_product (clock : Clock.t) (st : State.t) :
  let form := State.transferForm st in
  let amount := JS.parseFloat (TransferForm.amount form) in
  State.error (handleTransfer clock st) = message UnsupportedCurrencyPair
  <-> fieldsPresent form = true
      /\ accountsDiffer form = true
      /\ exists fromAccount toAccount rate,
           resolve (State.accounts st) (TransferForm.fromAccount form)
           = Some fromAccount
           /\ resolve (State.accounts st) (TransferForm.toAccount form)
              = Some toAccount
           /\ Account.currency fromAccount <> Account.currency toAccount
           /\ rateOf (Account.currency fromAccount)
                (Account.currency toAccount) = Some rate
           /\ (0 <? amount)%float = true
           /\ (Account.balance fromAccount <? amount)%float = false
           /\ (amount * rate)%float = 0%float.
Proof.
  intros form amount. subst form amount.
  split; [apply unsupported_pair_only_if|].
  intros (Hfields & Hdiff & f & t & rate
          & Hf & Ht & Hcur & Hrate & Hpos & Hbal & Hzero).
  unfold handleTransfer. cbv zeta.
  unfold fieldsPresent, accountsDiffer, resolve in *.
  destruct (JS.truthy (TransferForm.fromAccount (State.transferForm st)));
    destruct (JS.truthy (TransferForm.toAccount (State.transferForm st)));
    destruct (JS.truthy (TransferForm.amount (State.transferForm st)));
    try discriminate Hfields.
  cbn [negb orb]. apply negb_true_iff in Hdiff. rewrite Hdiff.
  rewrite positive_iff, Hpos. cbn [negb]. rewrite Hf, Ht, Hbal.
  assert (Currency_eqb (Account.currency f) (Account.currency t) = false)
    as Hs.
  { destruct (Currency_eqb _ _) eqn:E; [|reflexivity].
    apply Currency_eqb_eq in E. contradiction. }
  rewrite Hs. cbn [negb]. unfold calculateFXConversion. rewrite Hs.
  pose proof (rate_truthy _ _ _ Hrate) as Hr.
  unfold rateOf in Hrate. rewrite Hs in Hrate.
  rewrite Hrate, Hr, Hzero.
  change (JS.falsy_number 0) with true.
  reflexivity.
Qed.

(** ** Sending a whole balance *)

Lemma float_ltb_irrefl (x : float) : (x <? x)%float = false.
Proof.
  rewrite ltb_spec. unfold SFltb.
  destruct (Prim2SF x) as [[]|[]| |[] m e]; cbn [SFcompare]; try reflexivity;
    now rewrite Z.compare_refl, Pos.compare_cont_refl.
Qed.

Lemma float_sub_diag (x : float) :
  (0 <? x)%float = true -> (x <? infinity)%float = true ->
  (x - x)%float = 0%float.
Proof.
  rewrite zero_ltb, ltb_spec. intros Hpos Hfin.
  apply Prim2SF_inj. rewrite sub_spec, Prim2SF_zero. unfold SF64sub.
  destruct (Prim2SF x) as [[]|[]| |[] m e]; try discriminate.
  cbn [SFsub cond_Zopp]. cbv zeta. now rewrite Z.sub_diag.
Qed.

(** The balance check is strict: an amount equal to the balance of the
    source account is never refused for insufficient balance, and when the
    transfer is carried out the source account is left with exactly zero. *)
Theorem whole_balance_can_be_sent
    (clock : Clock.t) (st : State.t) (fromAccount : Account.t) :
  let form := State.transferForm st in
  resolve (State.accounts st) (TransferForm.fromAccount form)
  = Some fromAccount ->
  JS.parseFloat (TransferForm.amount form) = Account.balance fromAccount ->
  (Account.balance fromAccount <? infinity)%float = true ->
  State.error (handleTransfer clock st) <> message InsufficientBalance
  /\ (succeeds clock st = true ->
      balanceOf (State.accounts (handleTransfer clock st))
        (TransferForm.fromAccount form) = Some 0%float).
Proof.
  intros form Hfrom Hamount Hfin. subst form. split.
  - revert Hfrom. unfold resolve.
    transfer_cases; cbn [State.error State.setError State.setSuccess];
      intros Hfrom Herr;
      try (apply (message_inj _ InsufficientBalance) in Herr;
           discriminate Herr);
      try discriminate Herr.
    injection Hfrom as ->.
    match goal with
    | H : (_ <? _)%float = true |- _ =>
        rewrite Hamount, float_ltb_irrefl in H; discriminate H
    end.
  - intros Hok.
    destruct (handleTransfer_cases clock st)
      as [[e He]|(f & t & a & cv & fx & Hacc & He)].
    { rewrite (succeeds_reject _ _ _ He) in Hok. discriminate. }
    rewrite He. cbn [commit State.accounts].
    destruct Hacc as [_ _ Ha Hpos Hf _ _ _].
    rewrite Hfrom in Hf. injection Hf as <-.
    rewrite Hamount in Ha. subst a.
    unfold balanceOf. rewrite resolve_map_update, Hfrom. cbn [option_map].
    unfold updateAccount.
    rewrite (resolve_id _ _ _ Hfrom), String.eqb_refl.
    cbn [Account.balance]. now rewrite float_sub_diag.
Qed.

Lemma whole_balance_can_be_sent_witness :
  let fromAccount := Account.mk "bank_usd_3" "Bank_USD_3" USD 32000 in
  let form := State.transferForm wholeBalance in
  (resolve (State.accounts wholeBalance) (TransferForm.fromAccount form)
   = Some fromAccount
   /\ JS.parseFloat (TransferForm.amount form) = Account.balance fromAccount
   /\ (Account.balance fromAccount <? infinity)%float = true)
  /\ State.error (handleTransfer clock0 wholeBalance)
     <> message InsufficientBalance
  /\ (succeeds clock0 wholeBalance = true ->
      balanceOf (State.accounts (handleTransfer clock0 wholeBalance))
        (TransferForm.fromAccount form) = Some 0%float).
Proof.
  intros fromAccount form.
  assert (JS.parseFloat (TransferForm.amount form)
          = Account.balance fromAccount) as H by (vm_compute; reflexivity).
  split; [conjuncts; try reflexivity; exact H|].
  exact (whole_balance_can_be_sent clock0 wholeBalance fromAccount
           eq_refl H eq_refl).
Defined.

(** ** The history filter, field by field *)

Lemma filter_andb {A} (p q : A -> bool) (l : list A) :
  filter (fun x => p x && q x)%bool l = filter q (filter p l).
Proof.
  induction l as [|x l IH]; [reflexivity|]. cbn [filter].
  destruct (p x); cbn [andb filter]; [|exact IH].
  destruct (q x); now rewrite IH.
Qed.

Lemma filterCallback_split
    (Date_value : string -> float) (filters : Filters.t) (tx : Transaction.t) :
  filterCallback Date_value filters tx
  = (filterCallback Date_value
       (only Filters.account_ (Filters.account filters)) tx
     && filterCallback Date_value
          (only Filters.currency_ (Filters.currency filters)) tx
     && filterCallback Date_value
          (only Filters.dateFrom_ (Filters.dateFrom filters)) tx
     && filterCallback Date_value
          (only Filters.dateTo_ (Filters.dateTo filters)) tx)%bool.
Proof.
  unfold filterCallback, only, Filters.set, Filters.empty.
  cbn [Filters.account Filters.currency Filters.dateFrom Filters.dateTo
       JS.truthy].
  destruct (JS.truthy (Filters.account filters)),
    (JS.truthy (Filters.currency filters)),
    (JS.truthy (Filters.dateFrom filters)),
    (JS.truthy (Filters.dateTo filters));
    cbn [andb]; rewrite ?andb_true_r; reflexivity.
Qed.

(** The four filter fields act one after the other: filtering by a filter
    state gives what filtering by its account field alone, then by its
    currency field alone, then by each of its two dates alone gives; and
    with every field empty the whole log is shown. *)
Theorem filters_apply_field_by_field
    (Date_value : string -> float)
    (transactions : list Transaction.t) (filters : Filters.t) :
  filteredTransactions Date_value transactions filters
  = filteredTransactions Date_value
      (filteredTransactions Date_value
         (filteredTransactions Date_value
            (filteredTransactions Date_value transactions
               (only Filters.account_ (Filters.account filters)))
            (only Filters.currency_ (Filters.currency filters)))
         (only Filters.dateFrom_ (Filters.dateFrom filters)))
      (only Filters.dateTo_ (Filters.dateTo filters))
  /\ filteredTransactions Date_value transactions Filters.empty
     = transactions.
Proof.
  unfold filteredTransactions. split.
  - rewrite <- !filter_andb. apply filter_ext. intros tx.
    rewrite (filterCallback_split Date_value filters tx).
    now rewrite !andb_assoc.
  - induction transactions as [|tx l IH]; [reflexivity|].
    cbn [filter]. change (filterCallback Date_value Filters.empty tx) with true.
    cbn iota. now rewrite IH.
Qed.

Lemma leb_nan_l (x y : float) :
  PrimFloat.is_nan x = true -> (x <=? y)%float = false.
Proof.
  rewrite is_nan_spec, leb_spec. unfold SFleb.
  now destruct (Prim2SF x) as [[]|[]| |[] m e].
Qed.

Lemma leb_nan_r (x y : float) :
  PrimFloat.is_nan y = true -> (x <=? y)%float = false.
Proof.
  rewrite is_nan_spec, leb_spec. unfold SFleb.
  destruct (Prim2SF y) as [[]|[]| |[] m e]; try discriminate.
  now destruct (Prim2SF x) as [[]|[]| |[] mx ex].
Qed.

(** A date filter that is not empty and that the host does not read as a
    date hides every record: the comparison with an invalid date is false
    for every timestamp. *)
Theorem unreadable_date_hides_every_record
    (Date_value : string -> float)
    (transactions : list Transaction.t) (filters : Filters.t) :
  (JS.truthy (Filters.dateFrom filters) = true
   /\ PrimFloat.is_nan (Date_value (Filters.dateFrom filters)) = true)
  \/ (JS.truthy (Filters.dateTo filters) = true
      /\ PrimFloat.is_nan
           (Date_value (Filters.dateTo filters ++ "T23:59:59")) = true) ->
  filteredTransactions Date_value transactions filters = [].
Proof.
  intros H. unfold filteredTransactions.
  induction transactions as [|tx l IH]; [reflexivity|].
  cbn [filter]. rewrite IH.
  assert (filterCallback Date_value filters tx = false) as ->; [|reflexivity].
  unfold filterCallback.
  destruct H as [[Ht Hn]|[Ht Hn]]; rewrite Ht.
  - rewrite (leb_nan_l _ _ Hn), andb_false_r.
    now destruct (JS.truthy (Filters.dateTo filters)).
  - rewrite (leb_nan_r _ _ Hn). apply andb_false_r.
Qed.

Lemma unreadable_date_hides_every_record_witness :
  ((JS.truthy (Filters.dateFrom (only Filters.dateFrom_ "soon")) = true
    /\ PrimFloat.is_nan
         (utcDate_value (Filters.dateFrom (only Filters.dateFrom_ "soon")))
       = true)
   \/ (JS.truthy (Filters.dateTo (only Filters.dateFrom_ "soon")) = true
       /\ PrimFloat.is_nan
            (utcDate_value
               (Filters.dateTo (only Filters.dateFrom_ "soon") ++ "T23:59:59"))
          = true))
  /\ filteredTransactions utcDate_value sampleLog
       (only Filters.dateFrom_ "soon") = [].
Proof.
  assert (JS.truthy (Filters.dateFrom (only Filters.dateFrom_ "soon")) = true
          /\ PrimFloat.is_nan
               (utcDate_value (Filters.dateFrom (only Filters.dateFrom_ "soon")))
             = true) as H by (split; vm_compute; reflexivity).
  split; [left; exact H|].
  exact (unreadable_date_hides_every_record utcDate_value sampleLog
           (only Filters.dateFrom_ "soon") (or_introl H)).
Defined.

(** ** The totals by currency *)

Lemma totals_fold_congr (c : Currency) (accounts : list Account.t)
    (totals1 totals2 : CurrencyTotals) :
  totals1 c = totals2 c ->
  fold_left
    (fun totals acc =>
       totals_set totals (Account.currency acc)
         (totals_or_zero totals (Account.currency acc) + Account.balance acc)%float)
    accounts totals1 c
  = fold_left
      (fun totals acc =>
         totals_set totals (Account.currency acc)
           (totals_or_zero totals (Account.currency acc) + Account.balance acc)%float)
      accounts totals2 c.
Proof.
  intros H.
  pose proof (totals_fold_other (fun acc => acc) c accounts
                (fun acc _ => conj eq_refl (fun _ => eq_refl))
                totals1 totals2 H) as E.
  now rewrite map_id in E.
Qed.

Lemma totals_fold_own (c : Currency) (accounts : list Account.t) :
  forall totals : CurrencyTotals,
    fold_left
      (fun totals acc =>
         totals_set totals (Account.currency acc)
           (totals_or_zero totals (Account.currency acc) + Account.balance acc)%float)
      accounts totals c
    = fold_left
        (fun totals acc =>
           totals_set totals (Account.currency acc)
             (totals_or_zero totals (Account.currency acc) + Account.balance acc)%float)
        (filter (fun acc => Currency_eqb (Account.currency acc) c) accounts)
        totals c.
Proof.
  induction accounts as [|acc accounts IH]; intros totals; [reflexivity|].
  cbn [fold_left filter].
  destruct (Currency_eqb (Account.currency acc) c) eqn:E.
  - cbn [fold_left]. apply IH.
  - rewrite IH. apply totals_fold_congr.
    unfold totals_set.
    destruct (Currency_eqb c (Account.currency acc)) eqn:E'; [|reflexivity].
    apply Currency_eqb_eq in E'. subst c.
    assert (Currency_eqb (Account.currency acc) (Account.currency acc) = true)
      by now apply Currency_eqb_eq.
    congruence.
Qed.

(** The totals have a key for a currency exactly when an account has that
    currency, and the total of a currency is computed from the accounts of
    that currency alone, in the order of the list. *)
Theorem total_of_a_currency_is_of_its_accounts
    (accounts : list Account.t) (c : Currency) :
  (getTotalByCurrency accounts c = None
   <-> Forall (fun acc => Account.currency acc <> c) accounts)
  /\ getTotalByCurrency accounts c
     = getTotalByCurrency
         (filter (fun acc => Currency_eqb (Account.currency acc) c) accounts) c.
Proof.
  unfold getTotalByCurrency. split.
  - rewrite totals_fold_none. split; [now intros [_ H] | now split].
  - apply totals_fold_own.
Qed.

Lemma totals_fold_restart (c : Currency) (accounts : list Account.t) :
  forall totals1 totals2 : CurrencyTotals,
    totals_or_zero totals1 c = totals_or_zero totals2 c ->
    Exists (fun acc => Account.currency acc = c) accounts ->
    fold_left
      (fun totals acc =>
         totals_set totals (Account.currency acc)
           (totals_or_zero totals (Account.currency acc) + Account.balance acc)%float)
      accounts totals1 c
    = fold_left
        (fun totals acc =>
           totals_set totals (Account.currency acc)
             (totals_or_zero totals (Account.currency acc) + Account.balance acc)%float)
        accounts totals2 c.
Proof.
  induction accounts as [|acc accounts IH]; intros totals1 totals2 Hz Hex.
  - inversion Hex.
  - cbn [fold_left].
    destruct (Currency_eqb c (Account.currency acc)) eqn:E.
    + apply Currency_eqb_eq in E. subst c.
      apply totals_fold_congr. unfold totals_set.
      rewrite (proj2 (Currency_eqb_eq _ _) eq_refl). now rewrite Hz.
    + apply IH.
      * unfold totals_or_zero, totals_set in *. now rewrite E.
      * inversion Hex as [? ? Hc|? ? Hrest]; subst; [|exact Hrest].
        assert (Currency_eqb (Account.currency acc) (Account.currency acc) = true)
          by now apply Currency_eqb_eq.
        congruence.
Qed.

(** [totals[c] || 0] starts the sum again at a running total that is zero
    or NaN: when the accounts so far add up to zero or to NaN in a
    currency, the total of that currency is the total of the accounts that
    follow, if one of them has the currency.  A balance that is NaN is lost
    from the total as soon as another account of its currency follows. *)
Theorem falsy_running_total_is_dropped
    (accounts1 accounts2 : list Account.t) (c : Currency) :
  match getTotalByCurrency accounts1 c with
  | Some v => JS.falsy_number v = true
  | None => True
  end ->
  Exists (fun acc => Account.currency acc = c) accounts2 ->
  getTotalByCurrency (accounts1 ++ accounts2) c
  = getTotalByCurrency accounts2 c.
Proof.
  intros Hfalsy Hex. unfold getTotalByCurrency.
  rewrite fold_left_app. apply totals_fold_restart; [|exact Hex].
  fold (getTotalByCurrency accounts1). unfold totals_or_zero.
  destruct (getTotalByCurrency accounts1 c) as [v|]; [|reflexivity].
  now rewrite Hfalsy.
Qed.

Lemma falsy_running_total_is_dropped_witness :
  let accounts1 := [Account.mk "a" "A" KES nan] in
  let accounts2 := [Account.mk "b" "B" KES 5%float] in
  (match getTotalByCurrency accounts1 KES with
   | Some v => JS.falsy_number v = true
   | None => True
   end
   /\ Exists (fun acc => Account.currency acc = KES) accounts2)
  /\ getTotalByCurrency (accounts1 ++ accounts2) KES
     = getTotalByCurrency accounts2 KES.
Proof.
  intros accounts1 accounts2.
  assert (match getTotalByCurrency accounts1 KES with
          | Some v => JS.falsy_number v = true
          | None => True
          end) as H1 by (vm_compute; reflexivity).
  assert (Exists (fun acc => Account.currency acc = KES) accounts2) as H2
    by (left; reflexivity).
  split; [split; assumption|].
  exact (falsy_running_total_is_dropped accounts1 accounts2 KES H1 H2).
Defined.

(** A submission, carried out or not, leaves the total of every currency
    other than those of the two accounts it names as it was. *)
Theorem transfer_leaves_other_totals
    (events : list Event) (clock : Clock.t)
    (fromAccount toAccount : Account.t) (c : Currency) :
  let st := run events initialState in
  let form := State.transferForm st in
  resolve (State.accounts st) (TransferForm.fromAccount form) = Some fromAccount ->
  resolve (State.accounts st) (TransferForm.toAccount form) = Some toAccount ->
  c <> Account.currency fromAccount ->
  c <> Account.currency toAccount ->
  getTotalByCurrency (State.accounts (handleTransfer clock st)) c
  = getTotalByCurrency (State.accounts st) c.
Proof.
  intros st form Hfrom Hto Hcf Hct. subst form.
  destruct (handleTransfer_cases clock st)
    as [[e He]|(f & t & a & cv & fx & _ & He)]; rewrite He; [reflexivity|].
  cbn [commit State.accounts]. unfold getTotalByCurrency.
  assert (NoDup (map Account.id (State.accounts st))) as Hnd
    by (subst st; rewrite run_ids; apply initial_ids_NoDup).
  apply totals_fold_other; [|reflexivity].
  intros acc Hin. split; [apply updateAccount_currency|].
  intros Hacc_c. unfold updateAccount.
  destruct (String.eqb_spec (Account.id acc)
              (TransferForm.fromAccount (State.transferForm st))) as [E|E].
  - rewrite (resolve_unique _ _ _ _ Hnd Hfrom Hin E) in Hacc_c. congruence.
  - destruct (String.eqb_spec (Account.id acc)
                (TransferForm.toAccount (State.transferForm st))) as [E'|E'];
      [|reflexivity].
    rewrite (resolve_unique _ _ _ _ Hnd Hto Hin E') in Hacc_c. congruence.
Qed.

Lemma transfer_leaves_other_totals_witness :
  let st := run (fill "mpesa_kes_1" "bank_usd_1" "100000") initialState in
  let form := State.transferForm st in
  let fromAccount := Account.mk "mpesa_kes_1" "Mpesa_KES_1" KES 2500000 in
  let toAccount := Account.mk "bank_usd_1" "Bank_USD_1" USD 45000 in
  (resolve (State.accounts st) (TransferForm.fromAccount form) = Some fromAccount
   /\ resolve (State.accounts st) (TransferForm.toAccount form) = Some toAccount
   /\ NGN <> Account.currency fromAccount
   /\ NGN <> Account.currency toAccount)
  /\ getTotalByCurrency (State.accounts (handleTransfer clock0 st)) NGN
     = getTotalByCurrency (State.accounts st) NGN.
Proof.
  intros st form fromAccount toAccount.
  assert (NGN <> Account.currency fromAccount) as H3 by discriminate.
  assert (NGN <> Account.currency toAccount) as H4 by discriminate.
  split; [conjuncts; try reflexivity; assumption|].
  exact (transfer_leaves_other_totals
           (fill "mpesa_kes_1" "bank_usd_1" "100000") clock0
           fromAccount toAccount NGN eq_refl eq_refl H3 H4).
Defined.

(** ** The cards of the dashboard *)

Lemma object_get_set (o : list (Currency * float)) (k c : Currency) (v : float) :
  object_get (object_set o k v) c
  = if Currency_eqb c k then Some v else object_get o c.
Proof.
  induction o as [|[k' x] o IH]; cbn [object_set object_get].
  - destruct (Currency_eqb_eq k c) as [H1 H2].
    destruct (Currency_eqb_eq c k) as [H3 H4].
    destruct (Currency_eqb k c) eqn:E, (Currency_eqb c k) eqn:E';
      try reflexivity.
    + specialize (H1 eq_refl). symmetry in H1.
      apply H4 in H1. discriminate.
    + specialize (H3 eq_refl). symmetry in H3.
      apply H2 in H3. discriminate.
  - destruct (Currency_eqb k' k) eqn:E; cbn [object_get].
    + apply Currency_eqb_eq in E. subst k'.
      destruct (Currency_eqb k c) eqn:E1.
      * apply Currency_eqb_eq in E1. subst c.
        now rewrite (proj2 (Currency_eqb_eq k k) eq_refl).
      * destruct (Currency_eqb c k) eqn:E2; [|reflexivity].
        apply Currency_eqb_eq in E2. subst c.
        now rewrite (proj2 (Currency_eqb_eq k k) eq_refl) in E1.
    + destruct (Currency_eqb k' c) eqn:E1; [|exact IH].
      apply Currency_eqb_eq in E1. subst k'.
      destruct (Currency_eqb c k) eqn:E2; [|reflexivity].
      congruence.
Qed.

Lemma entries_fold_get (accounts : list Account.t) :
  forall (o : list (Currency * float)) (totals : CurrencyTotals),
    (forall c, object_get o c = totals c) ->
    forall c,
      object_get
        (fold_left
           (fun totals acc =>
              object_set totals (Account.currency acc)
                (match object_get totals (Account.currency acc) with
                 | Some v => if JS.falsy_number v then 0%float else v
                 | None => 0%float
                 end + Account.balance acc)%float)
           accounts o) c
      = fold_left
          (fun totals acc =>
             totals_set totals (Account.currency acc)
               (totals_or_zero totals (Account.currency acc)
                + Account.balance acc)%float)
          accounts totals c.
Proof.
  induction accounts as [|acc accounts IH]; intros o totals H c.
  - apply H.
  - cbn [fold_left]. apply IH. intros d.
    rewrite object_get_set. unfold totals_set, totals_or_zero.
    now rewrite !H.
Qed.

Lemma object_set_keys (o : list (Currency * float)) (c : Currency) (v : float) :
  map fst (object_set o c v)
  = if existsb (fun k => Currency_eqb k c) (map fst o)
    then map fst o else (map fst o ++ [c])%list.
Proof.
  induction o as [|[k x] o IH]; [reflexivity|].
  cbn [object_set map fst existsb].
  destruct (Currency_eqb k c); cbn [orb map fst]; [reflexivity|].
  rewrite IH. now destruct (existsb _ (map fst o)).
Qed.

Lemma entries_fold_keys (accounts : list Account.t) :
  forall o : list (Currency * float),
    map fst
      (fold_left
         (fun totals acc =>
            object_set totals (Account.currency acc)
              (match object_get totals (Account.currency acc) with
               | Some v => if JS.falsy_number v then 0%float else v
               | None => 0%float
               end + Account.balance acc)%float)
         accounts o)
    = (map fst o ++ firstOccurrences (map fst o) accounts)%list.
Proof.
  induction accounts as [|acc accounts IH]; intros o.
  - cbn. now rewrite List.app_nil_r.
  - cbn [fold_left firstOccurrences]. rewrite IH, object_set_keys.
    destruct (existsb _ (map fst o)); [reflexivity|].
    now rewrite <- app_assoc.
Qed.

Lemma firstOccurrences_currencies (accounts accounts' : list Account.t) :
  map Account.currency accounts = map Account.currency accounts' ->
  forall seen, firstOccurrences seen accounts = firstOccurrences seen accounts'.
Proof.
  revert accounts'.
  induction accounts as [|acc accounts IH]; intros [|acc' accounts'] H seen;
    try discriminate; [reflexivity|].
  cbn [map] in H. injection H as Hc Hrest.
  cbn [firstOccurrences]. rewrite Hc.
  destruct (existsb _ seen); [now apply IH|].
  f_equal. now apply IH.
Qed.

(** The dashboard shows one card per currency that an account has, in the
    order in which the currencies first occur in the list of accounts, each
    with the total of its currency; in every state a run from the seed
    state reaches these are the cards of KES, USD and NGN, in this order. *)
Theorem dashboard_cards (accounts : list Account.t) (events : list Event) :
  map fst (currencyTotalsEntries accounts) = firstOccurrences [] accounts
  /\ (forall c,
        object_get (currencyTotalsEntries accounts) c
        = getTotalByCurrency accounts c)
  /\ map fst (currencyTotalsEntries
                (State.accounts (run events initialState)))
     = [KES; USD; NGN].
Proof.
  unfold currencyTotalsEntries. conjuncts.
  - now rewrite entries_fold_keys.
  - intros c. now apply entries_fold_get.
  - rewrite entries_fold_keys. cbn [map app].
    rewrite (firstOccurrences_currencies _ initialAccounts); [reflexivity|].
    pose proof (run_identity events initialState) as H.
    apply (f_equal (map (fun i : string * string * Currency => snd i))) in H.
    rewrite !map_map in H. exact H.
Qed.
